(** * Slow steaming engine: speed, cost and emission core

    A shallow embedding of [utils/optimization.py], [utils/emissions.py],
    [models/vessel.py] and [models/route.py].

    Numbers.  The Python code computes with binary floating point; here a
    finite float is an exact rational ([Q]), so rounding and overflow are
    idealised away and signed zeros are identified.  What is kept is the
    part of float behaviour the code can observe:
    - Python's own [/] raises [ZeroDivisionError] on a zero divisor;
    - numpy's [float64] scalars (the elements of [np.arange], the [x] of
      [scipy.optimize.minimize]) never raise: a zero divisor yields an
      infinity or a NaN, which then flows through the rest of the
      computation.
    Equalities between computed rationals are stated with [==] ([Qeq]).

    The one place where rounding changes more than a last digit is the
    number of samples of [np.arange], a ceiling of a rounded quotient: on
    decimal bounds the binary64 count can be one more than the exact one.
    [arange] below keeps the exact count; [round64] and [profile_length64]
    give the binary64 count, and statements about the number of rows are
    made where the two agree. *)

From Stdlib Require Import QArith Qround Qabs Qpower ZArith List String Bool Lia Lqa.
Import ListNotations.

Open Scope Q_scope.

(** ** Exceptions and the error monad *)

Inductive exn : Type :=
| ZeroDivisionError
| ValueError
| KeyError.

Inductive result (A : Type) : Type :=
| Ok (a : A)
| Raise (e : exn).

Arguments Ok {A} a.
Arguments Raise {A} e.

Definition bind {A B : Type} (m : result A) (k : A -> result B) : result B :=
  match m with
  | Ok a => k a
  | Raise e => Raise e
  end.

Notation "x <- m ;; k" := (bind m (fun x => k))
  (at level 61, m at next level, right associativity).

Definition raises {A : Type} (m : result A) : Prop := exists e, m = Raise e.
Definition returns {A : Type} (m : result A) : Prop := exists a, m = Ok a.

Fixpoint mapM {A B : Type} (f : A -> result B) (l : list A) : result (list B) :=
  match l with
  | [] => Ok []
  | a :: l' => b <- f a ;; bs <- mapM f l' ;; Ok (b :: bs)
  end.

(** ** Boolean comparisons on rationals *)

Definition Qlt_bool (a b : Q) : bool := negb (Qle_bool b a).

(** ** Floats that may be infinite or NaN *)

Inductive xfloat : Type :=
| Fin (q : Q)
| PInf
| NInf
| NaN.

(** IEEE [<=]: every comparison with a NaN is false. *)
Definition xle (a b : xfloat) : Prop :=
  match a, b with
  | NaN, _ | _, NaN => False
  | NInf, _ => True
  | _, PInf => True
  | Fin p, Fin q => p <= q
  | _, _ => False
  end.

(** The sign of a rational, as used by products and quotients with an
    infinity. *)
Definition inf_of_sign (q : Q) : xfloat :=
  if Qlt_bool 0 q then PInf else if Qlt_bool q 0 then NInf else NaN.

Definition xneg (a : xfloat) : xfloat :=
  match a with
  | Fin q => Fin (- q)
  | PInf => NInf
  | NInf => PInf
  | NaN => NaN
  end.

Definition xadd (a b : xfloat) : xfloat :=
  match a, b with
  | NaN, _ | _, NaN => NaN
  | Fin p, Fin q => Fin (p + q)
  | PInf, NInf | NInf, PInf => NaN
  | PInf, _ | _, PInf => PInf
  | NInf, _ | _, NInf => NInf
  end.

Definition xsub (a b : xfloat) : xfloat := xadd a (xneg b).

Definition xmul (a b : xfloat) : xfloat :=
  match a, b with
  | NaN, _ | _, NaN => NaN
  | Fin p, Fin q => Fin (p * q)
  | Fin p, PInf | PInf, Fin p => inf_of_sign p
  | Fin p, NInf | NInf, Fin p => inf_of_sign (- p)
  | PInf, PInf | NInf, NInf => PInf
  | PInf, NInf | NInf, PInf => NInf
  end.

(** numpy's [float64] division: never raises. *)
Definition xdiv (a b : xfloat) : xfloat :=
  match a, b with
  | NaN, _ | _, NaN => NaN
  | Fin p, Fin q => if Qeq_bool q 0 then inf_of_sign p else Fin (p / q)
  | Fin _, (PInf | NInf) => Fin 0
  | PInf, Fin q => if Qlt_bool q 0 then NInf else PInf
  | NInf, Fin q => if Qlt_bool q 0 then PInf else NInf
  | _, _ => NaN
  end.

Definition xpow (a : xfloat) (n : positive) : xfloat :=
  match a with
  | Fin q => Fin (q ^ Zpos n)
  | PInf => PInf
  | NInf => match n with xO _ => PInf | _ => NInf end
  | NaN => NaN
  end.

(** ** The two arithmetics a Python expression can run in

    The source functions are duck typed: [calculate_fuel_consumption] is
    called with Python floats by the compliance forecast and with numpy
    scalars by the optimizer.  [Num] is that interface; the operand type
    selects the instance. *)

Class Num (V : Type) : Type := {
  of_Q : Q -> V;
  add : V -> V -> V;
  sub : V -> V -> V;
  mul : V -> V -> V;
  div : V -> V -> result V;
  pow : V -> positive -> V
}.

(** Python [float]: [/] raises on a zero divisor. *)
#[export] Instance py_float : Num Q := {
  of_Q := fun q => q;
  add := Qplus;
  sub := Qminus;
  mul := Qmult;
  div := fun a b => if Qeq_bool b 0 then Raise ZeroDivisionError else Ok (a / b);
  pow := fun a n => a ^ Zpos n
}.

(** numpy [float64]: [/] returns an infinity or NaN on a zero divisor. *)
#[export] Instance np_float64 : Num xfloat := {
  of_Q := Fin;
  add := xadd;
  sub := xsub;
  mul := xmul;
  div := fun a b => Ok (xdiv a b);
  pow := xpow
}.

(** ** models/route.py *)

Record Waypoint : Type := {
  wp_name : string;
  wp_lat : Q;
  wp_lon : Q
}.

Record Route : Type := {
  route_name : string;
  distance : Q;
  waypoints : list Waypoint
}.

Module RouteM.

(** [Route.get_transit_time]. *)
Definition get_transit_time (self : Route) (speed : Q) : result xfloat :=
  if Qle_bool speed 0 then Ok PInf
  else t <- div (distance self) (speed * 24) ;; Ok (Fin t).

End RouteM.

(** ** Dictionaries

    A Python [dict] keeps its keys in insertion order and the code iterates
    over [.items()], so a dictionary is an association list. *)

Definition dict (V : Type) : Type := list (string * V).

Fixpoint dict_get {V : Type} (d : dict V) (key : string) : option V :=
  match d with
  | [] => None
  | (k, v) :: d' => if String.eqb k key then Some v else dict_get d' key
  end.

(** [d.get(key, default)]. *)
Definition get_default {V : Type} (d : dict V) (key : string) (default : V) : V :=
  match dict_get d key with
  | Some v => v
  | None => default
  end.

(** [d[key]]. *)
Definition subscript {V : Type} (d : dict V) (key : string) : result V :=
  match dict_get d key with
  | Some v => Ok v
  | None => Raise KeyError
  end.

Definition keys {V : Type} (d : dict V) : list string := map fst d.

(** The vessel dictionary [vessel_data]: the entries the core reads, each
    of which may be absent ([vessel_data.get(key, default)]). *)
Record vessel_data : Type := {
  vd_name : option string;
  vd_type : option string;
  vd_deadweight : option Q;
  vd_max_speed : option Q;
  vd_design_speed : option Q;
  vd_design_consumption : option Q;
  vd_year_built : option Z
}.

Definition get {A : Type} (entry : option A) (default : A) : A :=
  match entry with
  | Some a => a
  | None => default
  end.

(** ** utils/optimization.py *)

(** [calculate_fuel_consumption(speed, vessel_data)], in the arithmetic of
    [speed]. *)
Definition calculate_fuel_consumption {V : Type} `{Num V}
    (speed : V) (vd : vessel_data) : result V :=
  let design_speed := get (vd_design_speed vd) 20 in
  let design_consumption := get (vd_design_consumption vd) 180 in
  r <- div speed (of_Q design_speed) ;;
  let fuel_consumption := mul (of_Q design_consumption) (pow r 3) in
  Ok fuel_consumption.

(** The default emission factors of [calculate_emissions], in g per ton of
    fuel. *)
Definition default_emission_factors : dict Q :=
  [("CO2"%string, 3114000); ("SOx"%string, 54000); ("NOx"%string, 57000)].

(** [calculate_emissions(fuel_consumption, emission_factors=None)]. *)
Definition calculate_emissions {V : Type} `{Num V}
    (fuel_consumption : V) (emission_factors : option (dict Q)) : result (dict V) :=
  let emission_factors :=
    match emission_factors with
    | None => default_emission_factors
    | Some factors => factors
    end in
  mapM (fun item : string * Q =>
          let (emission_type, factor) := item in
          e <- div (mul fuel_consumption (of_Q factor)) (of_Q 1000000) ;;
          Ok (emission_type, e))
       emission_factors.

(** [calculate_cost]. *)
Definition calculate_cost {V : Type} `{Num V}
    (fuel_consumption fuel_price transit_time vessel_day_cost : V) : V :=
  let fuel_cost := mul fuel_consumption fuel_price in
  let time_cost := mul transit_time vessel_day_cost in
  add fuel_cost time_cost.

(** The inner [objective_function] of [optimize_speed]; [speed] is the
    element of the numpy array the minimizer passes in. *)
Definition objective_function (vd : vessel_data)
    (route_distance fuel_price vessel_day_cost : Q) (speed_value : Q) : result xfloat :=
  transit_time <- div (Fin route_distance) (mul (Fin speed_value) (Fin 24)) ;;
  daily_fuel <- calculate_fuel_consumption (Fin speed_value) vd ;;
  let total_fuel := mul daily_fuel transit_time in
  let fuel_cost := mul total_fuel (Fin fuel_price) in
  let time_cost := mul transit_time (Fin vessel_day_cost) in
  Ok (add fuel_cost time_cost).

(** [scipy.optimize.minimize(fun, [x0], bounds=[(lo, hi)], method='L-BFGS-B')]
    is library code.  What the core relies on is its interface: inverted
    bounds are rejected with a [ValueError]; otherwise the start is clipped
    into the bounds, every iterate stays feasible, and a result object is
    always returned (the core never inspects its [success] flag). *)
Class BoundedMinimizer : Type := {
  minimize : (Q -> result xfloat) -> Q -> Q -> Q -> result Q;
  minimize_inverted : forall f x0 lo hi,
    hi < lo -> minimize f x0 lo hi = Raise ValueError;
  minimize_returns : forall f x0 lo hi,
    lo <= hi -> returns (minimize f x0 lo hi);
  minimize_feasible : forall f x0 lo hi x,
    minimize f x0 lo hi = Ok x -> lo <= x <= hi
}.

Record Comparison : Type := {
  cmp_design_speed : Q;
  cmp_design_transit_time : Q;
  cmp_design_fuel_consumption : Q;
  cmp_design_cost : Q;
  cmp_design_emissions : dict Q
}.

Record OptimizationResult : Type := {
  optimal_speed : Q;
  transit_time : xfloat;
  daily_fuel_consumption : xfloat;
  total_fuel_consumption : xfloat;
  fuel_cost : xfloat;
  time_cost : xfloat;
  total_cost : xfloat;
  emissions : dict xfloat;
  fuel_savings : xfloat;
  cost_savings : xfloat;
  co2_reduction : xfloat;
  comparison : Comparison
}.

(** [optimize_speed].  The optimum is a numpy scalar, so everything
    computed from it is numpy arithmetic; the design-speed baseline is
    computed from the Python numbers of the arguments. *)
Definition optimize_speed `{BoundedMinimizer} (vd : vessel_data)
    (route_distance fuel_price vessel_day_cost min_speed max_speed : Q)
    : result OptimizationResult :=
  let initial_speed := get (vd_design_speed vd) 20 * 0.8 in
  x <- minimize (objective_function vd route_distance fuel_price vessel_day_cost)
                initial_speed min_speed max_speed ;;
  let optimal_speed := x in
  transit_time <- div (Fin route_distance) (mul (Fin optimal_speed) (Fin 24)) ;;
  daily_fuel <- calculate_fuel_consumption (Fin optimal_speed) vd ;;
  let total_fuel := mul daily_fuel transit_time in
  emissions <- calculate_emissions total_fuel None ;;
  let fuel_cost := mul total_fuel (Fin fuel_price) in
  let time_cost := mul transit_time (Fin vessel_day_cost) in
  let total_cost := add fuel_cost time_cost in
  let design_speed := get (vd_design_speed vd) 20 in
  design_transit_time <- div route_distance (design_speed * 24) ;;
  design_daily_fuel <- calculate_fuel_consumption design_speed vd ;;
  let design_total_fuel := design_daily_fuel * design_transit_time in
  design_emissions <- calculate_emissions design_total_fuel None ;;
  let design_fuel_cost := design_total_fuel * fuel_price in
  let design_time_cost := design_transit_time * vessel_day_cost in
  let design_total_cost := design_fuel_cost + design_time_cost in
  let fuel_savings := sub (Fin design_total_fuel) total_fuel in
  let cost_savings := sub (Fin design_total_cost) total_cost in
  design_co2 <- subscript design_emissions "CO2" ;;
  co2 <- subscript emissions "CO2" ;;
  let co2_reduction := sub (Fin design_co2) co2 in
  Ok {| optimal_speed := optimal_speed;
        transit_time := transit_time;
        daily_fuel_consumption := daily_fuel;
        total_fuel_consumption := total_fuel;
        fuel_cost := fuel_cost;
        time_cost := time_cost;
        total_cost := total_cost;
        emissions := emissions;
        fuel_savings := fuel_savings;
        cost_savings := cost_savings;
        co2_reduction := co2_reduction;
        comparison :=
          {| cmp_design_speed := design_speed;
             cmp_design_transit_time := design_transit_time;
             cmp_design_fuel_consumption := design_total_fuel;
             cmp_design_cost := design_total_cost;
             cmp_design_emissions := design_emissions |} |}.

(** [np.arange(start, stop, step)]: the [ceil((stop - start) / step)]
    values [start + i * step], over exact rationals.  numpy takes the
    ceiling of the binary64 quotient ([arange_length64] below), which can
    be one more when the exact quotient is a whole number or just below
    one. *)
Definition arange (start stop step : Q) : result (list Q) :=
  if Qeq_bool step 0 then Raise ZeroDivisionError
  else
    let length := Z.to_nat (Qceiling ((stop - start) / step)) in
    Ok (map (fun i : nat => start + inject_Z (Z.of_nat i) * step) (seq 0 length)).

(** One row of the profile's data frame. *)
Record SpeedProfilePoint : Type := {
  row_speed : Q;
  row_transit_time : xfloat;
  row_daily_fuel : xfloat;
  row_total_fuel : xfloat;
  row_fuel_cost : xfloat;
  row_time_cost : xfloat;
  row_total_cost : xfloat;
  row_co2_emissions : xfloat;
  row_sox_emissions : xfloat;
  row_nox_emissions : xfloat
}.

(** The body of the [for speed in speeds] loop of [generate_speed_profile]. *)
Definition profile_row (vd : vessel_data)
    (route_distance fuel_price vessel_day_cost : Q) (speed : Q)
    : result SpeedProfilePoint :=
  transit_time <- div (Fin route_distance) (mul (Fin speed) (Fin 24)) ;;
  daily_fuel <- calculate_fuel_consumption (Fin speed) vd ;;
  let total_fuel := mul daily_fuel transit_time in
  emissions <- calculate_emissions total_fuel None ;;
  let fuel_cost := mul total_fuel (Fin fuel_price) in
  let time_cost := mul transit_time (Fin vessel_day_cost) in
  let total_cost := add fuel_cost time_cost in
  co2 <- subscript emissions "CO2" ;;
  sox <- subscript emissions "SOx" ;;
  nox <- subscript emissions "NOx" ;;
  Ok {| row_speed := speed;
        row_transit_time := transit_time;
        row_daily_fuel := daily_fuel;
        row_total_fuel := total_fuel;
        row_fuel_cost := fuel_cost;
        row_time_cost := time_cost;
        row_total_cost := total_cost;
        row_co2_emissions := co2;
        row_sox_emissions := sox;
        row_nox_emissions := nox |}.

(** [generate_speed_profile]; the data frame is the list of its rows. *)
Definition generate_speed_profile (vd : vessel_data)
    (route_distance fuel_price vessel_day_cost : Q)
    (speed_range : Q * Q) (step : Q) : result (list SpeedProfilePoint) :=
  let (min_speed, max_speed) := speed_range in
  speeds <- arange min_speed (max_speed + step) step ;;
  mapM (profile_row vd route_distance fuel_price vessel_day_cost) speeds.

(** ** The sample count in binary64

    [np.arange] on Python floats computes its length as
    [ceil((stop - start) / step)] with a binary64 subtraction and a
    binary64 division; [generate_speed_profile] passes the binary64 sum
    [max_speed + step] as [stop]. *)

(** The nearest integer, ties to the even one. *)
Definition round_half_even (q : Q) : Z :=
  let f := Qfloor q in
  match Qcompare (q - inject_Z f) (1 # 2) with
  | Lt => f
  | Gt => (f + 1)%Z
  | Eq => if Z.even f then f else (f + 1)%Z
  end.

(** The [e] with [2^e <= |q| < 2^(e+1)], for a non-zero [q]. *)
Definition binade (q : Q) : Z :=
  let e := (Z.log2 (Z.abs (Qnum q)) - Z.log2 (Zpos (Qden q)))%Z in
  if Qlt_bool (Qabs q) (2 ^ e) then (e - 1)%Z else e.

(** Rounding to the nearest binary64 number (53 significant bits, ties to
    even); the exponent range is left unbounded, so overflow and
    subnormal numbers are not modelled. *)
Definition round64 (q : Q) : Q :=
  if Qeq_bool q 0 then 0
  else
    let e := (binade q - 52)%Z in
    Qred (inject_Z (round_half_even (q / 2 ^ e)) * 2 ^ e).

Definition arange_length64 (start stop step : Q) : Z :=
  Qceiling (round64 (round64 (stop - start) / step)).

(** The number of rows of [generate_speed_profile] in binary64. *)
Definition profile_length64 (min_speed max_speed step : Q) : Z :=
  arange_length64 min_speed (round64 (max_speed + step)) step.

(** A binary fraction [z / 2^m] small enough for the sums, differences and
    quotients of the sample count to be exact in binary64: multiples of
    0.5 such as the speed inputs of the pages are of this kind, 12.1 and
    0.1 are not. *)
Definition binary_exact (m : nat) (q : Q) : Prop :=
  (m <= 1000)%nat /\
  exists z : Z, (Z.abs z <= 2 ^ 51)%Z /\ q == inject_Z z / inject_Z (2 ^ Z.of_nat m).

(** ** utils/emissions.py *)

(** The per-fuel-type table of [calculate_detailed_emissions], in g per ton
    of fuel. *)
Definition emission_factors : dict (dict Q) :=
  [("VLSFO"%string,
    [("CO2"%string, 3114000); ("SOx"%string, 10000);
     ("NOx"%string, 57000); ("PM"%string, 1400)]);
   ("MGO"%string,
    [("CO2"%string, 3206000); ("SOx"%string, 2000);
     ("NOx"%string, 60000); ("PM"%string, 1000)]);
   ("LSFO"%string,
    [("CO2"%string, 3114000); ("SOx"%string, 20000);
     ("NOx"%string, 57000); ("PM"%string, 1800)]);
   ("HFO"%string,
    [("CO2"%string, 3114000); ("SOx"%string, 70000);
     ("NOx"%string, 57000); ("PM"%string, 2400)])].

(** [calculate_detailed_emissions(fuel_consumption, fuel_type='VLSFO')]. *)
Definition calculate_detailed_emissions {V : Type} `{Num V}
    (fuel_consumption : V) (fuel_type : string) : result (dict V) :=
  vlsfo <- subscript emission_factors "VLSFO" ;;
  let factors := get_default emission_factors fuel_type vlsfo in
  mapM (fun item : string * Q =>
          let (emission_type, factor) := item in
          e <- div (mul fuel_consumption (of_Q factor)) (of_Q 1000000) ;;
          Ok (emission_type, e))
       factors.

Inductive Rating : Type := A | B | C | D | E.

Record CIIResult : Type := {
  co2_emissions : Q;
  transport_work : Q;
  aer : Q;
  reference_aer : Q;
  cii_ratio : Q;
  rating : Rating
}.

Definition reference_values : dict Q :=
  [("Container Ship"%string, 11.5); ("Bulk Carrier"%string, 7.0);
   ("Oil Tanker"%string, 5.1); ("Gas Carrier"%string, 8.9);
   ("General Cargo"%string, 15.3)].

(** The default of [cargo_capacity_utilization]. *)
Definition default_utilization : Q := 0.7.

(** [calculate_cii_rating], on Python floats. *)
Definition calculate_cii_rating (vd : vessel_data)
    (annual_distance annual_fuel cargo_capacity_utilization : Q) : result CIIResult :=
  let co2_emissions := annual_fuel * 3.114 in
  let deadweight := get (vd_deadweight vd) 100000 in
  let transport_work := deadweight * annual_distance * cargo_capacity_utilization in
  aer <- div (co2_emissions * 1000000) transport_work ;;
  let ship_type := get (vd_type vd) "Container Ship"%string in
  let reference_aer := get_default reference_values ship_type 10.0 in
  cii_ratio <- div aer reference_aer ;;
  let rating :=
    if Qlt_bool cii_ratio 0.86 then A
    else if Qlt_bool cii_ratio 0.93 then B
    else if Qlt_bool cii_ratio 1.03 then C
    else if Qlt_bool cii_ratio 1.10 then D
    else E in
  Ok {| co2_emissions := co2_emissions;
        transport_work := transport_work;
        aer := aer;
        reference_aer := reference_aer;
        cii_ratio := cii_ratio;
        rating := rating |}.

Record Scenario : Type := {
  sc_speed : Q;
  sc_annual_fuel : Q;
  sc_cii_ratio : Q;
  sc_cii_rating : Rating
}.

Record Savings : Type := {
  sv_fuel_savings : Q;
  sv_emission_savings : Q;
  sv_percentage_reduction : Q
}.

Record ComplianceForecast : Type := {
  current_scenario : Scenario;
  proposed_scenario : Scenario;
  savings : Savings
}.

(** [calculate_compliance_forecast], on Python floats. *)
Definition calculate_compliance_forecast (vd : vessel_data)
    (current_speed proposed_speed annual_distance : Q) : result ComplianceForecast :=
  current_daily_consumption <- calculate_fuel_consumption current_speed vd ;;
  proposed_daily_consumption <- calculate_fuel_consumption proposed_speed vd ;;
  current_annual_time <- div annual_distance (current_speed * 24) ;;
  proposed_annual_time <- div annual_distance (proposed_speed * 24) ;;
  let current_annual_fuel := current_daily_consumption * current_annual_time in
  let proposed_annual_fuel := proposed_daily_consumption * proposed_annual_time in
  current_cii <- calculate_cii_rating vd annual_distance current_annual_fuel
                   default_utilization ;;
  proposed_cii <- calculate_cii_rating vd annual_distance proposed_annual_fuel
                    default_utilization ;;
  let fuel_savings := current_annual_fuel - proposed_annual_fuel in
  let emission_savings := co2_emissions current_cii - co2_emissions proposed_cii in
  percentage <- div fuel_savings current_annual_fuel ;;
  Ok {| current_scenario :=
          {| sc_speed := current_speed;
             sc_annual_fuel := current_annual_fuel;
             sc_cii_ratio := cii_ratio current_cii;
             sc_cii_rating := rating current_cii |};
        proposed_scenario :=
          {| sc_speed := proposed_speed;
             sc_annual_fuel := proposed_annual_fuel;
             sc_cii_ratio := cii_ratio proposed_cii;
             sc_cii_rating := rating proposed_cii |};
        savings :=
          {| sv_fuel_savings := fuel_savings;
             sv_emission_savings := emission_savings;
             sv_percentage_reduction := percentage * 100 |} |}.

(** ** models/vessel.py *)

(** The attributes of a [Vessel] that the performance model reads.  The
    two [optimal_speed] bounds are cube roots and are left out. *)
Record Vessel : Type := {
  name : string;
  type : string;
  deadweight : Q;
  max_speed : Q;
  design_speed : Q;
  design_consumption : Q;
  year_built : Z;
  specific_fuel_consumption : Q;
  optimal_load_min : Q;
  optimal_load_max : Q
}.

Module VesselM.

(** [Vessel.__init__] followed by [calculate_derived_parameters]. *)
Definition init (data : vessel_data) : Vessel :=
  let year_built := get (vd_year_built data) 2010%Z in
  {| name := get (vd_name data) "Unknown Vessel"%string;
     type := get (vd_type data) "Container Ship"%string;
     deadweight := get (vd_deadweight data) 100000;
     max_speed := get (vd_max_speed data) 25;
     design_speed := get (vd_design_speed data) 20;
     design_consumption := get (vd_design_consumption data) 180;
     year_built := year_built;
     specific_fuel_consumption :=
       if (2015 <=? year_built)%Z then 175
       else if (2000 <=? year_built)%Z then 185
       else 195;
     optimal_load_min := 70;
     optimal_load_max := 85 |}.

(** [Vessel.get_fuel_consumption]. *)
Definition get_fuel_consumption (self : Vessel) (speed : Q) : result Q :=
  r <- div speed (design_speed self) ;;
  Ok (design_consumption self * pow r 3).

(** [Vessel.get_engine_load]. *)
Definition get_engine_load (self : Vessel) (speed : Q) : result Q :=
  r <- div speed (max_speed self) ;;
  Ok (100 * pow r 3).

(** [Vessel.is_speed_in_optimal_range]. *)
Definition is_speed_in_optimal_range (self : Vessel) (speed : Q) : result bool :=
  load <- get_engine_load self speed ;;
  Ok (Qle_bool (optimal_load_min self) load && Qle_bool load (optimal_load_max self)).

End VesselM.

(** ** A concrete bounded minimizer

    A derivative-free search that honours the interface above: it samples
    the objective at the clipped start and on a grid of [n + 1] points
    spanning the bounds, and keeps the first sample of least value. *)

Definition xleb (a b : xfloat) : bool :=
  match a, b with
  | NaN, _ | _, NaN => false
  | NInf, _ => true
  | _, PInf => true
  | Fin p, Fin q => Qle_bool p q
  | _, _ => false
  end.

Definition clip (x lo hi : Q) : Q :=
  if Qlt_bool x lo then lo else if Qlt_bool hi x then hi else x.

Definition value_at (f : Q -> result xfloat) (x : Q) : xfloat :=
  match f x with
  | Ok v => v
  | Raise _ => NaN
  end.

Fixpoint best_of (f : Q -> result xfloat) (best : Q) (candidates : list Q) : Q :=
  match candidates with
  | [] => best
  | c :: cs =>
      if xleb (value_at f best) (value_at f c) then best_of f best cs
      else best_of f c cs
  end.

Definition grid (lo hi : Q) (n : nat) : list Q :=
  map (fun i : nat =>
         lo + (hi - lo) * (inject_Z (Z.of_nat i) / inject_Z (Z.of_nat n)))
      (seq 0 (S n)).

Definition grid_minimize (n : nat) (f : Q -> result xfloat) (x0 lo hi : Q) : result Q :=
  if Qlt_bool hi lo then Raise ValueError
  else Ok (best_of f (clip x0 lo hi) (grid lo hi (S n))).

(** ** Sample data (tests/conftest.py) *)

Definition sample_vessel_data : vessel_data :=
  {| vd_name := Some "Test Vessel"%string;
     vd_type := Some "Container Ship"%string;
     vd_deadweight := Some 100000;
     vd_max_speed := Some 25;
     vd_design_speed := Some 20;
     vd_design_consumption := Some 180;
     vd_year_built := Some 2010%Z |}.

(** The empty dictionary: every [get] falls back to its default. *)
Definition empty_vessel_data : vessel_data :=
  {| vd_name := None;
     vd_type := None;
     vd_deadweight := None;
     vd_max_speed := None;
     vd_design_speed := None;
     vd_design_consumption := None;
     vd_year_built := None |}.

(** ** The emission factor tables as the specification words them

    Grams per ton of fuel; a fuel type outside VLSFO, MGO, LSFO and HFO has
    the VLSFO factors. *)

Definition spec_detailed_factor (fuel_type pollutant : string) : Q :=
  if String.eqb fuel_type "MGO" then
    if String.eqb pollutant "CO2" then 3206000
    else if String.eqb pollutant "SOx" then 2000
    else if String.eqb pollutant "NOx" then 60000
    else 1000
  else if String.eqb fuel_type "LSFO" then
    if String.eqb pollutant "CO2" then 3114000
    else if String.eqb pollutant "SOx" then 20000
    else if String.eqb pollutant "NOx" then 57000
    else 1800
  else if String.eqb fuel_type "HFO" then
    if String.eqb pollutant "CO2" then 3114000
    else if String.eqb pollutant "SOx" then 70000
    else if String.eqb pollutant "NOx" then 57000
    else 2400
  else
    if String.eqb pollutant "CO2" then 3114000
    else if String.eqb pollutant "SOx" then 10000
    else if String.eqb pollutant "NOx" then 57000
    else 1400.

Definition spec_simple_factor (pollutant : string) : Q :=
  if String.eqb pollutant "CO2" then 3114000
  else if String.eqb pollutant "SOx" then 54000
  else 57000.

(** A vessel of a type outside the reference table (reference AER 10.0)
    whose transport work over one mile at full utilization makes the CII
    ratio a tenth of the annual fuel. *)
Definition boundary_vessel_data : vessel_data :=
  {| vd_name := None;
     vd_type := Some "Ferry"%string;
     vd_deadweight := Some 3114000;
     vd_max_speed := None;
     vd_design_speed := None;
     vd_design_consumption := None;
     vd_year_built := None |}.

(** The sample vessel with a negative design consumption. *)
Definition negative_consumption_vessel_data : vessel_data :=
  {| vd_name := Some "Test Vessel"%string;
     vd_type := Some "Container Ship"%string;
     vd_deadweight := Some 100000;
     vd_max_speed := Some 25;
     vd_design_speed := Some 20;
     vd_design_consumption := Some (-180);
     vd_year_built := Some 2010%Z |}.

Definition rating_at (ratio : Q) : result Rating :=
  r <- calculate_cii_rating boundary_vessel_data 1 (ratio * 10) 1 ;; Ok (rating r).

(** ** Closed forms used in the statements *)

(** The annual fuel of the compliance forecast at one speed: daily
    consumption times annual sailing days. *)
Definition annual_fuel_at (vd : vessel_data) (speed annual_distance : Q) : Q :=
  get (vd_design_consumption vd) 180 * (speed / get (vd_design_speed vd) 20) ^ 3
  * (annual_distance / (speed * 24)).

(** The total voyage cost at one speed: fuel burnt over the transit at
    the fuel price plus the transit days at the day rate. *)
Definition voyage_cost (vd : vessel_data)
    (route_distance fuel_price vessel_day_cost speed : Q) : Q :=
  get (vd_design_consumption vd) 180 * (speed / get (vd_design_speed vd) 20) ^ 3
  * (route_distance / (speed * 24)) * fuel_price
  + route_distance / (speed * 24) * vessel_day_cost.

(** ** models/route.py: derived parameters and accessors *)

(** The dictionary a [Route] is built from and the one [to_dict] returns:
    [__init__] reads the first three keys, [to_dict] writes all five. *)
Record route_data : Type := {
  rd_name : option string;
  rd_distance : option Q;
  rd_waypoints : option (list Waypoint);
  rd_number_of_waypoints : option nat;
  rd_avg_leg_distance : option Q
}.

Module RouteObj.

(** [Route.calculate_derived_parameters]: the waypoint count and the
    average leg distance. *)
Definition number_of_waypoints (self : Route) : nat :=
  List.length (waypoints self).

Definition avg_leg_distance (self : Route) : result Q :=
  if (1 <? number_of_waypoints self)%nat
  then div (distance self)
           (inject_Z (Z.of_nat (number_of_waypoints self)) - 1)
  else Ok 0.

(** [Route.__init__]; it fails if the derived parameters do. *)
Definition init (data : route_data) : result Route :=
  let self := {| route_name := get (rd_name data) "Unknown Route"%string;
                 distance := get (rd_distance data) 0;
                 waypoints := get (rd_waypoints data) [] |} in
  _ <- avg_leg_distance self ;;
  Ok self.

(** [Route.get_waypoint_coordinates]. *)
Definition get_waypoint_coordinates (self : Route) : list (Q * Q) :=
  map (fun wp => (wp_lat wp, wp_lon wp)) (waypoints self).

(** [Route.get_origin_destination]. *)
Definition get_origin_destination (self : Route)
    : option Waypoint * option Waypoint :=
  if (List.length (waypoints self) <? 2)%nat then (None, None)
  else (nth_error (waypoints self) 0,
        nth_error (waypoints self) (List.length (waypoints self) - 1)).

(** [Route.to_dict]. *)
Definition to_dict (self : Route) : result route_data :=
  avg <- avg_leg_distance self ;;
  Ok {| rd_name := Some (route_name self);
        rd_distance := Some (distance self);
        rd_waypoints := Some (waypoints self);
        rd_number_of_waypoints := Some (number_of_waypoints self);
        rd_avg_leg_distance := Some avg |}.

End RouteObj.

(** ** utils/data_processing.py *)

(** [calculate_transit_time(distance, speed)]. *)
Definition calculate_transit_time (distance speed : Q) : result xfloat :=
  if Qle_bool speed 0 then Ok PInf
  else t <- div distance (speed * 24) ;; Ok (Fin t).

(** A raised exception with its class and its [str()]. *)
Record pyexc : Type := {
  exc_class : string;
  exc_message : string
}.

(** Streamlit's uploaded file: its name and its bytes. *)
Record UploadedFile : Type := {
  file_name : string;
  file_value : string
}.

(** [str.endswith]. *)
Definition endswith (s suffix : string) : bool :=
  let n := String.length s in
  let m := String.length suffix in
  (m <=? n)%nat && String.eqb (substring (n - m) m s) suffix.

Section Prepare.

(** The parsed records, and the three library parsers ([pd.read_csv] and
    [pd.read_excel] followed by [to_dict('records')], and [json.loads] of
    the decoded bytes); each either returns or raises. *)
Variable records : Type.
Variables read_csv read_excel json_loads : UploadedFile -> pyexc + records.

(** The body shared by [prepare_vessel_data] and [prepare_route_data]: the
    [kind] is the word of the error message and [key] the key of the
    returned dictionary. *)
Definition prepare_data (kind key : string) (uploaded_file : option UploadedFile)
    : pyexc + option (string * records) :=
  match uploaded_file with
  | None => inr None
  | Some file =>
      let parsed :=
        if endswith (file_name file) ".csv" then read_csv file
        else if endswith (file_name file) ".xlsx" then read_excel file
        else if endswith (file_name file) ".json" then json_loads file
        else inl {| exc_class := "ValueError";
                    exc_message := "Unsupported file format: " ++ file_name file |} in
      match parsed with
      | inr data => inr (Some (key, data))
      | inl e =>
          inl {| exc_class := "Exception";
                 exc_message := "Error processing " ++ kind ++ " data: "
                                ++ exc_message e |}
      end
  end.

Definition prepare_vessel_data := prepare_data "vessel" "vessels".
Definition prepare_route_data := prepare_data "route" "routes".

End Prepare.

(** ** models/weather.py *)

(** A row of the wind and of the current data frame. *)
Record FlowRow : Type := {
  fl_timestamp : string;
  fl_lat : Q;
  fl_lon : Q;
  fl_speed : Q;
  fl_direction : Q
}.

(** A row of the wave data frame. *)
Record WaveRow : Type := {
  wv_timestamp : string;
  wv_lat : Q;
  wv_lon : Q;
  wv_height : Q;
  wv_period : Q;
  wv_direction : Q
}.

(** The raw weather dictionary; each of its three keys may be absent. *)
Record weather_dict : Type := {
  wd_winds : option (list FlowRow);
  wd_currents : option (list FlowRow);
  wd_waves : option (list WaveRow)
}.

Record WeatherData : Type := {
  has_data : bool;
  data : weather_dict;
  winds : list FlowRow;
  currents : list FlowRow;
  waves : list WaveRow
}.

Record AverageConditions : Type := {
  avg_wind_speed : option Q;
  avg_current_speed : option Q;
  avg_wave_height : option Q
}.

Record RiskArea : Type := {
  ra_lat : Q;
  ra_lon : Q;
  ra_wave_height : Q;
  ra_timestamp : string
}.

Record WeatherImpact : Type := {
  speed_reduction : Q;
  fuel_increase : Q;
  high_risk_areas : list RiskArea
}.

Module Weather.

(** [WeatherData.__init__] with [process_data]: a missing key gives an
    empty frame. *)
Definition init (d : option weather_dict) : WeatherData :=
  match d with
  | None =>
      {| has_data := false;
         data := {| wd_winds := None; wd_currents := None; wd_waves := None |};
         winds := []; currents := []; waves := [] |}
  | Some d =>
      {| has_data := true;
         data := d;
         winds := get (wd_winds d) [];
         currents := get (wd_currents d) [];
         waves := get (wd_waves d) [] |}
  end.

(** The mean of a column. *)
Definition mean (column : list Q) : Q :=
  fold_right Qplus 0 column / inject_Z (Z.of_nat (List.length column)).

Definition mean_unless_empty {R : Type} (field : R -> Q) (frame : list R) : option Q :=
  match frame with
  | [] => None
  | _ => Some (mean (map field frame))
  end.

(** [WeatherData.get_average_conditions]. *)
Definition get_average_conditions (self : WeatherData) : AverageConditions :=
  if negb (has_data self) then
    {| avg_wind_speed := None; avg_current_speed := None; avg_wave_height := None |}
  else
    {| avg_wind_speed := mean_unless_empty fl_speed (winds self);
       avg_current_speed := mean_unless_empty fl_speed (currents self);
       avg_wave_height := mean_unless_empty wv_height (waves self) |}.

(** Python's [max(0, x)] and [min(30, x)]. *)
Definition max0 (x : Q) : Q := if Qlt_bool 0 x then x else 0.
Definition min30 (x : Q) : Q := if Qlt_bool x 30 then x else 30.

(** [WeatherData.get_weather_impact]. *)
Definition get_weather_impact (self : WeatherData) : WeatherImpact :=
  if negb (has_data self) then
    {| speed_reduction := 0; fuel_increase := 0; high_risk_areas := [] |}
  else
    let avg_conditions := get_average_conditions self in
    let avg_wind := get (avg_wind_speed avg_conditions) 0 in
    let avg_wave := get (avg_wave_height avg_conditions) 0 in
    let wind_reduction :=
      if Qeq_bool avg_wind 0 then 0 else max0 ((avg_wind - 15) * 0.5) in
    let wave_reduction :=
      if Qeq_bool avg_wave 0 then 0 else max0 ((avg_wave - 2) * 3) in
    let speed_reduction := min30 (wind_reduction + wave_reduction) in
    let fuel_increase := speed_reduction * 1.5 in
    let high_waves := filter (fun row => Qlt_bool 4 (wv_height row)) (waves self) in
    let high_risk_areas :=
      map (fun row => {| ra_lat := wv_lat row;
                         ra_lon := wv_lon row;
                         ra_wave_height := wv_height row;
                         ra_timestamp := wv_timestamp row |})
          (firstn 5 high_waves) in
    {| speed_reduction := speed_reduction;
       fuel_increase := fuel_increase;
       high_risk_areas := high_risk_areas |}.

End Weather.

(** ** Orders used in the statements *)

(** The rank of a rating, A being the best. *)
Definition rating_rank (r : Rating) : nat :=
  match r with A => 0 | B => 1 | C => 2 | D => 3 | E => 4 end.

(** ** Sample weather *)

Definition calm_weather : weather_dict :=
  {| wd_winds :=
       Some [ {| fl_timestamp := "2024-01-01 00:00:00"; fl_lat := 1.264;
                 fl_lon := 103.825; fl_speed := 10; fl_direction := 90 |};
              {| fl_timestamp := "2024-01-01 01:00:00"; fl_lat := 1.264;
                 fl_lon := 103.825; fl_speed := 14; fl_direction := 95 |} ];
     wd_currents := None;
     wd_waves :=
       Some [ {| wv_timestamp := "2024-01-01 00:00:00"; wv_lat := 1.264;
                 wv_lon := 103.825; wv_height := 1; wv_period := 8;
                 wv_direction := 90 |};
              {| wv_timestamp := "2024-01-01 01:00:00"; wv_lat := 1.264;
                 wv_lon := 103.825; wv_height := 2; wv_period := 9;
                 wv_direction := 95 |} ] |}.

(** * Theorems *)

(** ** Boolean comparisons reflect the order on rationals *)

Lemma Qlt_bool_iff (a b : Q) : Qlt_bool a b = true <-> a < b.
Proof.
  unfold Qlt_bool. rewrite negb_true_iff.
  split; intro H.
  - apply Qnot_le_lt. intro Hle. apply Qle_bool_iff in Hle. congruence.
  - destruct (Qle_bool b a) eqn:E; [|reflexivity].
    apply Qle_bool_iff in E. exfalso. apply (Qlt_not_le _ _ H E).
Qed.

Lemma Qlt_bool_false_iff (a b : Q) : Qlt_bool a b = false <-> b <= a.
Proof.
  unfold Qlt_bool. rewrite negb_false_iff. apply Qle_bool_iff.
Qed.

Lemma Qle_bool_false_iff (a b : Q) : Qle_bool a b = false <-> b < a.
Proof.
  rewrite <- Qlt_bool_iff. unfold Qlt_bool.
  destruct (Qle_bool a b); simpl; intuition congruence.
Qed.

Lemma Qeq_bool_false_iff (a b : Q) : Qeq_bool a b = false <-> ~ a == b.
Proof.
  split; intro H.
  - intro E. apply Qeq_bool_iff in E. congruence.
  - destruct (Qeq_bool a b) eqn:E; [|reflexivity].
    apply Qeq_bool_iff in E. contradiction.
Qed.


(** C10. [Route.get_transit_time] is total: it never raises; for a speed
    [<= 0] it returns positive infinity, and for a speed [> 0] it returns
    [distance / (speed * 24)]. *)
Theorem get_transit_time_total (r : Route) (speed : Q) :
  returns (RouteM.get_transit_time r speed) /\
  (speed <= 0 -> RouteM.get_transit_time r speed = Ok PInf) /\
  (0 < speed ->
   RouteM.get_transit_time r speed = Ok (Fin (distance r / (speed * 24)))).
Proof.
  unfold RouteM.get_transit_time, returns.
  destruct (Qle_bool speed 0) eqn:E.
  - apply Qle_bool_iff in E.
    split; [eexists; reflexivity|].
    split; [reflexivity|].
    intro H. exfalso. apply (Qlt_not_le _ _ H E).
  - apply Qle_bool_false_iff in E.
    assert (Hnz : Qeq_bool (speed * 24) 0 = false).
    { apply Qeq_bool_false_iff. intro H. lra. }
    simpl. rewrite Hnz. simpl.
    split; [eexists; reflexivity|].
    split; [|reflexivity].
    intro H. exfalso. apply (Qlt_not_le _ _ E H).
Qed.

Lemma get_transit_time_total_witness :
  0 < 12 /\
  RouteM.get_transit_time
    {| route_name := "Rotterdam-Singapore"; distance := 8200; waypoints := [] |} 12
  = Ok (Fin (8200 / (12 * 24))).
Proof.
  split; [reflexivity|].
  apply (get_transit_time_total
           {| route_name := "Rotterdam-Singapore"; distance := 8200; waypoints := [] |} 12).
  reflexivity.
Defined.

(** ** The error monad *)

Lemma bind_ok {A B : Type} (m : result A) (k : A -> result B) (b : B) :
  bind m k = Ok b -> exists a, m = Ok a /\ k a = Ok b.
Proof.
  destruct m as [a|e]; simpl; intro H; [eauto | discriminate].
Qed.

Lemma raises_not_returns {A : Type} (m : result A) : raises m <-> ~ returns m.
Proof.
  unfold raises, returns. destruct m as [a|e]; split.
  - intros [e H]. discriminate.
  - intro H. exfalso. apply H. eauto.
  - intros _ [a H]. discriminate.
  - eauto.
Qed.

(** ** Python division *)

Lemma py_div_ok (a b : Q) : ~ b == 0 -> div a b = Ok (a / b).
Proof.
  intro Hb. simpl. apply Qeq_bool_false_iff in Hb. rewrite Hb. reflexivity.
Qed.

Lemma py_div_zero (a b : Q) : b == 0 -> div a b = Raise ZeroDivisionError.
Proof.
  intro Hb. simpl. apply Qeq_bool_iff in Hb. rewrite Hb. reflexivity.
Qed.

(** ** Fuel consumption *)

Lemma fuel_consumption_py (speed : Q) (vd : vessel_data) :
  ~ get (vd_design_speed vd) 20 == 0 ->
  calculate_fuel_consumption speed vd
  = Ok (get (vd_design_consumption vd) 180
        * (speed / get (vd_design_speed vd) 20) ^ 3).
Proof.
  intro Hds. unfold calculate_fuel_consumption.
  rewrite (py_div_ok _ _ Hds). reflexivity.
Qed.

Lemma fuel_consumption_np (speed : Q) (vd : vessel_data) :
  ~ get (vd_design_speed vd) 20 == 0 ->
  calculate_fuel_consumption (Fin speed) vd
  = Ok (Fin (get (vd_design_consumption vd) 180
             * (speed / get (vd_design_speed vd) 20) ^ 3)).
Proof.
  intro Hds. unfold calculate_fuel_consumption. simpl.
  apply Qeq_bool_false_iff in Hds. rewrite Hds. reflexivity.
Qed.

(** C7. With a positive design speed, the fuel consumption at any speed is
    [design_consumption * (speed / design_speed) ^ 3], for the dictionary
    function (on Python floats and on numpy scalars) and for the [Vessel]
    method alike; at the design speed it is the design consumption. *)
Theorem fuel_consumption_cubic_law (vd : vessel_data) (speed : Q) :
  0 < get (vd_design_speed vd) 20 ->
  let ds := get (vd_design_speed vd) 20 in
  let dc := get (vd_design_consumption vd) 180 in
  (exists q, calculate_fuel_consumption speed vd = Ok q /\
             q == dc * (speed / ds) ^ 3) /\
  (exists q, calculate_fuel_consumption (Fin speed) vd = Ok (Fin q) /\
             q == dc * (speed / ds) ^ 3) /\
  (exists q, VesselM.get_fuel_consumption (VesselM.init vd) speed = Ok q /\
             q == dc * (speed / ds) ^ 3) /\
  (exists q, calculate_fuel_consumption ds vd = Ok q /\ q == dc) /\
  (exists q, calculate_fuel_consumption (Fin ds) vd = Ok (Fin q) /\ q == dc) /\
  (exists q, VesselM.get_fuel_consumption (VesselM.init vd) ds = Ok q /\ q == dc).
Proof.
  intros Hpos ds dc.
  assert (Hnz : ~ ds == 0) by (intro H; subst ds; lra).
  repeat split.
  - eexists. split; [apply fuel_consumption_py; exact Hnz|].
    fold ds dc. field. exact Hnz.
  - eexists. split; [apply fuel_consumption_np; exact Hnz|].
    fold ds dc. field. exact Hnz.
  - unfold VesselM.get_fuel_consumption, VesselM.init; simpl design_speed.
    fold ds. rewrite (py_div_ok _ _ Hnz). simpl bind.
    eexists. split; [reflexivity|]. simpl. fold dc. field. exact Hnz.
  - eexists. split; [apply fuel_consumption_py; exact Hnz|].
    fold ds dc. field. exact Hnz.
  - eexists. split; [apply fuel_consumption_np; exact Hnz|].
    fold ds dc. field. exact Hnz.
  - unfold VesselM.get_fuel_consumption, VesselM.init; simpl design_speed.
    fold ds. rewrite (py_div_ok _ _ Hnz). simpl bind.
    eexists. split; [reflexivity|]. simpl. fold dc. field. exact Hnz.
Qed.

Lemma fuel_consumption_cubic_law_witness :
  exists q, calculate_fuel_consumption 20 sample_vessel_data = Ok q /\ q == 180.
Proof.
  assert (H : 0 < get (vd_design_speed sample_vessel_data) 20) by reflexivity.
  destruct (fuel_consumption_cubic_law sample_vessel_data 10 H)
    as (_ & _ & _ & Hd & _).
  exact Hd.
Defined.

(** ** Emissions *)

Lemma detailed_factors_cases (fuel_type : string) :
  get_default emission_factors fuel_type
    [("CO2"%string, 3114000); ("SOx"%string, 10000);
     ("NOx"%string, 57000); ("PM"%string, 1400)]
  = [("CO2"%string, spec_detailed_factor fuel_type "CO2");
     ("SOx"%string, spec_detailed_factor fuel_type "SOx");
     ("NOx"%string, spec_detailed_factor fuel_type "NOx");
     ("PM"%string, spec_detailed_factor fuel_type "PM")].
Proof.
  unfold get_default, emission_factors, spec_detailed_factor, dict_get.
  rewrite (String.eqb_sym "VLSFO" fuel_type), (String.eqb_sym "MGO" fuel_type),
    (String.eqb_sym "LSFO" fuel_type), (String.eqb_sym "HFO" fuel_type).
  destruct (String.eqb fuel_type "VLSFO") eqn:E1.
  - apply String.eqb_eq in E1. subst fuel_type. reflexivity.
  - destruct (String.eqb fuel_type "MGO"); [reflexivity|].
    destruct (String.eqb fuel_type "LSFO"); [reflexivity|].
    destruct (String.eqb fuel_type "HFO"); reflexivity.
Qed.

(** C8. Both emission operations compute each pollutant as
    [fuel * factor / 1000000].  The detailed one returns CO2, SOx, NOx and
    PM with the specification's per-fuel-type factors, an unknown fuel type
    having the VLSFO ones; the simplified one returns CO2, SOx and NOx only,
    with the flat factors 3114000, 54000 and 57000. *)
Theorem emissions_follow_factor_tables (fuel : Q) (fuel_type : string) :
  (exists d,
      calculate_detailed_emissions fuel fuel_type = Ok d /\
      keys d = ["CO2"; "SOx"; "NOx"; "PM"]%string /\
      forall pollutant, In pollutant (keys d) ->
        dict_get d pollutant
        = Some (fuel * spec_detailed_factor fuel_type pollutant / 1000000)) /\
  (exists d,
      calculate_emissions fuel None = Ok d /\
      keys d = ["CO2"; "SOx"; "NOx"]%string /\
      forall pollutant, In pollutant (keys d) ->
        dict_get d pollutant = Some (fuel * spec_simple_factor pollutant / 1000000)) /\
  (exists d,
      calculate_emissions (Fin fuel) None = Ok d /\
      keys d = ["CO2"; "SOx"; "NOx"]%string /\
      forall pollutant, In pollutant (keys d) ->
        dict_get d pollutant
        = Some (Fin (fuel * spec_simple_factor pollutant / 1000000))) /\
  (~ In fuel_type ["VLSFO"; "MGO"; "LSFO"; "HFO"]%string ->
   calculate_detailed_emissions fuel fuel_type
   = calculate_detailed_emissions fuel "VLSFO").
Proof.
  split; [|split; [|split]].
  - unfold calculate_detailed_emissions.
    change (subscript emission_factors "VLSFO")
      with (Ok [("CO2"%string, 3114000); ("SOx"%string, 10000);
                ("NOx"%string, 57000); ("PM"%string, 1400)]).
    cbv beta iota delta [bind].
    rewrite detailed_factors_cases.
    eexists. split; [reflexivity|]. split; [reflexivity|].
    intros pollutant Hin. simpl in Hin.
    destruct Hin as [H|[H|[H|[H|[]]]]]; subst pollutant; reflexivity.
  - eexists. split; [reflexivity|]. split; [reflexivity|].
    intros pollutant Hin. simpl in Hin.
    destruct Hin as [H|[H|[H|[]]]]; subst pollutant; reflexivity.
  - eexists. split; [reflexivity|]. split; [reflexivity|].
    intros pollutant Hin. simpl in Hin.
    destruct Hin as [H|[H|[H|[]]]]; subst pollutant; reflexivity.
  - intro Hunknown. unfold calculate_detailed_emissions.
    change (subscript emission_factors "VLSFO")
      with (Ok [("CO2"%string, 3114000); ("SOx"%string, 10000);
                ("NOx"%string, 57000); ("PM"%string, 1400)]).
    cbv beta iota delta [bind].
    rewrite !detailed_factors_cases.
    assert (Hsame : forall p,
               spec_detailed_factor fuel_type p = spec_detailed_factor "VLSFO" p).
    { intro p. unfold spec_detailed_factor.
      destruct (String.eqb fuel_type "MGO") eqn:E1;
        [apply String.eqb_eq in E1; exfalso; apply Hunknown; simpl; auto|].
      destruct (String.eqb fuel_type "LSFO") eqn:E2;
        [apply String.eqb_eq in E2; exfalso; apply Hunknown; simpl; auto|].
      destruct (String.eqb fuel_type "HFO") eqn:E3;
        [apply String.eqb_eq in E3; exfalso; apply Hunknown; simpl; auto|].
      reflexivity. }
    rewrite !Hsame. reflexivity.
Qed.

Lemma emissions_follow_factor_tables_witness :
  calculate_detailed_emissions 100 "UNKNOWN"
  = calculate_detailed_emissions 100 "VLSFO".
Proof.
  apply (emissions_follow_factor_tables 100 "UNKNOWN").
  simpl. intros [H|[H|[H|[H|[]]]]]; discriminate H.
Defined.

(** ** Carbon intensity rating *)

Lemma reference_aer_positive (ship_type : string) :
  0 < get_default reference_values ship_type 10.0.
Proof.
  unfold get_default, reference_values, dict_get.
  repeat match goal with
         | |- context [String.eqb ?a ?b] => destruct (String.eqb a b)
         end; reflexivity.
Qed.

Lemma cii_rating_inv (vd : vessel_data) (annual_distance annual_fuel util : Q)
    (r : CIIResult) :
  calculate_cii_rating vd annual_distance annual_fuel util = Ok r ->
  let tw := get (vd_deadweight vd) 100000 * annual_distance * util in
  let ref := get_default reference_values (get (vd_type vd) "Container Ship"%string) 10.0 in
  ~ tw == 0 /\
  co2_emissions r = annual_fuel * 3.114 /\
  transport_work r = tw /\
  aer r = annual_fuel * 3.114 * 1000000 / tw /\
  reference_aer r = ref /\
  cii_ratio r = aer r / ref /\
  rating r =
    (if Qlt_bool (cii_ratio r) 0.86 then A
     else if Qlt_bool (cii_ratio r) 0.93 then B
     else if Qlt_bool (cii_ratio r) 1.03 then C
     else if Qlt_bool (cii_ratio r) 1.10 then D
     else E).
Proof.
  intros H tw ref. unfold calculate_cii_rating in H. fold tw ref in H.
  apply bind_ok in H. destruct H as (a & Ha & H).
  apply bind_ok in H. destruct H as (c & Hc & H).
  simpl in Ha, Hc.
  destruct (Qeq_bool tw 0) eqn:Etw; [discriminate|].
  destruct (Qeq_bool ref 0) eqn:Eref; [discriminate|].
  injection Ha as <-. injection Hc as <-. injection H as <-.
  apply Qeq_bool_false_iff in Etw.
  simpl. repeat split; try reflexivity. exact Etw.
Qed.

Lemma cii_rating_ok (vd : vessel_data) (annual_distance annual_fuel util : Q) :
  ~ get (vd_deadweight vd) 100000 * annual_distance * util == 0 ->
  returns (calculate_cii_rating vd annual_distance annual_fuel util).
Proof.
  intro Htw. unfold calculate_cii_rating.
  rewrite (py_div_ok _ _ Htw). cbv beta iota delta [bind].
  rewrite py_div_ok.
  - eexists. reflexivity.
  - pose proof (reference_aer_positive (get (vd_type vd) "Container Ship"%string)).
    intro E. rewrite E in H. discriminate H.
Qed.

(** C5. The rating returned by [calculate_cii_rating] is the threshold
    function of the returned ratio: below 0.86 is A, from 0.86 below 0.93 is
    B, from 0.93 below 1.03 is C, from 1.03 below 1.10 is D, and from 1.10 on
    is E, so that each boundary value belongs to the worse band. *)
Theorem cii_rating_thresholds (vd : vessel_data)
    (annual_distance annual_fuel util : Q) (r : CIIResult) :
  calculate_cii_rating vd annual_distance annual_fuel util = Ok r ->
  (cii_ratio r < 0.86 -> rating r = A) /\
  (0.86 <= cii_ratio r -> cii_ratio r < 0.93 -> rating r = B) /\
  (0.93 <= cii_ratio r -> cii_ratio r < 1.03 -> rating r = C) /\
  (1.03 <= cii_ratio r -> cii_ratio r < 1.10 -> rating r = D) /\
  (1.10 <= cii_ratio r -> rating r = E).
Proof.
  intro H. apply cii_rating_inv in H.
  destruct H as (_ & _ & _ & _ & _ & _ & Hr). rewrite Hr. clear Hr.
  destruct (Qlt_bool (cii_ratio r) 0.86) eqn:E1;
    [apply Qlt_bool_iff in E1 | apply Qlt_bool_false_iff in E1];
  (destruct (Qlt_bool (cii_ratio r) 0.93) eqn:E2;
    [apply Qlt_bool_iff in E2 | apply Qlt_bool_false_iff in E2]);
  (destruct (Qlt_bool (cii_ratio r) 1.03) eqn:E3;
    [apply Qlt_bool_iff in E3 | apply Qlt_bool_false_iff in E3]);
  (destruct (Qlt_bool (cii_ratio r) 1.10) eqn:E4;
    [apply Qlt_bool_iff in E4 | apply Qlt_bool_false_iff in E4]);
  repeat split; intros; try reflexivity; exfalso; lra.
Qed.

Lemma cii_rating_thresholds_witness :
  exists r, calculate_cii_rating boundary_vessel_data 1 8.6 1 = Ok r /\
            cii_ratio r == 0.86 /\ rating r = B.
Proof.
  eexists. split; [vm_compute; reflexivity|].
  split; [vm_compute; reflexivity|].
  refine (proj1 (proj2 (cii_rating_thresholds boundary_vessel_data 1 8.6 1 _ eq_refl)) _ _).
  - vm_compute. discriminate.
  - vm_compute. reflexivity.
Defined.

(** The boundary values listed by the specification's test properties. *)
Example cii_rating_boundaries :
  map rating_at [0.85999; 0.86; 0.92999; 0.93; 1.02999; 1.03; 1.09999; 1.10]
  = map Ok [A; B; B; C; C; D; D; E].
Proof. vm_compute. reflexivity. Qed.

Lemma py_div_inv (a b c : Q) : div a b = Ok c -> ~ b == 0 /\ c = a / b.
Proof.
  simpl. destruct (Qeq_bool b 0) eqn:E; [discriminate|].
  intro H. injection H as <-. split; [|reflexivity].
  apply Qeq_bool_false_iff. exact E.
Qed.

Lemma fuel_consumption_py_inv (speed : Q) (vd : vessel_data) (q : Q) :
  calculate_fuel_consumption speed vd = Ok q ->
  ~ get (vd_design_speed vd) 20 == 0 /\
  q = get (vd_design_consumption vd) 180 * (speed / get (vd_design_speed vd) 20) ^ 3.
Proof.
  unfold calculate_fuel_consumption. intro H.
  apply bind_ok in H. destruct H as (r & Hr & H).
  apply py_div_inv in Hr. destruct Hr as [Hnz ->].
  injection H as <-. split; [exact Hnz | reflexivity].
Qed.

(** C6 (as the code has it). [calculate_cii_rating] validates nothing: it
    fails exactly when the transport work is zero, and then with the
    [ZeroDivisionError] of the division itself; for every other transport
    work, a negative one included, it returns a result. *)
Theorem cii_rating_fails_iff_zero_work (vd : vessel_data)
    (annual_distance annual_fuel util : Q) :
  let tw := get (vd_deadweight vd) 100000 * annual_distance * util in
  (tw == 0 ->
   calculate_cii_rating vd annual_distance annual_fuel util
   = Raise ZeroDivisionError) /\
  (~ tw == 0 ->
   exists r, calculate_cii_rating vd annual_distance annual_fuel util = Ok r /\
             transport_work r = tw /\
             aer r = annual_fuel * 3.114 * 1000000 / tw).
Proof.
  intro tw. split.
  - intro Hz. unfold calculate_cii_rating. fold tw.
    rewrite (py_div_zero _ _ Hz). reflexivity.
  - intro Hnz. destruct (cii_rating_ok vd annual_distance annual_fuel util Hnz) as [r Hr].
    exists r. split; [exact Hr|].
    apply cii_rating_inv in Hr. tauto.
Qed.

Lemma cii_rating_fails_iff_zero_work_witness :
  calculate_cii_rating sample_vessel_data 0 15000 0.7 = Raise ZeroDivisionError.
Proof.
  apply (cii_rating_fails_iff_zero_work sample_vessel_data 0 15000 0.7).
  reflexivity.
Defined.

(** C6 fails as stated: with a negative annual distance the transport work
    is not strictly positive, and a result is returned all the same. *)
Lemma cii_rating_accepts_negative_work :
  ~ 0 < get (vd_deadweight sample_vessel_data) 100000 * (-1000) * 0.7 /\
  ~ raises (calculate_cii_rating sample_vessel_data (-1000) 15 0.7) /\
  exists r, calculate_cii_rating sample_vessel_data (-1000) 15 0.7 = Ok r /\
            transport_work r == -70000000 /\ aer r < 0.
Proof.
  split; [vm_compute; discriminate|].
  split.
  - intros [e He]. vm_compute in He. discriminate He.
  - eexists. split; [vm_compute; reflexivity|].
    split; vm_compute; reflexivity.
Qed.

(** ** Compliance forecast *)

Lemma compliance_forecast_inv (vd : vessel_data)
    (current_speed proposed_speed annual_distance : Q) (f : ComplianceForecast) :
  calculate_compliance_forecast vd current_speed proposed_speed annual_distance = Ok f ->
  let caf := annual_fuel_at vd current_speed annual_distance in
  let paf := annual_fuel_at vd proposed_speed annual_distance in
  (~ get (vd_design_speed vd) 20 == 0 /\
   ~ current_speed * 24 == 0 /\
   ~ proposed_speed * 24 == 0 /\
   ~ get (vd_deadweight vd) 100000 * annual_distance * default_utilization == 0 /\
   ~ caf == 0) /\
  sc_annual_fuel (current_scenario f) = caf /\
  sc_annual_fuel (proposed_scenario f) = paf /\
  sv_fuel_savings (savings f) = caf - paf /\
  sv_emission_savings (savings f) = caf * 3.114 - paf * 3.114 /\
  sv_percentage_reduction (savings f) = (caf - paf) / caf * 100.
Proof.
  intros H caf paf. unfold calculate_compliance_forecast in H.
  apply bind_ok in H. destruct H as (cdc & Hcdc & H).
  apply bind_ok in H. destruct H as (pdc & Hpdc & H).
  apply bind_ok in H. destruct H as (cat & Hcat & H).
  apply bind_ok in H. destruct H as (pat & Hpat & H).
  apply bind_ok in H. destruct H as (ccii & Hccii & H).
  apply bind_ok in H. destruct H as (pcii & Hpcii & H).
  apply bind_ok in H. destruct H as (pct & Hpct & H).
  apply fuel_consumption_py_inv in Hcdc. destruct Hcdc as [Hds ->].
  apply fuel_consumption_py_inv in Hpdc. destruct Hpdc as [_ ->].
  apply py_div_inv in Hcat. destruct Hcat as [Hcs ->].
  apply py_div_inv in Hpat. destruct Hpat as [Hps ->].
  apply py_div_inv in Hpct. destruct Hpct as [Hcaf ->].
  apply cii_rating_inv in Hccii. destruct Hccii as (Htw & Hco2c & _).
  apply cii_rating_inv in Hpcii. destruct Hpcii as (_ & Hco2p & _).
  injection H as <-. simpl. rewrite Hco2c, Hco2p.
  repeat split; assumption.
Qed.

Lemma compliance_forecast_ok (vd : vessel_data)
    (current_speed proposed_speed annual_distance : Q) :
  ~ get (vd_design_speed vd) 20 == 0 ->
  ~ current_speed == 0 ->
  ~ proposed_speed == 0 ->
  ~ get (vd_deadweight vd) 100000 * annual_distance * default_utilization == 0 ->
  ~ get (vd_design_consumption vd) 180 == 0 ->
  returns (calculate_compliance_forecast vd current_speed proposed_speed annual_distance).
Proof.
  intros Hds Hcs Hps Htw Hdc. unfold calculate_compliance_forecast.
  rewrite !(fuel_consumption_py _ _ Hds). cbv beta iota delta [bind].
  rewrite (py_div_ok annual_distance (current_speed * 24)) by (intro E; apply Hcs; lra).
  rewrite (py_div_ok annual_distance (proposed_speed * 24)) by (intro E; apply Hps; lra).
  destruct (cii_rating_ok vd annual_distance
              (annual_fuel_at vd current_speed annual_distance) default_utilization Htw)
    as [ccii Hccii].
  destruct (cii_rating_ok vd annual_distance
              (annual_fuel_at vd proposed_speed annual_distance) default_utilization Htw)
    as [pcii Hpcii].
  unfold annual_fuel_at in Hccii, Hpcii. rewrite Hccii, Hpcii.
  rewrite py_div_ok.
  - eexists. reflexivity.
  - assert (Had : ~ annual_distance == 0).
    { intro E. apply Htw. rewrite E. ring. }
    intro E. apply Hdc.
    assert (Hprod : get (vd_design_consumption vd) 180
                    * ((current_speed / get (vd_design_speed vd) 20) ^ 3
                       * (annual_distance / (current_speed * 24))) == 0)
      by (rewrite <- E; ring).
    apply Qmult_integral in Hprod. destruct Hprod as [Hz|Hz]; [exact Hz|].
    exfalso.
    assert (Hinv : (current_speed / get (vd_design_speed vd) 20) ^ 3
                   * (annual_distance / (current_speed * 24))
                   == current_speed * current_speed * annual_distance
                      / (24 * (get (vd_design_speed vd) 20
                               * get (vd_design_speed vd) 20
                               * get (vd_design_speed vd) 20)))
      by (field; split; assumption).
    rewrite Hinv in Hz.
    assert (Hnum : current_speed * current_speed * annual_distance == 0).
    { rewrite <- (Qmult_div_r (current_speed * current_speed * annual_distance)
                    (24 * (get (vd_design_speed vd) 20
                           * get (vd_design_speed vd) 20
                           * get (vd_design_speed vd) 20))).
      - rewrite Hz. ring.
      - intro E3. apply Qmult_integral in E3. destruct E3 as [E3|E3]; [discriminate E3|].
        apply Qmult_integral in E3. destruct E3 as [E3|E3]; [|contradiction].
        apply Qmult_integral in E3. destruct E3; contradiction. }
    apply Qmult_integral in Hnum. destruct Hnum as [Hnum|Hnum]; [|contradiction].
    apply Qmult_integral in Hnum. destruct Hnum; contradiction.
Qed.

Lemma annual_fuel_closed_form (vd : vessel_data) (speed annual_distance : Q) :
  ~ get (vd_design_speed vd) 20 == 0 ->
  ~ speed == 0 ->
  annual_fuel_at vd speed annual_distance
  == get (vd_design_consumption vd) 180 * annual_distance
     / (24 * (get (vd_design_speed vd) 20) ^ 3) * (speed * speed).
Proof.
  intros Hds Hs. unfold annual_fuel_at. field. split; assumption.
Qed.

(** C9 (as the code has it). [calculate_compliance_forecast] validates
    nothing: it fails exactly when one of the two speeds, the design speed,
    the design consumption or the transport work is zero.  In particular it
    fails for a zero speed, and a negative speed is not rejected. *)
Theorem compliance_forecast_fails_iff (vd : vessel_data)
    (current_speed proposed_speed annual_distance : Q) :
  raises (calculate_compliance_forecast vd current_speed proposed_speed annual_distance)
  <-> (current_speed == 0 \/ proposed_speed == 0 \/
       get (vd_design_speed vd) 20 == 0 \/
       get (vd_design_consumption vd) 180 == 0 \/
       get (vd_deadweight vd) 100000 * annual_distance * default_utilization == 0).
Proof.
  rewrite raises_not_returns. split.
  - intro Hnot.
    destruct (Qeq_dec current_speed 0) as [|Hcs]; [tauto|].
    destruct (Qeq_dec proposed_speed 0) as [|Hps]; [tauto|].
    destruct (Qeq_dec (get (vd_design_speed vd) 20) 0) as [|Hds]; [tauto|].
    destruct (Qeq_dec (get (vd_design_consumption vd) 180) 0) as [|Hdc]; [tauto|].
    destruct (Qeq_dec (get (vd_deadweight vd) 100000 * annual_distance
                       * default_utilization) 0) as [|Htw]; [tauto|].
    exfalso. apply Hnot. apply compliance_forecast_ok; assumption.
  - intros Hzero [f Hf]. apply compliance_forecast_inv in Hf.
    destruct Hf as ((Hds & Hcs & Hps & Htw & Hcaf) & _).
    destruct Hzero as [E|[E|[E|[E|E]]]].
    + apply Hcs. rewrite E. ring.
    + apply Hps. rewrite E. ring.
    + contradiction.
    + apply Hcaf. unfold annual_fuel_at. rewrite E. ring.
    + contradiction.
Qed.

Lemma compliance_forecast_fails_iff_witness :
  raises (calculate_compliance_forecast sample_vessel_data 0 15 100000).
Proof.
  apply (compliance_forecast_fails_iff sample_vessel_data 0 15 100000).
  left. reflexivity.
Defined.

(** C9 fails as stated: two negative speeds are accepted and a forecast is
    returned. *)
Lemma compliance_forecast_accepts_negative_speeds :
  -18 <= 0 /\ -15 <= 0 /\
  ~ raises (calculate_compliance_forecast sample_vessel_data (-18) (-15) 100000) /\
  exists f,
    calculate_compliance_forecast sample_vessel_data (-18) (-15) 100000 = Ok f /\
    sc_speed (current_scenario f) = -18 /\
    sc_speed (proposed_scenario f) = -15 /\
    sc_annual_fuel (current_scenario f) == 30375.
Proof.
  split; [vm_compute; discriminate|].
  split; [vm_compute; discriminate|].
  split.
  - intros [e He]. vm_compute in He. discriminate He.
  - eexists. split; [vm_compute; reflexivity|].
    repeat split; vm_compute; reflexivity.
Qed.

(** C4. For a vessel with positive design speed, design consumption and
    deadweight and a positive annual distance, a forecast is returned for
    every pair [0 < proposed_speed < current_speed], and its fuel savings
    and emission savings are strictly positive; at 18 and 15 knots the
    proposed annual fuel is [(15/18)^2] of the current one. *)
Theorem compliance_forecast_savings (vd : vessel_data) (annual_distance : Q) :
  0 < get (vd_design_speed vd) 20 ->
  0 < get (vd_design_consumption vd) 180 ->
  0 < get (vd_deadweight vd) 100000 ->
  0 < annual_distance ->
  (forall current_speed proposed_speed,
      0 < proposed_speed -> proposed_speed < current_speed ->
      exists f,
        calculate_compliance_forecast vd current_speed proposed_speed annual_distance
        = Ok f /\
        0 < sv_fuel_savings (savings f) /\
        0 < sv_emission_savings (savings f)) /\
  (exists f,
      calculate_compliance_forecast vd 18 15 annual_distance = Ok f /\
      sc_annual_fuel (proposed_scenario f) / sc_annual_fuel (current_scenario f)
      == (15 / 18) ^ 2).
Proof.
  intros Hds Hdc Hdw Had.
  assert (Hds0 : ~ get (vd_design_speed vd) 20 == 0) by (intro E; lra).
  assert (Hdc0 : ~ get (vd_design_consumption vd) 180 == 0) by (intro E; lra).
  assert (Had0 : ~ annual_distance == 0) by (intro E; lra).
  assert (Htw : ~ get (vd_deadweight vd) 100000 * annual_distance
                  * default_utilization == 0).
  { assert (0 < get (vd_deadweight vd) 100000 * annual_distance * default_utilization).
    { apply Qmult_lt_0_compat; [apply Qmult_lt_0_compat; assumption | reflexivity]. }
    intro E. lra. }
  assert (HK : 0 < get (vd_design_consumption vd) 180 * annual_distance
                   / (24 * (get (vd_design_speed vd) 20) ^ 3)).
  { apply Qlt_shift_div_l.
    - simpl. repeat apply Qmult_lt_0_compat; try assumption; reflexivity.
    - rewrite Qmult_0_l. apply Qmult_lt_0_compat; assumption. }
  split.
  - intros cs ps Hps Hlt.
    assert (Hcs0 : ~ cs == 0) by (intro E; lra).
    assert (Hps0 : ~ ps == 0) by (intro E; lra).
    destruct (compliance_forecast_ok vd cs ps annual_distance Hds0 Hcs0 Hps0 Htw Hdc0)
      as [f Hf].
    exists f. split; [exact Hf|].
    apply compliance_forecast_inv in Hf.
    destruct Hf as (_ & _ & _ & Hfs & Hes & _). rewrite Hfs, Hes.
    rewrite !(annual_fuel_closed_form vd _ annual_distance Hds0) by assumption.
    set (K := get (vd_design_consumption vd) 180 * annual_distance
              / (24 * (get (vd_design_speed vd) 20) ^ 3)) in *.
    assert (Hsq : ps * ps < cs * cs) by nra.
    split; nra.
  - assert (H18 : ~ 18 == 0) by discriminate.
    assert (H15 : ~ 15 == 0) by discriminate.
    destruct (compliance_forecast_ok vd 18 15 annual_distance Hds0 H18 H15 Htw Hdc0)
      as [f Hf].
    exists f. split; [exact Hf|].
    apply compliance_forecast_inv in Hf.
    destruct Hf as (_ & Hc & Hp & _). rewrite Hc, Hp.
    unfold annual_fuel_at. field. repeat split; assumption.
Qed.

Lemma compliance_forecast_savings_witness :
  exists f,
    calculate_compliance_forecast sample_vessel_data 18 15 100000 = Ok f /\
    0 < sv_fuel_savings (savings f) /\
    0 < sv_emission_savings (savings f).
Proof.
  refine (proj1 (compliance_forecast_savings sample_vessel_data 100000 _ _ _ _)
            18 15 _ _); reflexivity.
Defined.

(** C4 fails as stated: the forecast accepts any vessel.  For the sample
    vessel with a design consumption of -180, slowing from 18 to 15 knots
    over 100000 miles a year returns a forecast whose fuel savings and
    emission savings are both negative. *)
Lemma compliance_forecast_negative_savings :
  (0 < 15 /\ 15 < 18 /\ 0 < 100000) /\
  exists f,
    calculate_compliance_forecast negative_consumption_vessel_data 18 15 100000 = Ok f /\
    sv_fuel_savings (savings f) == -9281.25 /\
    sv_fuel_savings (savings f) < 0 /\
    sv_emission_savings (savings f) < 0 /\
    ~ (0 < sv_fuel_savings (savings f) /\ 0 < sv_emission_savings (savings f)).
Proof.
  split; [repeat split|].
  eexists. split; [vm_compute; reflexivity|].
  split; [vm_compute; reflexivity|].
  split; [vm_compute; reflexivity|].
  split; [vm_compute; reflexivity|].
  intros [H _]. vm_compute in H. discriminate H.
Qed.

(** ** The sampled speeds *)

Lemma mapM_returns {X Y : Type} (f : X -> result Y) (l : list X) :
  (forall a, In a l -> returns (f a)) ->
  exists bs, mapM f l = Ok bs /\ Forall2 (fun a b => f a = Ok b) l bs.
Proof.
  induction l as [|a l IH]; intro Hf; simpl.
  - exists []. split; [reflexivity | constructor].
  - destruct (Hf a (or_introl eq_refl)) as [b Hb].
    destruct IH as (bs & Hbs & Hall).
    { intros a' Ha'. apply Hf. right. exact Ha'. }
    exists (b :: bs). rewrite Hb, Hbs. split; [reflexivity|].
    constructor; assumption.
Qed.

Lemma Forall2_nth_error_r {X Y : Type} (R : X -> Y -> Prop) (l : list X) (l' : list Y) :
  Forall2 R l l' ->
  forall i y, nth_error l' i = Some y -> exists x, nth_error l i = Some x /\ R x y.
Proof.
  induction 1 as [|x y l l' Hxy _ IH]; intros i b Hi.
  - destruct i; discriminate Hi.
  - destruct i as [|i]; simpl in Hi.
    + injection Hi as <-. exists x. split; [reflexivity | exact Hxy].
    + apply IH. exact Hi.
Qed.

Lemma Forall2_length_eq {X Y : Type} (R : X -> Y -> Prop) (l : list X) (l' : list Y) :
  Forall2 R l l' -> List.length l' = List.length l.
Proof.
  induction 1; simpl; congruence.
Qed.

Lemma nth_error_map_seq {X : Type} (f : nat -> X) (n i : nat) (x : X) :
  nth_error (map f (seq 0 n)) i = Some x -> (i < n)%nat /\ x = f i.
Proof.
  intro H.
  assert (Hi : (i < n)%nat).
  { assert (Hlen : (i < List.length (map f (seq 0 n)))%nat)
      by (apply nth_error_Some; congruence).
    rewrite length_map, length_seq in Hlen. exact Hlen. }
  split; [exact Hi|].
  rewrite nth_error_map, nth_error_seq in H.
  apply Nat.ltb_lt in Hi. rewrite Hi in H. simpl in H. congruence.
Qed.

(** The number of samples: [ceil((stop - start) / step)]. *)
Lemma index_below_ceiling (x : Q) (i : nat) :
  (i < Z.to_nat (Qceiling x))%nat -> inject_Z (Z.of_nat i) < x.
Proof.
  intro Hi.
  assert (Hz : (Z.of_nat i <= Qceiling x - 1)%Z) by lia.
  rewrite Zle_Qle in Hz.
  eapply Qle_lt_trans; [exact Hz | apply Qceiling_lt].
Qed.

Lemma arange_ok (start stop step : Q) :
  ~ step == 0 ->
  arange start stop step
  = Ok (map (fun i : nat => start + inject_Z (Z.of_nat i) * step)
            (seq 0 (Z.to_nat (Qceiling ((stop - start) / step))))).
Proof.
  intro Hstep. unfold arange.
  apply Qeq_bool_false_iff in Hstep. rewrite Hstep. reflexivity.
Qed.

Lemma sample_below_stop (start stop step : Q) (i : nat) :
  0 < step ->
  (i < Z.to_nat (Qceiling ((stop - start) / step)))%nat ->
  start + inject_Z (Z.of_nat i) * step < stop.
Proof.
  intros Hstep Hi. apply index_below_ceiling in Hi.
  apply (Qmult_lt_compat_r _ _ step Hstep) in Hi.
  assert (E : (stop - start) / step * step == stop - start)
    by (field; intro E; lra).
  rewrite E in Hi. lra.
Qed.

Lemma sample_count_on_multiple (lo hi step : Q) (k : nat) :
  0 < step ->
  hi - lo == inject_Z (Z.of_nat k) * step ->
  Z.to_nat (Qceiling ((hi + step - lo) / step)) = S k.
Proof.
  intros Hstep Hk.
  assert (E : (hi + step - lo) / step == inject_Z (Z.of_nat k + 1)).
  { rewrite inject_Z_plus.
    assert (E' : hi + step - lo == (inject_Z (Z.of_nat k) + 1) * step)
      by (rewrite Qmult_plus_distr_l, <- Hk; ring).
    rewrite E'. change (inject_Z 1) with 1. field. intro E0; lra. }
  rewrite E, Qceiling_Z. lia.
Qed.

Section Profile.

Variable vd : vessel_data.
Variables route_distance fuel_price vessel_day_cost : Q.

(** The numpy pipeline never raises, whatever the speed. *)
Lemma profile_row_returns (speed : Q) :
  exists row,
    profile_row vd route_distance fuel_price vessel_day_cost speed = Ok row /\
    row_speed row = speed /\
    objective_function vd route_distance fuel_price vessel_day_cost speed
    = Ok (row_total_cost row).
Proof.
  eexists. split; [reflexivity|]. split; reflexivity.
Qed.

Lemma profile_row_inv (speed : Q) (row : SpeedProfilePoint) :
  profile_row vd route_distance fuel_price vessel_day_cost speed = Ok row ->
  row_speed row = speed /\
  objective_function vd route_distance fuel_price vessel_day_cost speed
  = Ok (row_total_cost row).
Proof.
  intro H. destruct (profile_row_returns speed) as (row' & Hrow' & Hs & Ho).
  rewrite Hrow' in H. injection H as <-. split; assumption.
Qed.

Lemma generate_speed_profile_rows (lo hi step : Q) :
  ~ step == 0 ->
  exists rows,
    generate_speed_profile vd route_distance fuel_price vessel_day_cost (lo, hi) step
    = Ok rows /\
    Forall2 (fun speed row =>
               profile_row vd route_distance fuel_price vessel_day_cost speed = Ok row)
            (map (fun i : nat => lo + inject_Z (Z.of_nat i) * step)
                 (seq 0 (Z.to_nat (Qceiling ((hi + step - lo) / step)))))
            rows.
Proof.
  intro Hstep. unfold generate_speed_profile.
  rewrite (arange_ok _ _ _ Hstep). cbv beta iota delta [bind].
  apply mapM_returns. intros speed _.
  destruct (profile_row_returns speed) as (row & Hrow & _).
  exists row. exact Hrow.
Qed.

End Profile.

Lemma sample_at_least_start (start step : Q) (i : nat) :
  0 <= step -> start <= start + inject_Z (Z.of_nat i) * step.
Proof.
  intro Hstep.
  assert (Hi0 : 0 <= inject_Z (Z.of_nat i)).
  { change 0 with (inject_Z 0). rewrite <- Zle_Qle. lia. }
  assert (0 <= inject_Z (Z.of_nat i) * step) by (apply Qmult_le_0_compat; assumption).
  lra.
Qed.

Lemma sample_within_on_multiple (lo hi step : Q) (k i : nat) :
  0 < step ->
  hi - lo == inject_Z (Z.of_nat k) * step ->
  (i < S k)%nat ->
  lo + inject_Z (Z.of_nat i) * step <= hi.
Proof.
  intros Hstep Hk Hi.
  assert (Hik : inject_Z (Z.of_nat i) <= inject_Z (Z.of_nat k))
    by (rewrite <- Zle_Qle; lia).
  apply (Qmult_le_compat_r _ _ step) in Hik; lra.
Qed.

(** The rows of the profile, by index. *)
Lemma generate_speed_profile_indexed (vd : vessel_data)
    (route_distance fuel_price vessel_day_cost lo hi step : Q) :
  ~ step == 0 ->
  exists rows,
    generate_speed_profile vd route_distance fuel_price vessel_day_cost (lo, hi) step
    = Ok rows /\
    List.length rows = Z.to_nat (Qceiling ((hi + step - lo) / step)) /\
    forall i row, nth_error rows i = Some row ->
      (i < Z.to_nat (Qceiling ((hi + step - lo) / step)))%nat /\
      row_speed row = lo + inject_Z (Z.of_nat i) * step /\
      profile_row vd route_distance fuel_price vessel_day_cost (row_speed row) = Ok row.
Proof.
  intro Hstep0.
  destruct (generate_speed_profile_rows vd route_distance fuel_price vessel_day_cost
              lo hi step Hstep0) as (rows & Hrows & Hall).
  exists rows. split; [exact Hrows|]. split.
  - rewrite (Forall2_length_eq _ _ _ Hall), length_map, length_seq. reflexivity.
  - intros i row Hi.
    destruct (Forall2_nth_error_r _ _ _ Hall i row Hi) as (speed & Hspeed & Hrow).
    apply nth_error_map_seq in Hspeed. destruct Hspeed as [Hlt ->].
    destruct (profile_row_inv _ _ _ _ _ _ Hrow) as [Hs _].
    rewrite Hs. repeat split; assumption.
Qed.

Lemma inject_Z_sub (a b : Z) : inject_Z (a - b) == inject_Z a - inject_Z b.
Proof.
  unfold Z.sub. rewrite inject_Z_plus, inject_Z_opp. reflexivity.
Qed.

(** The last sample reaches the upper bound. *)
Lemma sample_reaches_stop (lo hi step : Q) :
  lo <= hi -> 0 < step ->
  (1 <= Z.to_nat (Qceiling ((hi + step - lo) / step)))%nat /\
  hi <= lo + inject_Z (Z.of_nat (Z.to_nat (Qceiling ((hi + step - lo) / step)) - 1))
             * step.
Proof.
  intros Hle Hstep.
  set (x := (hi + step - lo) / step).
  assert (H1 : 1 <= x) by (apply Qle_shift_div_l; [exact Hstep | lra]).
  assert (Hc1 : (1 <= Qceiling x)%Z).
  { apply Qceiling_resp_le in H1. change (Qceiling 1) with 1%Z in H1. exact H1. }
  split; [lia|].
  assert (Hn : Z.of_nat (Z.to_nat (Qceiling x) - 1) = (Qceiling x - 1)%Z) by lia.
  rewrite Hn, inject_Z_sub. change (inject_Z 1) with 1.
  pose proof (Qle_ceiling x) as Hx.
  assert (Ex : x * step == hi + step - lo) by (unfold x; field; intro E; lra).
  assert (Hm : x * step <= inject_Z (Qceiling x) * step)
    by (apply Qmult_le_compat_r; [exact Hx | lra]).
  lra.
Qed.

(** ** The sample count in binary64 *)

Lemma round_half_even_Z (q : Q) (z : Z) : q == inject_Z z -> round_half_even q = z.
Proof.
  intro E. unfold round_half_even.
  assert (Hf : Qfloor q = z) by (rewrite E; apply Qfloor_Z).
  rewrite Hf.
  assert (Hlt : q - inject_Z z < 1 # 2) by (rewrite E; lra).
  destruct (Qcompare (q - inject_Z z) (1 # 2)) eqn:C.
  - apply Qeq_alt in C. lra.
  - reflexivity.
  - apply Qgt_alt in C. lra.
Qed.

Lemma two_power_pos (e : Z) : 0 < 2 ^ e.
Proof. apply Qpower_0_lt. reflexivity. Qed.

Lemma binade_lower (q : Q) : ~ q == 0 -> 2 ^ binade q <= Qabs q.
Proof.
  intro Hq. unfold binade.
  set (n := Z.abs (Qnum q)). set (d := Zpos (Qden q)).
  destruct (Qlt_bool (Qabs q) (2 ^ (Z.log2 n - Z.log2 d))) eqn:E.
  - assert (Hn : (0 < n)%Z).
    { unfold n. assert (Qnum q <> 0%Z).
      { intro H0. apply Hq. unfold Qeq. simpl. rewrite H0. reflexivity. }
      lia. }
    assert (Hd : (0 < d)%Z) by (unfold d; lia).
    destruct (Z.log2_spec n Hn) as [Hn1 _].
    destruct (Z.log2_spec d Hd) as [_ Hd2].
    assert (Hln : (0 <= Z.log2 n)%Z) by apply Z.log2_nonneg.
    assert (Hld : (0 <= Z.log2 d)%Z) by apply Z.log2_nonneg.
    replace (Z.log2 n - Z.log2 d - 1)%Z with (Z.log2 n - Z.succ (Z.log2 d))%Z by lia.
    rewrite Qpower_minus by discriminate.
    change 2 with (inject_Z 2).
    rewrite <- !Zpower_Qpower by lia.
    assert (Habs : Qabs q == inject_Z n / inject_Z d).
    { destruct q as [qn qd]. unfold n, d. simpl. rewrite (Qmake_Qdiv (Z.abs qn) qd).
      reflexivity. }
    rewrite Habs.
    assert (H1 : inject_Z (2 ^ Z.log2 n) <= inject_Z n) by (rewrite <- Zle_Qle; exact Hn1).
    assert (H2 : inject_Z d <= inject_Z (2 ^ Z.succ (Z.log2 d)))
      by (rewrite <- Zle_Qle; lia).
    assert (Hd0 : 0 < inject_Z d) by (change 0 with (inject_Z 0); rewrite <- Zlt_Qlt; lia).
    assert (Hp0 : 0 < inject_Z (2 ^ Z.succ (Z.log2 d))) by lra.
    assert (Hn0 : 0 < inject_Z (2 ^ Z.log2 n)).
    { change 0 with (inject_Z 0). rewrite <- Zlt_Qlt. apply Z.pow_pos_nonneg; lia. }
    apply Qle_shift_div_l; [exact Hd0|].
    apply Qle_trans with (inject_Z (2 ^ Z.log2 n) / inject_Z (2 ^ Z.succ (Z.log2 d))
                          * inject_Z (2 ^ Z.succ (Z.log2 d))).
    + apply Qmult_le_l; [|exact H2].
      apply Qlt_shift_div_l; [exact Hp0 | lra].
    + assert (Eq : inject_Z (2 ^ Z.log2 n) / inject_Z (2 ^ Z.succ (Z.log2 d))
                   * inject_Z (2 ^ Z.succ (Z.log2 d)) == inject_Z (2 ^ Z.log2 n)).
      { field. intro E0. lra. }
      rewrite Eq. exact H1.
  - apply Qlt_bool_false_iff in E. exact E.
Qed.

(** A binary fraction with a numerator below [2^53] is a binary64 number:
    rounding leaves it as it is. *)
Lemma round64_exact (q : Q) (z : Z) (m : nat) :
  (Z.abs z < 2 ^ 53)%Z ->
  q == inject_Z z / inject_Z (2 ^ Z.of_nat m) ->
  round64 q == q.
Proof.
  intros Hz Hq. unfold round64.
  destruct (Qeq_bool q 0) eqn:E0.
  - apply Qeq_bool_iff in E0. rewrite E0. reflexivity.
  - apply Qeq_bool_neq in E0.
    assert (Hm : inject_Z (2 ^ Z.of_nat m) == 2 ^ Z.of_nat m).
    { rewrite Zpower_Qpower by lia. reflexivity. }
    rewrite Hm in Hq.
    pose proof (two_power_pos (Z.of_nat m)) as Hpm.
    assert (Habs : Qabs q < 2 ^ (53 - Z.of_nat m)).
    { rewrite Hq. unfold Qdiv. rewrite Qabs_Qmult, Qabs_Qinv.
      rewrite (Qabs_pos (2 ^ Z.of_nat m)) by lra.
      rewrite Qpower_minus by discriminate.
      assert (Hzq : Qabs (inject_Z z) < 2 ^ 53).
      { assert (Ez : Qabs (inject_Z z) == inject_Z (Z.abs z)) by reflexivity.
        rewrite Ez. change (2 ^ 53) with (inject_Z (2 ^ 53)).
        rewrite <- Zlt_Qlt. exact Hz. }
      unfold Qdiv. apply Qmult_lt_compat_r; [|exact Hzq].
      apply Qinv_lt_0_compat. exact Hpm. }
    assert (He : (binade q - 52 <= - Z.of_nat m)%Z).
    { pose proof (binade_lower q E0) as Hlow.
      assert (Hlt : 2 ^ binade q < 2 ^ (53 - Z.of_nat m)) by lra.
      apply Qpower_lt_compat_l_inv in Hlt; [lia | reflexivity]. }
    set (e := (binade q - 52)%Z) in *.
    set (t := (- Z.of_nat m - e)%Z).
    assert (Ht : (0 <= t)%Z) by (unfold t; lia).
    pose proof (two_power_pos e) as Hpe.
    pose proof (two_power_pos t) as Hpt.
    assert (Hsplit : 2 ^ t * 2 ^ e * 2 ^ Z.of_nat m == 1).
    { rewrite <- !Qpower_plus by discriminate.
      replace (t + e + Z.of_nat m)%Z with 0%Z by (unfold t; lia). reflexivity. }
    assert (Ez : inject_Z (z * 2 ^ t) == inject_Z z * 2 ^ t).
    { rewrite inject_Z_mult, (Zpower_Qpower 2 t Ht). reflexivity. }
    revert Hsplit Ez Hq Hpm Hpe Hpt.
    generalize (2 ^ Z.of_nat m) (2 ^ e) (2 ^ t).
    intros pm pe pt Hsplit Ez Hq Hpm Hpe Hpt.
    assert (Hint : q / pe == inject_Z (z * 2 ^ t)).
    { rewrite Ez, Hq.
      assert (E1 : inject_Z z / pm / pe
                   == inject_Z z * pt / (pt * pe * pm)).
      { field. repeat split; intro E; lra. }
      rewrite E1, Hsplit. field. }
    rewrite (round_half_even_Z _ _ Hint), Qred_correct, Ez, Hq.
    assert (E2 : inject_Z z * pt * pe == inject_Z z * (pt * pe * pm) / pm).
    { field. intro E; lra. }
    rewrite E2, Hsplit. field. intro E; lra.
Qed.

Lemma binary64_count_on_multiple (m k : nat) (lo hi step : Q) :
  binary_exact m lo -> binary_exact m hi -> binary_exact m step ->
  0 < step ->
  hi - lo == inject_Z (Z.of_nat k) * step ->
  profile_length64 lo hi step = Z.of_nat (S k).
Proof.
  intros (_ & a & Ha & Hlo) (_ & b & Hb & Hhi) (_ & c & Hc & Hstep) Hpos Hk.
  assert (H51 : (2 ^ 51 = 2251799813685248)%Z) by reflexivity.
  assert (H53 : (2 ^ 53 = 9007199254740992)%Z) by reflexivity.
  rewrite H51 in Ha, Hb, Hc.
  assert (HP : 0 < inject_Z (2 ^ Z.of_nat m)).
  { change 0 with (inject_Z 0). rewrite <- Zlt_Qlt. apply Z.pow_pos_nonneg; lia. }
  set (P := inject_Z (2 ^ Z.of_nat m)) in *.
  assert (HP0 : ~ P == 0) by (intro E; lra).
  assert (Hc0 : (0 < c)%Z).
  { rewrite Zlt_Qlt. change (inject_Z 0) with 0.
    assert (E : inject_Z c == step * P) by (rewrite Hstep; field; exact HP0).
    rewrite E. apply Qmult_lt_0_compat; assumption. }
  assert (Hz : (b - a = Z.of_nat k * c)%Z).
  { apply inject_Z_injective. rewrite inject_Z_sub, inject_Z_mult.
    assert (E : inject_Z b - inject_Z a == (hi - lo) * P)
      by (rewrite Hhi, Hlo; field; exact HP0).
    rewrite E, Hk, Hstep. field. exact HP0. }
  assert (Hk1 : (Z.of_nat k + 1 <= (Z.of_nat k + 1) * c)%Z) by nia.
  unfold profile_length64, arange_length64.
  assert (E1 : round64 (hi + step) == hi + step).
  { apply (round64_exact _ (b + c) m); [rewrite H53; lia|].
    rewrite Hhi, Hstep, inject_Z_plus. fold P. field. exact HP0. }
  assert (E2 : round64 (round64 (hi + step) - lo) == hi + step - lo).
  { transitivity (round64 (hi + step) - lo); [|rewrite E1; reflexivity].
    apply (round64_exact _ (b + c - a) m); [rewrite H53; lia|].
    rewrite E1, Hhi, Hstep, Hlo, inject_Z_sub, inject_Z_plus. fold P. field. exact HP0. }
  assert (E3 : round64 (round64 (hi + step) - lo) / step == inject_Z (Z.of_nat k + 1)).
  { rewrite E2, inject_Z_plus.
    assert (E : hi + step - lo == (inject_Z (Z.of_nat k) + 1) * step)
      by (rewrite Qmult_plus_distr_l, <- Hk; ring).
    rewrite E. change (inject_Z 1) with 1. field. intro E0; lra. }
  assert (E4 : round64 (round64 (round64 (hi + step) - lo) / step)
               == inject_Z (Z.of_nat k + 1)).
  { transitivity (round64 (round64 (hi + step) - lo) / step); [|exact E3].
    apply (round64_exact _ (Z.of_nat k + 1) 0); [rewrite H53; lia|].
    rewrite E3. change (inject_Z (2 ^ Z.of_nat 0)) with 1. field. }
  rewrite E4, Qceiling_Z. lia.
Qed.

(** On decimal bounds the two counts differ: between 12.1 and 15.6 knots
    with a step of 0.5, each taken as the nearest binary64 number, numpy
    makes nine rows where the exact quotient gives eight, and its ninth
    sample lies above the maximum. *)
Lemma binary64_count_on_decimal_bounds :
  let lo := round64 12.1 in
  let hi := round64 15.6 in
  profile_length64 lo hi 0.5 = 9%Z /\
  Qceiling ((hi + 0.5 - lo) / 0.5) = 8%Z /\
  hi < lo + 8 * 0.5.
Proof.
  vm_compute. repeat split.
Qed.

(** C3 (as the code has it). For [min_speed <= max_speed] and a positive
    step the profile is returned and has at least one row; its rows are,
    in order, the pipeline evaluated at [min_speed + i * step] for
    [i = 0, 1, 2, ...]; every sampled speed is at least [min_speed] and at
    most [max_speed + step], and the last one is at least [max_speed]: the
    samples cover the range and are never clamped.  When the two bounds
    and the step are binary fractions, so that the binary64 sample count
    is the exact one, and [max_speed - min_speed] is a whole number [k] of
    steps, there are [k + 1] rows, in binary64 as well, none above
    [max_speed], and the last one is sampled at [max_speed]. *)
Theorem speed_profile_samples (vd : vessel_data)
    (route_distance fuel_price vessel_day_cost lo hi step : Q) :
  lo <= hi -> 0 < step ->
  exists rows,
    generate_speed_profile vd route_distance fuel_price vessel_day_cost (lo, hi) step
    = Ok rows /\
    (1 <= List.length rows)%nat /\
    (forall i row, nth_error rows i = Some row ->
       row_speed row = lo + inject_Z (Z.of_nat i) * step /\
       profile_row vd route_distance fuel_price vessel_day_cost (row_speed row) = Ok row /\
       lo <= row_speed row /\ row_speed row <= hi + step) /\
    (exists row, nth_error rows (List.length rows - 1) = Some row /\
                 hi <= row_speed row) /\
    (forall m k : nat,
       binary_exact m lo -> binary_exact m hi -> binary_exact m step ->
       hi - lo == inject_Z (Z.of_nat k) * step ->
       profile_length64 lo hi step = Z.of_nat (List.length rows) /\
       List.length rows = S k /\
       (forall row, In row rows -> row_speed row <= hi) /\
       exists row, nth_error rows k = Some row /\ row_speed row == hi).
Proof.
  intros Hle Hstep.
  assert (Hstep0 : ~ step == 0) by (intro E; lra).
  destruct (generate_speed_profile_indexed vd route_distance fuel_price vessel_day_cost
              lo hi step Hstep0) as (rows & Hrows & Hlen & Hnth).
  destruct (sample_reaches_stop lo hi step Hle Hstep) as [Hone Hlast].
  exists rows. split; [exact Hrows|].
  split; [rewrite Hlen; exact Hone|].
  split; [|split].
  - intros i row Hi. destruct (Hnth i row Hi) as (Hlt & Hs & Hrow).
    split; [exact Hs|]. split; [exact Hrow|]. rewrite Hs. split.
    + apply sample_at_least_start. lra.
    + apply Qlt_le_weak. apply sample_below_stop; assumption.
  - destruct (nth_error rows (List.length rows - 1)) as [row|] eqn:Hrow.
    + exists row. split; [reflexivity|].
      destruct (Hnth _ row Hrow) as (_ & Hs & _). rewrite Hs, Hlen. exact Hlast.
    + apply nth_error_None in Hrow. lia.
  - intros m k Hlo Hhi Hst Hk.
    pose proof (sample_count_on_multiple lo hi step k Hstep Hk) as Hcount.
    rewrite Hcount in Hlen, Hnth.
    split; [rewrite Hlen; apply (binary64_count_on_multiple m); assumption|].
    split; [exact Hlen|]. split.
    + intros row Hin. apply In_nth_error in Hin. destruct Hin as [i Hi].
      destruct (Hnth i row Hi) as (Hlt & Hs & _). rewrite Hs.
      apply (sample_within_on_multiple lo hi step k i Hstep Hk Hlt).
    + destruct (nth_error rows k) as [row|] eqn:Hrow.
      * exists row. split; [reflexivity|].
        destruct (Hnth k row Hrow) as (_ & Hs & _). rewrite Hs. lra.
      * apply nth_error_None in Hrow. lia.
Qed.

Lemma speed_profile_samples_witness :
  exists rows,
    generate_speed_profile sample_vessel_data 8200 600 25000 (8, 10) 0.5 = Ok rows /\
    List.length rows = 5%nat /\
    profile_length64 8 10 0.5 = 5%Z /\
    exists row, nth_error rows 4 = Some row /\ row_speed row == 10.
Proof.
  destruct (speed_profile_samples sample_vessel_data 8200 600 25000 8 10 0.5)
    as (rows & Hrows & _ & _ & _ & Hmult).
  - vm_compute. discriminate.
  - reflexivity.
  - exists rows. split; [exact Hrows|].
    destruct (Hmult 1%nat 4%nat) as (H64 & Hlen & _ & Hrow).
    + split; [lia|]. exists 16%Z. split; [vm_compute; discriminate | reflexivity].
    + split; [lia|]. exists 20%Z. split; [vm_compute; discriminate | reflexivity].
    + split; [lia|]. exists 1%Z. split; [vm_compute; discriminate | reflexivity].
    + reflexivity.
    + split; [exact Hlen|]. split; [rewrite H64, Hlen; reflexivity | exact Hrow].
Defined.

(** C3 fails as stated: between 8 and 9 knots with a step of 0.75 the
    samples are 8, 8.75 and 9.5; the last one exceeds the maximum and no
    row is sampled at the maximum. *)
Lemma speed_profile_overshoots :
  exists rows,
    generate_speed_profile sample_vessel_data 8200 600 25000 (8, 9) 0.75 = Ok rows /\
    Forall2 Qeq (map row_speed rows) [8; 8.75; 9.5] /\
    (exists row, In row rows /\ 9 < row_speed row) /\
    (forall row, In row rows -> ~ row_speed row == 9).
Proof.
  eexists. split; [vm_compute; reflexivity|].
  split; [repeat constructor|].
  split.
  - eexists. split; [right; right; left; reflexivity|]. reflexivity.
  - intros row [H|[H|[H|[]]]]; subst row; discriminate.
Qed.

(** ** The grid minimizer honours the interface *)

Lemma clip_feasible (x lo hi : Q) : lo <= hi -> lo <= clip x lo hi <= hi.
Proof.
  intro Hle. unfold clip.
  destruct (Qlt_bool x lo) eqn:E1.
  - split; [apply Qle_refl | exact Hle].
  - apply Qlt_bool_false_iff in E1.
    destruct (Qlt_bool hi x) eqn:E2.
    + split; [exact Hle | apply Qle_refl].
    + apply Qlt_bool_false_iff in E2. split; assumption.
Qed.

Lemma best_of_invariant (P : Q -> Prop) (f : Q -> result xfloat)
    (candidates : list Q) :
  forall best, P best -> (forall c, In c candidates -> P c) ->
               P (best_of f best candidates).
Proof.
  induction candidates as [|c cs IH]; intros best Hbest Hall; simpl.
  - exact Hbest.
  - destruct (xleb (value_at f best) (value_at f c)).
    + apply IH; [exact Hbest|]. intros c' Hc'. apply Hall. right. exact Hc'.
    + apply IH; [apply Hall; left; reflexivity|].
      intros c' Hc'. apply Hall. right. exact Hc'.
Qed.

Lemma grid_feasible (lo hi : Q) (n : nat) (c : Q) :
  lo <= hi -> In c (grid lo hi (S n)) -> lo <= c <= hi.
Proof.
  intros Hle Hin. unfold grid in Hin. apply in_map_iff in Hin.
  destruct Hin as (i & <- & Hi). apply in_seq in Hi.
  set (m := inject_Z (Z.of_nat (S n))).
  set (j := inject_Z (Z.of_nat i)).
  assert (Hm : 0 < m).
  { subst m. change 0 with (inject_Z 0). rewrite <- Zlt_Qlt. lia. }
  assert (Hj0 : 0 <= j).
  { subst j. change 0 with (inject_Z 0). rewrite <- Zle_Qle. lia. }
  assert (Hjm : j <= m).
  { subst j m. rewrite <- Zle_Qle. lia. }
  assert (Ht0 : 0 <= j / m) by (apply Qle_shift_div_l; lra).
  assert (Ht1 : j / m <= 1) by (apply Qle_shift_div_r; lra).
  split; nra.
Qed.

Lemma grid_minimize_inverted (n : nat) (f : Q -> result xfloat) (x0 lo hi : Q) :
  hi < lo -> grid_minimize n f x0 lo hi = Raise ValueError.
Proof.
  intro H. unfold grid_minimize. apply Qlt_bool_iff in H. rewrite H. reflexivity.
Qed.

Lemma grid_minimize_returns (n : nat) (f : Q -> result xfloat) (x0 lo hi : Q) :
  lo <= hi -> returns (grid_minimize n f x0 lo hi).
Proof.
  intro H. unfold grid_minimize. apply Qlt_bool_false_iff in H. rewrite H.
  eexists. reflexivity.
Qed.

Lemma grid_minimize_feasible (n : nat) (f : Q -> result xfloat) (x0 lo hi x : Q) :
  grid_minimize n f x0 lo hi = Ok x -> lo <= x <= hi.
Proof.
  unfold grid_minimize. destruct (Qlt_bool hi lo) eqn:E; [discriminate|].
  apply Qlt_bool_false_iff in E. intro H.
  assert (Hx : x = best_of f (clip x0 lo hi) (grid lo hi (S n))) by congruence.
  rewrite Hx. apply (best_of_invariant (fun y => lo <= y <= hi)).
  - apply clip_feasible. exact E.
  - intros c Hc. apply (grid_feasible lo hi n c E Hc).
Qed.

Definition grid_minimizer (n : nat) : BoundedMinimizer :=
  {| minimize := grid_minimize n;
     minimize_inverted := grid_minimize_inverted n;
     minimize_returns := grid_minimize_returns n;
     minimize_feasible := grid_minimize_feasible n |}.

(** ** The optimizer *)

Lemma objective_finite (vd : vessel_data)
    (route_distance fuel_price vessel_day_cost speed : Q) :
  ~ get (vd_design_speed vd) 20 == 0 ->
  ~ speed == 0 ->
  objective_function vd route_distance fuel_price vessel_day_cost speed
  = Ok (Fin (voyage_cost vd route_distance fuel_price vessel_day_cost speed)).
Proof.
  intros Hds Hs. unfold objective_function, voyage_cost.
  rewrite (fuel_consumption_np _ _ Hds). simpl.
  assert (H24 : Qeq_bool (speed * 24) 0 = false).
  { apply Qeq_bool_false_iff. intro E. apply Hs. lra. }
  rewrite H24. reflexivity.
Qed.

Section Optimizer.

Context {M : BoundedMinimizer}.
Variable vd : vessel_data.
Variables route_distance fuel_price vessel_day_cost min_speed max_speed : Q.

Let objective := objective_function vd route_distance fuel_price vessel_day_cost.
Let initial_speed := get (vd_design_speed vd) 20 * 0.8.

Lemma optimize_speed_of_minimum (x : Q) :
  minimize objective initial_speed min_speed max_speed = Ok x ->
  ~ get (vd_design_speed vd) 20 == 0 ->
  exists r,
    optimize_speed vd route_distance fuel_price vessel_day_cost min_speed max_speed
    = Ok r /\
    optimal_speed r = x /\
    objective x = Ok (total_cost r).
Proof.
  intros Hmin Hds. unfold optimize_speed.
  fold objective initial_speed. rewrite Hmin.
  assert (H24 : ~ get (vd_design_speed vd) 20 * 24 == 0) by (intro E; apply Hds; lra).
  rewrite (py_div_ok route_distance _ H24).
  rewrite (fuel_consumption_py _ _ Hds).
  eexists. split; [reflexivity|]. split; reflexivity.
Qed.

Lemma optimize_speed_without_design_speed (x : Q) :
  minimize objective initial_speed min_speed max_speed = Ok x ->
  get (vd_design_speed vd) 20 == 0 ->
  optimize_speed vd route_distance fuel_price vessel_day_cost min_speed max_speed
  = Raise ZeroDivisionError.
Proof.
  intros Hmin Hds. unfold optimize_speed.
  fold objective initial_speed. rewrite Hmin.
  assert (H24 : get (vd_design_speed vd) 20 * 24 == 0) by (rewrite Hds; ring).
  rewrite (py_div_zero route_distance _ H24). reflexivity.
Qed.

Lemma optimize_speed_inv (r : OptimizationResult) :
  optimize_speed vd route_distance fuel_price vessel_day_cost min_speed max_speed
  = Ok r ->
  ~ get (vd_design_speed vd) 20 == 0 /\
  minimize objective initial_speed min_speed max_speed = Ok (optimal_speed r) /\
  objective (optimal_speed r) = Ok (total_cost r).
Proof.
  intro H.
  destruct (minimize objective initial_speed min_speed max_speed) as [x|e] eqn:Hmin.
  - destruct (Qeq_dec (get (vd_design_speed vd) 20) 0) as [Hds|Hds].
    + rewrite (optimize_speed_without_design_speed x Hmin Hds) in H. discriminate H.
    + destruct (optimize_speed_of_minimum x Hmin Hds) as (r' & Hr' & Hx & Hobj).
      rewrite Hr' in H. injection H as <-. rewrite Hx. repeat split; assumption.
  - unfold optimize_speed in H. fold objective initial_speed in H.
    rewrite Hmin in H. discriminate H.
Qed.

End Optimizer.

Lemma optimize_speed_returns {M : BoundedMinimizer} (vd : vessel_data)
    (route_distance fuel_price vessel_day_cost min_speed max_speed : Q) :
  min_speed <= max_speed -> ~ get (vd_design_speed vd) 20 == 0 ->
  exists r,
    optimize_speed vd route_distance fuel_price vessel_day_cost min_speed max_speed
    = Ok r /\
    min_speed <= optimal_speed r <= max_speed.
Proof.
  intros Hle Hds.
  destruct (minimize_returns
              (objective_function vd route_distance fuel_price vessel_day_cost)
              (get (vd_design_speed vd) 20 * 0.8) min_speed max_speed Hle) as [x Hx].
  destruct (optimize_speed_of_minimum vd _ _ _ _ _ x Hx Hds) as (r & Hr & Hopt & _).
  exists r. split; [exact Hr|]. rewrite Hopt.
  apply (minimize_feasible _ _ _ _ _ Hx).
Qed.

(** C2 (as the code has it). [optimize_speed] validates none of its
    arguments.  It raises when the bounds are inverted (the minimizer's
    [ValueError]) and when the design speed is zero (the
    [ZeroDivisionError] of the design-speed baseline); for every other
    input, whatever the signs of the distance, the prices and the minimum
    speed, it returns a result whose speed lies within the bounds. *)
Theorem optimize_speed_fails_only_on_bounds_or_design_speed
    {M : BoundedMinimizer} (vd : vessel_data)
    (route_distance fuel_price vessel_day_cost min_speed max_speed : Q) :
  (max_speed < min_speed ->
   optimize_speed vd route_distance fuel_price vessel_day_cost min_speed max_speed
   = Raise ValueError) /\
  (min_speed <= max_speed -> get (vd_design_speed vd) 20 == 0 ->
   optimize_speed vd route_distance fuel_price vessel_day_cost min_speed max_speed
   = Raise ZeroDivisionError) /\
  (min_speed <= max_speed -> ~ get (vd_design_speed vd) 20 == 0 ->
   exists r,
     optimize_speed vd route_distance fuel_price vessel_day_cost min_speed max_speed
     = Ok r /\
     min_speed <= optimal_speed r <= max_speed).
Proof.
  split; [|split].
  - intro Hinv. unfold optimize_speed.
    rewrite (minimize_inverted _ _ _ _ Hinv). reflexivity.
  - intros Hle Hds.
    destruct (minimize_returns
                (objective_function vd route_distance fuel_price vessel_day_cost)
                (get (vd_design_speed vd) 20 * 0.8) min_speed max_speed Hle) as [x Hx].
    apply (optimize_speed_without_design_speed vd _ _ _ _ _ x Hx Hds).
  - intros Hle Hds.
    destruct (minimize_returns
                (objective_function vd route_distance fuel_price vessel_day_cost)
                (get (vd_design_speed vd) 20 * 0.8) min_speed max_speed Hle) as [x Hx].
    destruct (optimize_speed_of_minimum vd _ _ _ _ _ x Hx Hds) as (r & Hr & Hopt & _).
    exists r. split; [exact Hr|]. rewrite Hopt.
    apply (minimize_feasible _ _ _ _ _ Hx).
Qed.

Lemma optimize_speed_fails_only_on_bounds_or_design_speed_witness :
  exists r,
    @optimize_speed (grid_minimizer 16) sample_vessel_data 8200 600 25000 12 24 = Ok r /\
    12 <= optimal_speed r <= 24.
Proof.
  refine (proj2 (proj2 (@optimize_speed_fails_only_on_bounds_or_design_speed
                          (grid_minimizer 16) sample_vessel_data 8200 600 25000 12 24))
            _ _).
  - vm_compute. discriminate.
  - vm_compute. discriminate.
Defined.

(** C2 fails as stated: a negative distance, a negative fuel price, a
    negative day rate and a non-positive minimum speed are each accepted,
    and a result is returned, whatever the bounded minimizer. *)
Lemma optimize_speed_accepts_invalid_input :
  (-8200 <= 0 /\
   exists r c,
     @optimize_speed (grid_minimizer 16) sample_vessel_data (-8200) 600 25000 12 24
     = Ok r /\
     total_cost r = Fin c /\ c < 0) /\
  (~ raises (@optimize_speed (grid_minimizer 16) sample_vessel_data
               (-8200) 600 25000 12 24)) /\
  (forall M : BoundedMinimizer,
      returns (@optimize_speed M sample_vessel_data (-8200) 600 25000 12 24) /\
      returns (@optimize_speed M sample_vessel_data 8200 (-600) 25000 12 24) /\
      returns (@optimize_speed M sample_vessel_data 8200 600 (-25000) 12 24) /\
      returns (@optimize_speed M sample_vessel_data 8200 600 25000 (-5) 24)).
Proof.
  assert (Hds : ~ get (vd_design_speed sample_vessel_data) 20 == 0) by discriminate.
  assert (Hany : forall (M : BoundedMinimizer) d p c lo,
             lo <= 24 -> returns (@optimize_speed M sample_vessel_data d p c lo 24)).
  { intros M d p c lo Hlo.
    destruct (@optimize_speed_returns M sample_vessel_data d p c lo 24 Hlo Hds)
      as (r & Hr & _).
    exists r. exact Hr. }
  split; [|split].
  - split; [discriminate|].
    eexists. eexists. split; [vm_compute; reflexivity|].
    split; [reflexivity | vm_compute; reflexivity].
  - intro H. apply raises_not_returns in H. apply H. apply Hany. discriminate.
  - intro M. repeat split; apply Hany; discriminate.
Qed.

(** ** The optimum against the sampled profile *)



Lemma cost_shape_decreasing (a b s t : Q) :
  0 < s -> s <= t -> 0 <= a -> 2 * a * (t * t * t) <= b ->
  a * (t * t) + b / t <= a * (s * s) + b / s.
Proof.
  intros Hs Hst Ha Hb.
  assert (Ht : 0 < t) by lra.
  assert (Hdiff : b / s - b / t == b * (t - s) / (s * t))
    by (field; split; intro E; lra).
  assert (Hst2 : 0 < s * t) by (apply Qmult_lt_0_compat; assumption).
  assert (Hcube : (t + s) * (s * t) <= 2 * (t * t * t)).
  { assert (H1 : s * t <= t * t) by (apply Qmult_le_compat_r; lra).
    assert (H2 : (t + s) * (s * t) <= (t + t) * (t * t)).
    { apply Qmult_le_compat_nonneg; split; lra. }
    lra. }
  assert (Hbound : a * ((t + s) * (s * t)) <= b).
  { assert ((t + s) * (s * t) * a <= 2 * (t * t * t) * a)
      by (apply Qmult_le_compat_r; assumption).
    lra. }
  assert (Hkey : a * (t + s) * (t - s) <= b * (t - s) / (s * t)).
  { apply Qle_shift_div_l; [exact Hst2|].
    assert (E : a * (t + s) * (t - s) * (s * t) == a * ((t + s) * (s * t)) * (t - s))
      by ring.
    rewrite E. apply Qmult_le_compat_r; lra. }
  assert (E2 : a * (t * t) - a * (s * s) == a * (t + s) * (t - s)) by ring.
  lra.
Qed.

Lemma cost_shape_increasing (a b s t : Q) :
  0 < s -> s <= t -> 0 <= a -> b <= 2 * a * (s * s * s) ->
  a * (s * s) + b / s <= a * (t * t) + b / t.
Proof.
  intros Hs Hst Ha Hb.
  assert (Ht : 0 < t) by lra.
  assert (Hdiff : b / s - b / t == b * (t - s) / (s * t))
    by (field; split; intro E; lra).
  assert (Hst2 : 0 < s * t) by (apply Qmult_lt_0_compat; assumption).
  assert (Hcube : 2 * (s * s * s) <= (t + s) * (s * t)).
  { assert (H1 : s * s <= s * t).
    { rewrite (Qmult_comm s t). apply Qmult_le_compat_r; lra. }
    assert (H2 : (s + s) * (s * s) <= (t + s) * (s * t)).
    { apply Qmult_le_compat_nonneg; split; try lra.
      apply Qmult_le_0_compat; lra. }
    lra. }
  assert (Hbound : b <= a * ((t + s) * (s * t))).
  { assert (2 * (s * s * s) * a <= (t + s) * (s * t) * a)
      by (apply Qmult_le_compat_r; assumption).
    lra. }
  assert (Hkey : b * (t - s) / (s * t) <= a * (t + s) * (t - s)).
  { apply Qle_shift_div_r; [exact Hst2|].
    assert (E : a * (t + s) * (t - s) * (s * t) == a * ((t + s) * (s * t)) * (t - s))
      by ring.
    rewrite E. apply Qmult_le_compat_r; lra. }
  assert (E2 : a * (t * t) - a * (s * s) == a * (t + s) * (t - s)) by ring.
  lra.
Qed.

Lemma voyage_cost_shape (vd : vessel_data)
    (route_distance fuel_price vessel_day_cost speed : Q) :
  ~ get (vd_design_speed vd) 20 == 0 ->
  ~ speed == 0 ->
  voyage_cost vd route_distance fuel_price vessel_day_cost speed
  == route_distance / (24 * (get (vd_design_speed vd) 20) ^ 3)
     * (get (vd_design_consumption vd) 180 * fuel_price) * (speed * speed)
     + route_distance / (24 * (get (vd_design_speed vd) 20) ^ 3)
       * (vessel_day_cost * (get (vd_design_speed vd) 20) ^ 3) / speed.
Proof.
  intros Hds Hs. unfold voyage_cost. field. split; assumption.
Qed.




(** The interface of the minimizer says nothing on how close to the
    minimum its result is, and neither does the core, which never looks at
    the convergence flag.  With the coarsest grid minimizer, which tries
    the two bounds and the clipped start only, the speed returned between
    8 and 24 knots is 8, and the profile row at 10 knots, within the
    bounds, has a lower total cost than the one reported. *)
Lemma coarse_minimizer_dearer_than_inner_row :
  exists r rows row,
    @optimize_speed (grid_minimizer 0) sample_vessel_data 8200 600 25000 8 24 = Ok r /\
    generate_speed_profile sample_vessel_data 8200 600 25000 (8, 24) 0.5 = Ok rows /\
    optimal_speed r == 8 /\
    nth_error rows 4 = Some row /\
    row_speed row == 10 /\
    ~ xle (total_cost r) (row_total_cost row).
Proof.
  eexists. eexists. eexists.
  split; [vm_compute; reflexivity|].
  split; [vm_compute; reflexivity|].
  split; [vm_compute; reflexivity|].
  split; [reflexivity|].
  split; [vm_compute; reflexivity|].
  vm_compute. intro H. apply H. reflexivity.
Qed.




(** At a zero speed the objective is NaN: the transit time is infinite and
    the fuel burn is zero. *)
Lemma objective_at_zero_speed (vd : vessel_data)
    (route_distance fuel_price vessel_day_cost speed : Q) :
  ~ get (vd_design_speed vd) 20 == 0 ->
  0 < route_distance ->
  speed == 0 ->
  objective_function vd route_distance fuel_price vessel_day_cost speed = Ok NaN.
Proof.
  intros Hds Hd Hx. unfold objective_function.
  rewrite (fuel_consumption_np _ _ Hds).
  change (div (Fin route_distance) (mul (Fin speed) (Fin 24)))
    with (Ok (xdiv (Fin route_distance) (Fin (speed * 24)))).
  cbv beta iota delta [bind].
  assert (Htime : xdiv (Fin route_distance) (Fin (speed * 24)) = PInf).
  { unfold xdiv.
    assert (H24 : Qeq_bool (speed * 24) 0 = true).
    { apply Qeq_bool_iff. rewrite Hx. reflexivity. }
    rewrite H24. unfold inf_of_sign.
    apply Qlt_bool_iff in Hd. rewrite Hd. reflexivity. }
  rewrite Htime.
  set (fuel := get (vd_design_consumption vd) 180
               * (speed / get (vd_design_speed vd) 20) ^ 3).
  assert (Hfuel : fuel == 0).
  { subst fuel. rewrite Hx. field. exact Hds. }
  change (mul (Fin fuel) PInf) with (inf_of_sign fuel).
  unfold inf_of_sign.
  assert (Hpos : Qlt_bool 0 fuel = false).
  { apply Qlt_bool_false_iff. rewrite Hfuel. apply Qle_refl. }
  assert (Hneg : Qlt_bool fuel 0 = false).
  { apply Qlt_bool_false_iff. rewrite Hfuel. apply Qle_refl. }
  rewrite Hpos, Hneg. reflexivity.
Qed.

(** With both bounds at zero the minimizer can only return a zero speed,
    and the result that [optimize_speed] then returns has a NaN total
    cost. *)
Lemma optimize_speed_zero_bounds_nan (M : BoundedMinimizer) :
  exists r,
    optimize_speed sample_vessel_data 8200 600 25000 0 0 = Ok r /\
    optimal_speed r == 0 /\
    total_cost r = NaN.
Proof.
  destruct (optimize_speed_returns sample_vessel_data 8200 600 25000 0 0)
    as (r & Hr & Hlo & Hhi); [apply Qle_refl | discriminate |].
  assert (Hx : optimal_speed r == 0) by lra.
  exists r. split; [exact Hr|]. split; [exact Hx|].
  destruct (optimize_speed_inv _ _ _ _ _ _ r Hr) as (_ & _ & Hobj).
  rewrite objective_at_zero_speed in Hobj; [congruence | discriminate | reflexivity | exact Hx].
Qed.

(** * Further properties of the code *)

(** ** Routes *)

Lemma avg_leg_distance_returns (r : Route) : returns (RouteObj.avg_leg_distance r).
Proof.
  unfold RouteObj.avg_leg_distance.
  destruct (1 <? RouteObj.number_of_waypoints r)%nat eqn:E.
  - apply Nat.ltb_lt in E.
    rewrite py_div_ok; [eexists; reflexivity|].
    assert (H2 : inject_Z 2 <= inject_Z (Z.of_nat (RouteObj.number_of_waypoints r)))
      by (rewrite <- Zle_Qle; lia).
    change (inject_Z 2) with 2 in H2. intro H. lra.
  - eexists. reflexivity.
Qed.

(** X1. The average leg distance never divides by zero: with at most one
    waypoint it is 0, and with [n > 1] waypoints it is the distance split
    into [n - 1] legs, so the legs add up to the route distance. *)
Theorem avg_leg_distance_splits_distance (r : Route) :
  exists a,
    RouteObj.avg_leg_distance r = Ok a /\
    ((RouteObj.number_of_waypoints r <= 1)%nat -> a = 0) /\
    ((1 < RouteObj.number_of_waypoints r)%nat ->
     a * (inject_Z (Z.of_nat (RouteObj.number_of_waypoints r)) - 1) == distance r).
Proof.
  unfold RouteObj.avg_leg_distance.
  destruct (1 <? RouteObj.number_of_waypoints r)%nat eqn:E.
  - apply Nat.ltb_lt in E.
    assert (Hn : ~ inject_Z (Z.of_nat (RouteObj.number_of_waypoints r)) - 1 == 0).
    { assert (H2 : inject_Z 2 <= inject_Z (Z.of_nat (RouteObj.number_of_waypoints r)))
        by (rewrite <- Zle_Qle; lia).
      change (inject_Z 2) with 2 in H2. intro H. lra. }
    rewrite (py_div_ok _ _ Hn). eexists. split; [reflexivity|]. split.
    + intro H. lia.
    + intros _. field. exact Hn.
  - apply Nat.ltb_ge in E. exists 0. split; [reflexivity|]. split.
    + reflexivity.
    + intro H. lia.
Qed.

Lemma avg_leg_distance_splits_distance_witness :
  exists a,
    RouteObj.avg_leg_distance
      {| route_name := "Test Route"; distance := 8200;
         waypoints := [ {| wp_name := "Rotterdam"; wp_lat := 51.95; wp_lon := 4.12 |};
                        {| wp_name := "Suez Canal"; wp_lat := 31.25; wp_lon := 32.35 |};
                        {| wp_name := "Singapore"; wp_lat := 1.25; wp_lon := 103.83 |} ] |}
    = Ok a /\ a * (3 - 1) == 8200.
Proof.
  destruct (avg_leg_distance_splits_distance
      {| route_name := "Test Route"; distance := 8200;
         waypoints := [ {| wp_name := "Rotterdam"; wp_lat := 51.95; wp_lon := 4.12 |};
                        {| wp_name := "Suez Canal"; wp_lat := 31.25; wp_lon := 32.35 |};
                        {| wp_name := "Singapore"; wp_lat := 1.25; wp_lon := 103.83 |} ] |})
    as (a & Ha & _ & Hlegs).
  exists a. split; [exact Ha|]. apply Hlegs. vm_compute. lia.
Defined.

Lemma last_nth_error {X : Type} (l : list X) (x : X) :
  nth_error l (List.length l - 1) = Some x -> exists l', l = l' ++ [x].
Proof.
  induction l as [|a l IH]; simpl; intro H.
  - discriminate H.
  - destruct l as [|b l].
    + simpl in H. injection H as ->. exists []. reflexivity.
    + simpl in H. simpl in IH. rewrite Nat.sub_0_r in IH.
      destruct (IH H) as [l' Hl']. exists (a :: l'). rewrite Hl'. reflexivity.
Qed.

(** X2. [get_origin_destination] returns [(None, None)] exactly for a route
    with fewer than two waypoints; otherwise it returns the first and the
    last waypoint, whose coordinates are the first and the last entry of
    [get_waypoint_coordinates], a list with one entry per waypoint. *)
Theorem origin_destination_are_route_ends (r : Route) :
  List.length (RouteObj.get_waypoint_coordinates r) = RouteObj.number_of_waypoints r /\
  (RouteObj.get_origin_destination r = (None, None)
   <-> (RouteObj.number_of_waypoints r < 2)%nat) /\
  ((2 <= RouteObj.number_of_waypoints r)%nat ->
   exists o d middle tail,
     RouteObj.get_origin_destination r = (Some o, Some d) /\
     waypoints r = o :: tail /\
     waypoints r = middle ++ [d] /\
     RouteObj.get_waypoint_coordinates r
     = map (fun wp => (wp_lat wp, wp_lon wp)) middle ++ [(wp_lat d, wp_lon d)] /\
     hd_error (RouteObj.get_waypoint_coordinates r) = Some (wp_lat o, wp_lon o)).
Proof.
  unfold RouteObj.get_origin_destination, RouteObj.get_waypoint_coordinates,
    RouteObj.number_of_waypoints.
  split; [apply length_map|].
  destruct (List.length (waypoints r) <? 2)%nat eqn:E.
  - apply Nat.ltb_lt in E. split; [tauto|]. intro H. lia.
  - apply Nat.ltb_ge in E. split.
    + split; [|intro H; lia].
      intro H. destruct (waypoints r) as [|o tail]; [simpl in E; lia|].
      simpl in H. discriminate H.
    + intros _.
      destruct (waypoints r) as [|o tail] eqn:Hw; [simpl in E; lia|].
      destruct (nth_error (o :: tail) (List.length (o :: tail) - 1)) as [d|] eqn:Hd.
      * destruct (last_nth_error _ _ Hd) as [middle Hmid].
        exists o, d, middle, tail.
        split; [reflexivity|]. split; [reflexivity|]. split; [exact Hmid|].
        split; [|reflexivity].
        rewrite Hmid, map_app. reflexivity.
      * apply nth_error_None in Hd. simpl in Hd. lia.
Qed.

Lemma origin_destination_are_route_ends_witness :
  exists o d,
    RouteObj.get_origin_destination
      {| route_name := "Test Route"; distance := 8200;
         waypoints := [ {| wp_name := "Rotterdam"; wp_lat := 51.95; wp_lon := 4.12 |};
                        {| wp_name := "Suez Canal"; wp_lat := 31.25; wp_lon := 32.35 |};
                        {| wp_name := "Singapore"; wp_lat := 1.25; wp_lon := 103.83 |} ] |}
    = (Some o, Some d).
Proof.
  destruct (origin_destination_are_route_ends
      {| route_name := "Test Route"; distance := 8200;
         waypoints := [ {| wp_name := "Rotterdam"; wp_lat := 51.95; wp_lon := 4.12 |};
                        {| wp_name := "Suez Canal"; wp_lat := 31.25; wp_lon := 32.35 |};
                        {| wp_name := "Singapore"; wp_lat := 1.25; wp_lon := 103.83 |} ] |})
    as (_ & _ & Hends).
  destruct Hends as (o & d & _ & _ & Hod & _); [vm_compute; lia|].
  exists o, d. exact Hod.
Defined.

(** X3. Serialising a route and building a route from the dictionary gives
    the route back: [to_dict] never fails, and [Route(route.to_dict())] has
    the same name, distance and waypoints as [route]; the dictionary also
    records the number of waypoints. *)
Theorem route_to_dict_round_trip (r : Route) :
  exists d,
    RouteObj.to_dict r = Ok d /\
    RouteObj.init d = Ok r /\
    rd_number_of_waypoints d = Some (List.length (waypoints r)).
Proof.
  destruct (avg_leg_distance_returns r) as [a Ha].
  unfold RouteObj.to_dict. rewrite Ha. cbv beta iota delta [bind].
  eexists. split; [reflexivity|].
  assert (Hinit : RouteObj.init
            {| rd_name := Some (route_name r);
               rd_distance := Some (distance r);
               rd_waypoints := Some (waypoints r);
               rd_number_of_waypoints := Some (RouteObj.number_of_waypoints r);
               rd_avg_leg_distance := Some a |} = Ok r).
  { unfold RouteObj.init. simpl get.
    destruct r as [n dist wps]. simpl in *. rewrite Ha. reflexivity. }
  split; [exact Hinit | reflexivity].
Qed.

(** X4. For a positive speed the three transit-time computations agree:
    [Route.get_transit_time], [calculate_transit_time] and the transit time
    of the profile row sampled at that speed all give
    [distance / (speed * 24)] days, which sailed at that speed for 24 hours
    a day covers the distance again; and on a route of non-negative length a
    higher speed never takes longer. *)
Theorem transit_time_paths_agree (r : Route) (vd : vessel_data)
    (fuel_price vessel_day_cost speed : Q) :
  0 < speed ->
  exists t row,
    RouteM.get_transit_time r speed = Ok (Fin t) /\
    calculate_transit_time (distance r) speed = Ok (Fin t) /\
    profile_row vd (distance r) fuel_price vessel_day_cost speed = Ok row /\
    row_transit_time row = Fin t /\
    t * (speed * 24) == distance r /\
    (forall faster t',
        speed <= faster -> 0 <= distance r ->
        RouteM.get_transit_time r faster = Ok (Fin t') -> t' <= t).
Proof.
  intro Hs.
  assert (Hle : Qle_bool speed 0 = false) by (apply Qle_bool_false_iff; exact Hs).
  assert (H24 : ~ speed * 24 == 0) by (intro E; lra).
  exists (distance r / (speed * 24)).
  destruct (profile_row_returns vd (distance r) fuel_price vessel_day_cost speed)
    as (row & Hrow & _).
  exists row.
  assert (Hroute : RouteM.get_transit_time r speed
                   = Ok (Fin (distance r / (speed * 24)))).
  { unfold RouteM.get_transit_time. rewrite Hle, (py_div_ok _ _ H24). reflexivity. }
  split; [exact Hroute|].
  split; [unfold calculate_transit_time; rewrite Hle, (py_div_ok _ _ H24); reflexivity|].
  split; [exact Hrow|].
  split.
  { unfold profile_row in Hrow.
    change (div (Fin (distance r)) (mul (Fin speed) (Fin 24)))
      with (Ok (xdiv (Fin (distance r)) (Fin (speed * 24)))) in Hrow.
    cbv beta iota delta [bind] in Hrow.
    apply bind_ok in Hrow. destruct Hrow as (fuel & _ & Hrow).
    injection Hrow as <-. simpl row_transit_time. unfold xdiv.
    apply Qeq_bool_false_iff in H24. rewrite H24. reflexivity. }
  split; [field; intro E; lra|].
  intros faster t' Hfaster Hdist Hfast.
  assert (Hf : 0 < faster) by lra.
  unfold RouteM.get_transit_time in Hfast.
  assert (Hle' : Qle_bool faster 0 = false) by (apply Qle_bool_false_iff; exact Hf).
  assert (H24' : ~ faster * 24 == 0) by (intro E; lra).
  rewrite Hle', (py_div_ok _ _ H24') in Hfast. injection Hfast as <-.
  apply Qle_shift_div_r; [lra|].
  assert (E : distance r / (speed * 24) * (faster * 24)
              == distance r * (faster / speed)) by (field; intro E; lra).
  rewrite E.
  assert (H1 : 1 <= faster / speed) by (apply Qle_shift_div_l; lra).
  nra.
Qed.

Lemma transit_time_paths_agree_witness :
  exists t, RouteM.get_transit_time
              {| route_name := "Test Route"; distance := 1000; waypoints := [] |} 20
            = Ok (Fin t) /\
            t * (20 * 24) == 1000.
Proof.
  destruct (transit_time_paths_agree
              {| route_name := "Test Route"; distance := 1000; waypoints := [] |}
              sample_vessel_data 600 25000 20)
    as (t & row & Ht & _ & _ & _ & Hinv & _).
  - reflexivity.
  - exists t. split; [exact Ht | exact Hinv].
Defined.

(** ** Vessels *)

Lemma engine_load_ok (v : Vessel) (speed : Q) :
  ~ max_speed v == 0 ->
  VesselM.get_engine_load v speed = Ok (100 * (speed / max_speed v) ^ 3).
Proof.
  intro Hm. unfold VesselM.get_engine_load. rewrite (py_div_ok _ _ Hm). reflexivity.
Qed.

Lemma square_nonneg (x : Q) : 0 <= x * x.
Proof.
  destruct (Qlt_le_dec x 0) as [H|H].
  - assert (E : x * x == (- x) * (- x)) by ring.
    rewrite E. apply Qmult_le_0_compat; lra.
  - apply Qmult_le_0_compat; assumption.
Qed.

Lemma square_pos (x : Q) : ~ x == 0 -> 0 < x * x.
Proof.
  intro Hx. destruct (Qlt_le_dec x 0) as [H|H].
  - assert (E : x * x == (- x) * (- x)) by ring.
    rewrite E. apply Qmult_lt_0_compat; lra.
  - assert (0 < x).
    { apply Qle_lteq in H. destruct H as [H|H]; [exact H|].
      exfalso. apply Hx. symmetry. exact H. }
    apply Qmult_lt_0_compat; assumption.
Qed.

Lemma cube_le (a b : Q) : a <= b -> a ^ 3 <= b ^ 3.
Proof.
  intro H. simpl.
  assert (Hd : b * b * b - a * a * a == (b - a) * (a * a + a * b + b * b)) by ring.
  assert (Hq : 0 <= a * a + a * b + b * b).
  { pose proof (square_nonneg (2 * a + b)). pose proof (square_nonneg b). lra. }
  assert (Hp : 0 <= (b - a) * (a * a + a * b + b * b))
    by (apply Qmult_le_0_compat; lra).
  lra.
Qed.

Lemma cube_lt (a b : Q) : a < b -> a ^ 3 < b ^ 3.
Proof.
  intro H. simpl.
  assert (Hd : b * b * b - a * a * a == (b - a) * (a * a + a * b + b * b)) by ring.
  assert (Hq : 0 < a * a + a * b + b * b).
  { pose proof (square_nonneg (2 * a + b)) as Hsq.
    destruct (Qeq_dec b 0) as [Hb|Hb].
    - assert (Ha : ~ a == 0) by (intro E; lra).
      pose proof (square_pos a Ha). rewrite Hb. lra.
    - pose proof (square_pos b Hb). lra. }
  assert (Hp : 0 < (b - a) * (a * a + a * b + b * b))
    by (apply Qmult_lt_0_compat; lra).
  lra.
Qed.

Lemma ratio_le (a b m : Q) : 0 < m -> a <= b -> a / m <= b / m.
Proof.
  intros Hm H. apply Qle_shift_div_l; [exact Hm|].
  assert (E : a / m * m == a) by (field; intro E; lra).
  rewrite E. exact H.
Qed.

Lemma ratio_lt (a b m : Q) : 0 < m -> a < b -> a / m < b / m.
Proof.
  intros Hm H. apply Qlt_shift_div_l; [exact Hm|].
  assert (E : a / m * m == a) by (field; intro E; lra).
  rewrite E. exact H.
Qed.

(** X5. For a vessel with a positive maximum speed the engine load is
    always returned, is 100 percent at the maximum speed and 12.5 percent at
    half of it, grows strictly with the speed, and scales with the cube of
    the speed. *)
Theorem engine_load_cubic (v : Vessel) :
  0 < max_speed v ->
  (exists l, VesselM.get_engine_load v (max_speed v) = Ok l /\ l == 100) /\
  (exists l, VesselM.get_engine_load v (max_speed v / 2) = Ok l /\ l == 12.5) /\
  (forall slow fast, slow < fast ->
     exists l l',
       VesselM.get_engine_load v slow = Ok l /\
       VesselM.get_engine_load v fast = Ok l' /\ l < l') /\
  (forall speed k,
     exists l l',
       VesselM.get_engine_load v speed = Ok l /\
       VesselM.get_engine_load v (k * speed) = Ok l' /\ l' == k ^ 3 * l).
Proof.
  intro Hm.
  assert (Hm0 : ~ max_speed v == 0) by (intro E; lra).
  split; [|split; [|split]].
  - eexists. split; [apply (engine_load_ok v _ Hm0)|]. field. exact Hm0.
  - eexists. split; [apply (engine_load_ok v _ Hm0)|]. field. exact Hm0.
  - intros slow fast Hlt. eexists. eexists.
    split; [apply (engine_load_ok v _ Hm0)|].
    split; [apply (engine_load_ok v _ Hm0)|].
    pose proof (cube_lt _ _ (ratio_lt slow fast (max_speed v) Hm Hlt)) as Hc. lra.
  - intros speed k. eexists. eexists.
    split; [apply (engine_load_ok v _ Hm0)|].
    split; [apply (engine_load_ok v _ Hm0)|].
    field. exact Hm0.
Qed.

Lemma engine_load_cubic_witness :
  exists l, VesselM.get_engine_load (VesselM.init sample_vessel_data) 25 = Ok l /\
            l == 100.
Proof.
  refine (proj1 (engine_load_cubic (VesselM.init sample_vessel_data) _)).
  reflexivity.
Defined.

Lemma in_optimal_range_iff (v : Vessel) (speed : Q) :
  ~ max_speed v == 0 ->
  VesselM.is_speed_in_optimal_range v speed = Ok true
  <-> optimal_load_min v <= 100 * (speed / max_speed v) ^ 3 <= optimal_load_max v.
Proof.
  intro Hm. unfold VesselM.is_speed_in_optimal_range.
  rewrite (engine_load_ok v speed Hm). cbv beta iota delta [bind].
  split.
  - intro H. injection H as H. apply andb_true_iff in H.
    destruct H as [H1 H2]. apply Qle_bool_iff in H1. apply Qle_bool_iff in H2.
    split; assumption.
  - intros [H1 H2]. apply Qle_bool_iff in H1. apply Qle_bool_iff in H2.
    rewrite H1, H2. reflexivity.
Qed.

(** X6. For a vessel with a positive maximum speed the speeds within the
    optimal engine-load range form an interval: every speed between two
    speeds in the range is in the range.  With a zero maximum speed the
    check raises [ZeroDivisionError]. *)
Theorem optimal_range_is_an_interval (v : Vessel) :
  (0 < max_speed v ->
   forall low speed high,
     VesselM.is_speed_in_optimal_range v low = Ok true ->
     VesselM.is_speed_in_optimal_range v high = Ok true ->
     low <= speed -> speed <= high ->
     VesselM.is_speed_in_optimal_range v speed = Ok true) /\
  (max_speed v == 0 ->
   forall speed,
     VesselM.is_speed_in_optimal_range v speed = Raise ZeroDivisionError).
Proof.
  split.
  - intros Hm low speed high Hlow Hhigh Hls Hsh.
    assert (Hm0 : ~ max_speed v == 0) by (intro E; lra).
    apply (in_optimal_range_iff v _ Hm0) in Hlow.
    apply (in_optimal_range_iff v _ Hm0) in Hhigh.
    apply (in_optimal_range_iff v _ Hm0).
    pose proof (cube_le _ _ (ratio_le low speed (max_speed v) Hm Hls)) as H1.
    pose proof (cube_le _ _ (ratio_le speed high (max_speed v) Hm Hsh)) as H2.
    split; lra.
  - intros Hm speed. unfold VesselM.is_speed_in_optimal_range, VesselM.get_engine_load.
    rewrite (py_div_zero _ _ Hm). reflexivity.
Qed.

Lemma optimal_range_is_an_interval_witness :
  VesselM.is_speed_in_optimal_range (VesselM.init sample_vessel_data) 23 = Ok true.
Proof.
  refine (proj1 (optimal_range_is_an_interval (VesselM.init sample_vessel_data))
            _ 22.5 23 23.5 _ _ _ _).
  - reflexivity.
  - vm_compute. reflexivity.
  - vm_compute. reflexivity.
  - vm_compute. discriminate.
  - vm_compute. discriminate.
Defined.

(** X7. A vessel built from a dictionary has a specific fuel consumption of
    175, 185 or 195 g/kWh that never increases with the year built, an
    optimal load range of 70 to 85 percent, and neither its maximum speed
    nor any speed at or below zero lies in that range. *)
Theorem derived_parameters_of_new_vessel (vd : vessel_data) :
  let v := VesselM.init vd in
  In (specific_fuel_consumption v) [175; 185; 195] /\
  ((2015 <= year_built v)%Z -> specific_fuel_consumption v = 175) /\
  ((2000 <= year_built v < 2015)%Z -> specific_fuel_consumption v = 185) /\
  ((year_built v < 2000)%Z -> specific_fuel_consumption v = 195) /\
  (forall vd', (year_built v <= year_built (VesselM.init vd'))%Z ->
     specific_fuel_consumption (VesselM.init vd') <= specific_fuel_consumption v) /\
  optimal_load_min v = 70 /\ optimal_load_max v = 85 /\
  (0 < max_speed v ->
   VesselM.is_speed_in_optimal_range v (max_speed v) = Ok false /\
   forall speed, speed <= 0 ->
     VesselM.is_speed_in_optimal_range v speed = Ok false).
Proof.
  intro v. subst v. unfold VesselM.init. simpl.
  set (y := get (vd_year_built vd) 2010%Z).
  repeat split.
  - destruct (2015 <=? y)%Z; [left; reflexivity|].
    destruct (2000 <=? y)%Z; [right; left; reflexivity | right; right; left; reflexivity].
  - intro H. apply Z.leb_le in H. rewrite H. reflexivity.
  - intros [H1 H2]. apply Z.leb_le in H1. apply Z.ltb_lt in H2.
    rewrite Z.ltb_antisym in H2. apply negb_true_iff in H2. rewrite H2, H1. reflexivity.
  - intro H. destruct (2015 <=? y)%Z eqn:E1; [apply Z.leb_le in E1; lia|].
    destruct (2000 <=? y)%Z eqn:E2; [apply Z.leb_le in E2; lia | reflexivity].
  - intros vd' Hy. set (y' := get (vd_year_built vd') 2010%Z) in *.
    destruct (2015 <=? y)%Z eqn:E1; destruct (2015 <=? y')%Z eqn:E1';
    destruct (2000 <=? y)%Z eqn:E2; destruct (2000 <=? y')%Z eqn:E2';
    try apply Z.leb_le in E1; try apply Z.leb_le in E2;
    try apply Z.leb_gt in E1'; try apply Z.leb_gt in E2';
    try (exfalso; lia); try discriminate; try apply Qle_refl.
  - set (m := get (vd_max_speed vd) 25) in *.
    assert (Hm0 : ~ m == 0) by (intro E; lra).
    unfold VesselM.is_speed_in_optimal_range, VesselM.get_engine_load. simpl max_speed.
    fold m. rewrite (py_div_ok _ _ Hm0). cbv beta iota delta [bind]. simpl.
    assert (Hload : 100 * (m / m) ^ 3 == 100) by (field; exact Hm0).
    assert (H85 : Qle_bool (100 * (m / m) ^ 3) 85 = false).
    { apply Qle_bool_false_iff. rewrite Hload. reflexivity. }
    simpl in H85. rewrite H85. rewrite andb_false_r. reflexivity.
  - intros speed Hs. set (m := get (vd_max_speed vd) 25) in *.
    assert (Hm0 : ~ m == 0) by (intro E; lra).
    unfold VesselM.is_speed_in_optimal_range, VesselM.get_engine_load. simpl max_speed.
    fold m. rewrite (py_div_ok _ _ Hm0). cbv beta iota delta [bind]. simpl.
    assert (H70 : Qle_bool 70 (100 * (speed / m) ^ 3) = false).
    { apply Qle_bool_false_iff.
      assert (Hr : speed / m <= 0 / m) by (apply ratio_le; assumption).
      pose proof (cube_le _ _ Hr) as Hc.
      assert (Hz : (0 / m) ^ 3 == 0) by (field; exact Hm0).
      lra. }
    simpl in H70. rewrite H70. reflexivity.
Qed.

Lemma derived_parameters_of_new_vessel_witness :
  specific_fuel_consumption (VesselM.init sample_vessel_data) = 185.
Proof.
  apply (derived_parameters_of_new_vessel sample_vessel_data).
  vm_compute. split; [discriminate | reflexivity].
Defined.

(** ** Emissions *)

Lemma emissions_closed_form (fuel : Q) (factors : dict Q) :
  calculate_emissions fuel (Some factors)
  = Ok (map (fun item : string * Q => (fst item, fuel * snd item / 1000000)) factors).
Proof.
  unfold calculate_emissions.
  induction factors as [|[k x] factors IH]; simpl; [reflexivity|].
  simpl in IH. rewrite IH. reflexivity.
Qed.

Lemma dict_get_scaled (g : Q -> Q) (factors : dict Q) (key : string) :
  dict_get (map (fun item : string * Q => (fst item, g (snd item))) factors) key
  = option_map g (dict_get factors key).
Proof.
  induction factors as [|[k x] factors IH]; simpl; [reflexivity|].
  destruct (String.eqb k key); [reflexivity | exact IH].
Qed.

(** X8. With any table of emission factors [calculate_emissions] never
    fails and returns exactly the pollutants of the table, in the table's
    order; each emission is additive in the fuel burnt and scales with it,
    so no fuel gives no emission. *)
Theorem emissions_linear_in_fuel (factors : dict Q) (fuel fuel' k : Q) :
  exists e e' e_sum e_scaled e_zero,
    calculate_emissions fuel (Some factors) = Ok e /\
    calculate_emissions fuel' (Some factors) = Ok e' /\
    calculate_emissions (fuel + fuel') (Some factors) = Ok e_sum /\
    calculate_emissions (k * fuel) (Some factors) = Ok e_scaled /\
    calculate_emissions 0 (Some factors) = Ok e_zero /\
    keys e = keys factors /\
    forall pollutant factor,
      dict_get factors pollutant = Some factor ->
      exists x x' x_sum x_scaled x_zero,
        dict_get e pollutant = Some x /\
        dict_get e' pollutant = Some x' /\
        dict_get e_sum pollutant = Some x_sum /\
        dict_get e_scaled pollutant = Some x_scaled /\
        dict_get e_zero pollutant = Some x_zero /\
        x == fuel * factor / 1000000 /\
        x_sum == x + x' /\ x_scaled == k * x /\ x_zero == 0.
Proof.
  rewrite !emissions_closed_form.
  do 5 eexists. do 5 (split; [reflexivity|]).
  split.
  - unfold keys. rewrite map_map. reflexivity.
  - intros pollutant factor Hp.
    rewrite !(dict_get_scaled (fun x => _ * x / 1000000)), Hp. simpl.
    do 5 eexists. do 5 (split; [reflexivity|]).
    repeat split; field.
Qed.

Lemma emissions_linear_in_fuel_witness :
  exists e, calculate_emissions 100 (Some default_emission_factors) = Ok e /\
            exists x, dict_get e "CO2" = Some x /\ x == 311.4.
Proof.
  destruct (emissions_linear_in_fuel default_emission_factors 100 0 2)
    as (e & e' & e_sum & e_scaled & e_zero & He & _ & _ & _ & _ & _ & Hall).
  exists e. split; [exact He|].
  destruct (Hall "CO2"%string 3114000 eq_refl)
    as (x & x' & x_sum & x_scaled & x_zero & Hx & _ & _ & _ & _ & Heq & _).
  exists x. split; [exact Hx|]. rewrite Heq. reflexivity.
Defined.

(** X9. The three places that turn fuel into CO2 agree for VLSFO, LSFO and
    HFO: the simplified emissions, the detailed emissions and the CII
    calculation all give 3.114 tons of CO2 per ton of fuel.  They part for
    MGO (3.206 in the detailed table only) and on the other pollutants: the
    simplified SOx is 5.4 times the detailed VLSFO SOx, the NOx figures
    agree, and the simplified result has no PM entry at all. *)
Theorem co2_agrees_across_models (vd : vessel_data)
    (annual_distance fuel util : Q) (r : CIIResult) :
  calculate_cii_rating vd annual_distance fuel util = Ok r ->
  exists simple vlsfo lsfo hfo mgo,
    calculate_emissions fuel None = Ok simple /\
    calculate_detailed_emissions fuel "VLSFO" = Ok vlsfo /\
    calculate_detailed_emissions fuel "LSFO" = Ok lsfo /\
    calculate_detailed_emissions fuel "HFO" = Ok hfo /\
    calculate_detailed_emissions fuel "MGO" = Ok mgo /\
    (forall d, In d [simple; vlsfo; lsfo; hfo] ->
       exists co2, dict_get d "CO2" = Some co2 /\ co2 == co2_emissions r) /\
    (exists co2, dict_get mgo "CO2" = Some co2 /\
                 co2 - co2_emissions r == fuel * 0.092) /\
    (exists sox sox', dict_get simple "SOx" = Some sox /\
                      dict_get vlsfo "SOx" = Some sox' /\ sox == 5.4 * sox') /\
    (exists nox nox', dict_get simple "NOx" = Some nox /\
                      dict_get vlsfo "NOx" = Some nox' /\ nox == nox') /\
    dict_get simple "PM" = None /\
    (exists pm, dict_get vlsfo "PM" = Some pm).
Proof.
  intro Hr. apply cii_rating_inv in Hr. destruct Hr as (_ & Hco2 & _).
  do 5 eexists. do 5 (split; [reflexivity|]).
  rewrite Hco2.
  split.
  { intros d [H|[H|[H|[H|[]]]]]; subst d;
      (eexists; split; [reflexivity|]; simpl; field). }
  split; [eexists; split; [reflexivity | simpl; field]|].
  split; [do 2 eexists; split; [reflexivity|]; split; [reflexivity | simpl; field]|].
  split; [do 2 eexists; split; [reflexivity|]; split; [reflexivity | simpl; field]|].
  split; [reflexivity|].
  eexists. reflexivity.
Qed.

Lemma co2_agrees_across_models_witness :
  exists r simple co2,
    calculate_cii_rating sample_vessel_data 100000 15000 0.7 = Ok r /\
    calculate_emissions 15000 None = Ok simple /\
    dict_get simple "CO2" = Some co2 /\ co2 == co2_emissions r.
Proof.
  destruct (cii_rating_ok sample_vessel_data 100000 15000 0.7) as [r Hr];
    [discriminate|].
  destruct (co2_agrees_across_models sample_vessel_data 100000 15000 0.7 r Hr)
    as (simple & vlsfo & lsfo & hfo & mgo & Hs & _ & _ & _ & _ & Hco2 & _).
  destruct (Hco2 simple (or_introl eq_refl)) as (co2 & Hget & Heq).
  exists r, simple, co2. repeat split; assumption.
Defined.

(** ** Ratings *)

(** The threshold chain of [calculate_cii_rating] never gives a better
    letter to a larger ratio. *)
Lemma rating_chain_monotone (x y : Q) :
  x <= y ->
  (rating_rank (if Qlt_bool x 0.86 then A
                else if Qlt_bool x 0.93 then B
                else if Qlt_bool x 1.03 then C
                else if Qlt_bool x 1.10 then D else E)
   <= rating_rank (if Qlt_bool y 0.86 then A
                   else if Qlt_bool y 0.93 then B
                   else if Qlt_bool y 1.03 then C
                   else if Qlt_bool y 1.10 then D else E))%nat.
Proof.
  intro Hxy.
  destruct (Qlt_bool x 0.86) eqn:X1;
    [apply Qlt_bool_iff in X1 | apply Qlt_bool_false_iff in X1];
  (destruct (Qlt_bool x 0.93) eqn:X2;
    [apply Qlt_bool_iff in X2 | apply Qlt_bool_false_iff in X2]);
  (destruct (Qlt_bool x 1.03) eqn:X3;
    [apply Qlt_bool_iff in X3 | apply Qlt_bool_false_iff in X3]);
  (destruct (Qlt_bool x 1.10) eqn:X4;
    [apply Qlt_bool_iff in X4 | apply Qlt_bool_false_iff in X4]);
  (destruct (Qlt_bool y 0.86) eqn:Y1;
    [apply Qlt_bool_iff in Y1 | apply Qlt_bool_false_iff in Y1]);
  (destruct (Qlt_bool y 0.93) eqn:Y2;
    [apply Qlt_bool_iff in Y2 | apply Qlt_bool_false_iff in Y2]);
  (destruct (Qlt_bool y 1.03) eqn:Y3;
    [apply Qlt_bool_iff in Y3 | apply Qlt_bool_false_iff in Y3]);
  (destruct (Qlt_bool y 1.10) eqn:Y4;
    [apply Qlt_bool_iff in Y4 | apply Qlt_bool_false_iff in Y4]);
  simpl; try lia; exfalso; lra.
Qed.

Lemma cii_ratio_closed_form (vd : vessel_data)
    (annual_distance annual_fuel util : Q) (r : CIIResult) :
  calculate_cii_rating vd annual_distance annual_fuel util = Ok r ->
  cii_ratio r
  == annual_fuel
     * (3.114 * 1000000
        / (get (vd_deadweight vd) 100000 * annual_distance * util
           * get_default reference_values (get (vd_type vd) "Container Ship"%string) 10.0)).
Proof.
  intro Hr. apply cii_rating_inv in Hr.
  destruct Hr as (Htw & _ & _ & Haer & _ & Hratio & _).
  rewrite Hratio, Haer.
  pose proof (reference_aer_positive (get (vd_type vd) "Container Ship"%string)) as Href.
  set (tw := get (vd_deadweight vd) 100000 * annual_distance * util) in *.
  set (ref := get_default reference_values (get (vd_type vd) "Container Ship"%string) 10.0)
    in *.
  field. split; [intro E; lra | exact Htw].
Qed.

Lemma cii_ratio_monotone (vd : vessel_data)
    (annual_distance util fuel fuel' : Q) (r r' : CIIResult) :
  0 < get (vd_deadweight vd) 100000 * annual_distance * util ->
  fuel <= fuel' ->
  calculate_cii_rating vd annual_distance fuel util = Ok r ->
  calculate_cii_rating vd annual_distance fuel' util = Ok r' ->
  cii_ratio r <= cii_ratio r'.
Proof.
  intros Htw Hle Hr Hr'.
  rewrite (cii_ratio_closed_form _ _ _ _ _ Hr), (cii_ratio_closed_form _ _ _ _ _ Hr').
  pose proof (reference_aer_positive (get (vd_type vd) "Container Ship"%string)) as Href.
  set (tw := get (vd_deadweight vd) 100000 * annual_distance * util) in *.
  set (ref := get_default reference_values (get (vd_type vd) "Container Ship"%string) 10.0)
    in *.
  assert (Hk : 0 < 3.114 * 1000000 / (tw * ref)).
  { apply Qlt_shift_div_l; [apply Qmult_lt_0_compat; assumption | reflexivity]. }
  rewrite (Qmult_comm fuel), (Qmult_comm fuel').
  apply Qmult_le_l; assumption.
Qed.

Lemma rating_of_result (vd : vessel_data)
    (annual_distance annual_fuel util : Q) (r : CIIResult) :
  calculate_cii_rating vd annual_distance annual_fuel util = Ok r ->
  rating r = (if Qlt_bool (cii_ratio r) 0.86 then A
              else if Qlt_bool (cii_ratio r) 0.93 then B
              else if Qlt_bool (cii_ratio r) 1.03 then C
              else if Qlt_bool (cii_ratio r) 1.10 then D else E).
Proof.
  intro Hr. apply cii_rating_inv in Hr. tauto.
Qed.

(** X10. With a positive transport work, burning more fuel over the same
    distance never improves the CII: the ratio does not decrease and the
    letter does not get better; and the ratio is proportional to the fuel,
    so that no fuel gives the ratio 0 and the rating A. *)
Theorem cii_rating_monotone_in_fuel (vd : vessel_data)
    (annual_distance util fuel fuel' : Q) (r r' : CIIResult) :
  0 < get (vd_deadweight vd) 100000 * annual_distance * util ->
  fuel <= fuel' ->
  calculate_cii_rating vd annual_distance fuel util = Ok r ->
  calculate_cii_rating vd annual_distance fuel' util = Ok r' ->
  cii_ratio r <= cii_ratio r' /\
  (rating_rank (rating r) <= rating_rank (rating r'))%nat /\
  cii_ratio r * fuel' == cii_ratio r' * fuel /\
  (fuel == 0 -> cii_ratio r == 0 /\ rating r = A).
Proof.
  intros Htw Hle Hr Hr'.
  pose proof (cii_ratio_monotone _ _ _ _ _ _ _ Htw Hle Hr Hr') as Hratio.
  split; [exact Hratio|]. split.
  - rewrite (rating_of_result _ _ _ _ _ Hr), (rating_of_result _ _ _ _ _ Hr').
    apply rating_chain_monotone. exact Hratio.
  - split.
    + rewrite (cii_ratio_closed_form _ _ _ _ _ Hr), (cii_ratio_closed_form _ _ _ _ _ Hr').
      ring.
    + intro Hz.
      assert (H0 : cii_ratio r == 0).
      { rewrite (cii_ratio_closed_form _ _ _ _ _ Hr), Hz. ring. }
      split; [exact H0|].
      rewrite (rating_of_result _ _ _ _ _ Hr).
      assert (Hlt : Qlt_bool (cii_ratio r) 0.86 = true).
      { apply Qlt_bool_iff. rewrite H0. reflexivity. }
      rewrite Hlt. reflexivity.
Qed.

Lemma cii_rating_monotone_in_fuel_witness :
  exists r r',
    calculate_cii_rating sample_vessel_data 100000 10000 0.7 = Ok r /\
    calculate_cii_rating sample_vessel_data 100000 15000 0.7 = Ok r' /\
    (rating_rank (rating r) <= rating_rank (rating r'))%nat.
Proof.
  destruct (cii_rating_ok sample_vessel_data 100000 10000 0.7) as [r Hr];
    [discriminate|].
  destruct (cii_rating_ok sample_vessel_data 100000 15000 0.7) as [r' Hr'];
    [discriminate|].
  exists r, r'. split; [exact Hr|]. split; [exact Hr'|].
  apply (cii_rating_monotone_in_fuel sample_vessel_data 100000 0.7 10000 15000 r r');
    [reflexivity | discriminate | exact Hr | exact Hr'].
Defined.

Lemma compliance_forecast_scenarios (vd : vessel_data)
    (current_speed proposed_speed annual_distance : Q) (f : ComplianceForecast) :
  calculate_compliance_forecast vd current_speed proposed_speed annual_distance = Ok f ->
  exists current_cii proposed_cii,
    calculate_cii_rating vd annual_distance
      (annual_fuel_at vd current_speed annual_distance) default_utilization
    = Ok current_cii /\
    calculate_cii_rating vd annual_distance
      (annual_fuel_at vd proposed_speed annual_distance) default_utilization
    = Ok proposed_cii /\
    sc_cii_ratio (current_scenario f) = cii_ratio current_cii /\
    sc_cii_rating (current_scenario f) = rating current_cii /\
    sc_cii_ratio (proposed_scenario f) = cii_ratio proposed_cii /\
    sc_cii_rating (proposed_scenario f) = rating proposed_cii /\
    sc_speed (current_scenario f) = current_speed /\
    sc_speed (proposed_scenario f) = proposed_speed.
Proof.
  intro H. unfold calculate_compliance_forecast in H.
  apply bind_ok in H. destruct H as (cdc & Hcdc & H).
  apply bind_ok in H. destruct H as (pdc & Hpdc & H).
  apply bind_ok in H. destruct H as (cat & Hcat & H).
  apply bind_ok in H. destruct H as (pat & Hpat & H).
  apply bind_ok in H. destruct H as (ccii & Hccii & H).
  apply bind_ok in H. destruct H as (pcii & Hpcii & H).
  apply bind_ok in H. destruct H as (pct & Hpct & H).
  apply fuel_consumption_py_inv in Hcdc. destruct Hcdc as [_ ->].
  apply fuel_consumption_py_inv in Hpdc. destruct Hpdc as [_ ->].
  apply py_div_inv in Hcat. destruct Hcat as [_ ->].
  apply py_div_inv in Hpat. destruct Hpat as [_ ->].
  injection H as <-. exists ccii, pcii. simpl.
  repeat split; assumption.
Qed.

Lemma forecast_percentage_closed_form (vd : vessel_data)
    (current_speed proposed_speed annual_distance : Q) (f : ComplianceForecast) :
  calculate_compliance_forecast vd current_speed proposed_speed annual_distance = Ok f ->
  sv_percentage_reduction (savings f)
  == (1 - (proposed_speed / current_speed) ^ 2) * 100.
Proof.
  intro Hf. apply compliance_forecast_inv in Hf.
  destruct Hf as ((Hds & Hcs & Hps & Htw & Hcaf) & _ & _ & _ & _ & Hpct).
  assert (Hcs0 : ~ current_speed == 0) by (intro E; apply Hcs; rewrite E; ring).
  assert (Hps0 : ~ proposed_speed == 0) by (intro E; apply Hps; rewrite E; ring).
  assert (Hdc : ~ get (vd_design_consumption vd) 180 == 0).
  { intro E. apply Hcaf. unfold annual_fuel_at. rewrite E. ring. }
  assert (Had : ~ annual_distance == 0).
  { intro E. apply Htw. rewrite E. ring. }
  rewrite Hpct. unfold annual_fuel_at. field. repeat split; assumption.
Qed.

(** X11. Whenever a forecast is returned, the percentage reduction depends
    on the two speeds alone: it is [(1 - (proposed/current)^2) * 100],
    whatever the vessel and the annual distance; the proposed CII ratio is
    the current one times [(proposed/current)^2]; and the emission savings
    are 3.114 times the fuel savings. *)
Theorem forecast_reduction_depends_on_speed_ratio (vd : vessel_data)
    (current_speed proposed_speed annual_distance : Q) (f : ComplianceForecast) :
  calculate_compliance_forecast vd current_speed proposed_speed annual_distance = Ok f ->
  sv_percentage_reduction (savings f)
  == (1 - (proposed_speed / current_speed) ^ 2) * 100 /\
  sc_cii_ratio (proposed_scenario f)
  == sc_cii_ratio (current_scenario f) * (proposed_speed / current_speed) ^ 2 /\
  sv_emission_savings (savings f) == 3.114 * sv_fuel_savings (savings f).
Proof.
  intro Hf.
  destruct (compliance_forecast_scenarios _ _ _ _ _ Hf)
    as (ccii & pcii & Hc & Hp & Hrc & _ & Hrp & _).
  apply compliance_forecast_inv in Hf.
  destruct Hf as ((Hds & Hcs & Hps & Htw & Hcaf) & _ & _ & Hfs & Hes & Hpct).
  assert (Hcs0 : ~ current_speed == 0) by (intro E; apply Hcs; rewrite E; ring).
  assert (Hps0 : ~ proposed_speed == 0) by (intro E; apply Hps; rewrite E; ring).
  assert (Hdc : ~ get (vd_design_consumption vd) 180 == 0).
  { intro E. apply Hcaf. unfold annual_fuel_at. rewrite E. ring. }
  assert (Had : ~ annual_distance == 0).
  { intro E. apply Htw. rewrite E. ring. }
  split; [|split].
  - rewrite Hpct. unfold annual_fuel_at. field. repeat split; assumption.
  - rewrite Hrc, Hrp.
    rewrite (cii_ratio_closed_form _ _ _ _ _ Hc), (cii_ratio_closed_form _ _ _ _ _ Hp).
    pose proof (reference_aer_positive (get (vd_type vd) "Container Ship"%string)) as Href.
    set (tw := get (vd_deadweight vd) 100000 * annual_distance * default_utilization) in *.
    set (ref := get_default reference_values
                  (get (vd_type vd) "Container Ship"%string) 10.0) in *.
    rewrite !(annual_fuel_closed_form vd _ annual_distance Hds) by assumption.
    field. repeat split; try assumption; intro E; lra.
  - rewrite Hes, Hfs. ring.
Qed.

Lemma forecast_reduction_depends_on_speed_ratio_witness :
  exists f,
    calculate_compliance_forecast sample_vessel_data 18 15 100000 = Ok f /\
    sv_percentage_reduction (savings f) == (1 - (15 / 18) ^ 2) * 100.
Proof.
  destruct (compliance_forecast_ok sample_vessel_data 18 15 100000) as [f Hf];
    try discriminate.
  exists f. split; [exact Hf|].
  apply (forecast_reduction_depends_on_speed_ratio sample_vessel_data 18 15 100000 f Hf).
Defined.

(** X12. Slowing down never worsens the forecast rating: for a vessel with
    positive design speed, design consumption and deadweight, a positive
    annual distance and [0 < proposed_speed <= current_speed], the proposed
    scenario burns no more fuel, has no higher CII ratio and no worse
    letter than the current one. *)
Theorem slowing_down_never_worsens_rating (vd : vessel_data)
    (current_speed proposed_speed annual_distance : Q) :
  0 < get (vd_design_speed vd) 20 ->
  0 < get (vd_design_consumption vd) 180 ->
  0 < get (vd_deadweight vd) 100000 ->
  0 < annual_distance ->
  0 < proposed_speed -> proposed_speed <= current_speed ->
  exists f,
    calculate_compliance_forecast vd current_speed proposed_speed annual_distance = Ok f /\
    sc_annual_fuel (proposed_scenario f) <= sc_annual_fuel (current_scenario f) /\
    sc_cii_ratio (proposed_scenario f) <= sc_cii_ratio (current_scenario f) /\
    (rating_rank (sc_cii_rating (proposed_scenario f))
     <= rating_rank (sc_cii_rating (current_scenario f)))%nat /\
    0 <= sv_percentage_reduction (savings f) < 100.
Proof.
  intros Hds Hdc Hdw Had Hps Hle.
  assert (Hds0 : ~ get (vd_design_speed vd) 20 == 0) by (intro E; lra).
  assert (Hdc0 : ~ get (vd_design_consumption vd) 180 == 0) by (intro E; lra).
  assert (Hcs0 : ~ current_speed == 0) by (intro E; lra).
  assert (Hps0 : ~ proposed_speed == 0) by (intro E; lra).
  assert (Htw : 0 < get (vd_deadweight vd) 100000 * annual_distance * default_utilization).
  { apply Qmult_lt_0_compat; [apply Qmult_lt_0_compat; assumption | reflexivity]. }
  assert (Htw0 : ~ get (vd_deadweight vd) 100000 * annual_distance
                   * default_utilization == 0) by (intro E; lra).
  destruct (compliance_forecast_ok vd current_speed proposed_speed annual_distance
              Hds0 Hcs0 Hps0 Htw0 Hdc0) as [f Hf].
  exists f. split; [exact Hf|].
  destruct (compliance_forecast_scenarios _ _ _ _ _ Hf)
    as (ccii & pcii & Hc & Hp & Hrc & Hlc & Hrp & Hlp & _).
  pose proof (compliance_forecast_inv _ _ _ _ _ Hf)
    as (_ & Hcaf & Hpaf & _ & _ & Hpct).
  assert (HK : 0 < get (vd_design_consumption vd) 180 * annual_distance
                   / (24 * (get (vd_design_speed vd) 20) ^ 3)).
  { apply Qlt_shift_div_l.
    - simpl. repeat apply Qmult_lt_0_compat; try assumption; reflexivity.
    - rewrite Qmult_0_l. apply Qmult_lt_0_compat; assumption. }
  assert (Hsq : proposed_speed * proposed_speed <= current_speed * current_speed) by nra.
  assert (Hfuel : annual_fuel_at vd proposed_speed annual_distance
                  <= annual_fuel_at vd current_speed annual_distance).
  { rewrite !(annual_fuel_closed_form vd _ annual_distance Hds0) by assumption.
    apply Qmult_le_l; assumption. }
  assert (Hratio : cii_ratio pcii <= cii_ratio ccii)
    by (apply (cii_ratio_monotone _ _ _ _ _ _ _ Htw Hfuel Hp Hc)).
  split; [rewrite Hcaf, Hpaf; exact Hfuel|].
  split; [rewrite Hrc, Hrp; exact Hratio|].
  split.
  { rewrite Hlc, Hlp.
    rewrite (rating_of_result _ _ _ _ _ Hc), (rating_of_result _ _ _ _ _ Hp).
    apply rating_chain_monotone. exact Hratio. }
  rewrite (forecast_percentage_closed_form _ _ _ _ _ Hf).
  assert (Hr0 : 0 < proposed_speed / current_speed)
    by (apply Qlt_shift_div_l; lra).
  assert (Hr1 : proposed_speed / current_speed <= 1)
    by (apply Qle_shift_div_r; lra).
  simpl. split; nra.
Qed.

Lemma slowing_down_never_worsens_rating_witness :
  exists f,
    calculate_compliance_forecast sample_vessel_data 18 15 100000 = Ok f /\
    (rating_rank (sc_cii_rating (proposed_scenario f))
     <= rating_rank (sc_cii_rating (current_scenario f)))%nat.
Proof.
  destruct (slowing_down_never_worsens_rating sample_vessel_data 18 15 100000)
    as (f & Hf & _ & _ & Hrank & _); try reflexivity.
  - discriminate.
  - exists f. split; assumption.
Defined.

(** ** The optimizer, its baseline and the profile *)

Lemma np_transit_time (route_distance speed : Q) :
  ~ speed == 0 ->
  div (Fin route_distance) (mul (Fin speed) (Fin 24))
  = Ok (Fin (route_distance / (speed * 24))).
Proof.
  intro Hs. simpl.
  assert (H24 : Qeq_bool (speed * 24) 0 = false).
  { apply Qeq_bool_false_iff. intro E. apply Hs. lra. }
  rewrite H24. reflexivity.
Qed.

(** The profile row at a non-zero speed, for a non-zero design speed: all
    its columns are finite. *)
Lemma profile_row_finite (vd : vessel_data)
    (route_distance fuel_price vessel_day_cost speed : Q) :
  ~ get (vd_design_speed vd) 20 == 0 ->
  ~ speed == 0 ->
  let transit := route_distance / (speed * 24) in
  let daily := get (vd_design_consumption vd) 180
               * (speed / get (vd_design_speed vd) 20) ^ 3 in
  exists row,
    profile_row vd route_distance fuel_price vessel_day_cost speed = Ok row /\
    row_speed row = speed /\
    row_transit_time row = Fin transit /\
    row_daily_fuel row = Fin daily /\
    row_total_fuel row = Fin (daily * transit) /\
    row_fuel_cost row = Fin (daily * transit * fuel_price) /\
    row_time_cost row = Fin (transit * vessel_day_cost) /\
    row_total_cost row
    = Fin (voyage_cost vd route_distance fuel_price vessel_day_cost speed) /\
    row_co2_emissions row = Fin (daily * transit * 3114000 / 1000000).
Proof.
  intros Hds Hs transit daily. unfold profile_row.
  rewrite (np_transit_time _ _ Hs), (fuel_consumption_np _ _ Hds).
  eexists. split; [reflexivity|]. repeat split; reflexivity.
Qed.

Lemma optimum_matches_row {M : BoundedMinimizer} (vd : vessel_data)
    (route_distance fuel_price vessel_day_cost min_speed max_speed x : Q) :
  minimize (objective_function vd route_distance fuel_price vessel_day_cost)
    (get (vd_design_speed vd) 20 * 0.8) min_speed max_speed = Ok x ->
  ~ get (vd_design_speed vd) 20 == 0 ->
  exists r row,
    optimize_speed vd route_distance fuel_price vessel_day_cost min_speed max_speed
    = Ok r /\
    profile_row vd route_distance fuel_price vessel_day_cost x = Ok row /\
    optimal_speed r = row_speed row /\
    transit_time r = row_transit_time row /\
    daily_fuel_consumption r = row_daily_fuel row /\
    total_fuel_consumption r = row_total_fuel row /\
    fuel_cost r = row_fuel_cost row /\
    time_cost r = row_time_cost row /\
    total_cost r = row_total_cost row /\
    emissions r = [("CO2"%string, row_co2_emissions row);
                   ("SOx"%string, row_sox_emissions row);
                   ("NOx"%string, row_nox_emissions row)] /\
    total_cost r
    = calculate_cost (total_fuel_consumption r) (Fin fuel_price)
        (transit_time r) (Fin vessel_day_cost).
Proof.
  intros Hmin Hds. unfold optimize_speed. rewrite Hmin.
  assert (H24 : ~ get (vd_design_speed vd) 20 * 24 == 0) by (intro E; apply Hds; lra).
  rewrite (py_div_ok route_distance _ H24).
  rewrite (fuel_consumption_py _ _ Hds).
  eexists. eexists. split; [reflexivity|]. split; [reflexivity|].
  repeat split; reflexivity.
Qed.

(** X13. The result of [optimize_speed] is the profile row at the optimal
    speed: the transit time, the daily and total fuel, the fuel, time and
    total cost and the CO2, SOx and NOx emissions it reports are those that
    [generate_speed_profile] computes for a row sampled at that speed, and
    its total cost is [calculate_cost] of its own total fuel and transit
    time. *)
Theorem optimum_is_the_profile_row_at_its_speed {M : BoundedMinimizer}
    (vd : vessel_data)
    (route_distance fuel_price vessel_day_cost min_speed max_speed : Q)
    (r : OptimizationResult) :
  optimize_speed vd route_distance fuel_price vessel_day_cost min_speed max_speed
  = Ok r ->
  exists row,
    profile_row vd route_distance fuel_price vessel_day_cost (optimal_speed r) = Ok row /\
    row_speed row = optimal_speed r /\
    row_transit_time row = transit_time r /\
    row_daily_fuel row = daily_fuel_consumption r /\
    row_total_fuel row = total_fuel_consumption r /\
    row_fuel_cost row = fuel_cost r /\
    row_time_cost row = time_cost r /\
    row_total_cost row = total_cost r /\
    emissions r = [("CO2"%string, row_co2_emissions row);
                   ("SOx"%string, row_sox_emissions row);
                   ("NOx"%string, row_nox_emissions row)] /\
    total_cost r
    = calculate_cost (total_fuel_consumption r) (Fin fuel_price)
        (transit_time r) (Fin vessel_day_cost).
Proof.
  intro Hr.
  destruct (optimize_speed_inv vd _ _ _ _ _ r Hr) as (Hds & Hmin & _).
  destruct (optimum_matches_row vd _ _ _ _ _ _ Hmin Hds)
    as (r' & row & Hr' & Hrow & H1 & H2 & H3 & H4 & H5 & H6 & H7 & H8 & H9).
  rewrite Hr in Hr'. injection Hr' as <-.
  exists row. repeat split; try (symmetry; assumption); assumption.
Qed.

Lemma optimum_is_the_profile_row_at_its_speed_witness :
  exists r row,
    @optimize_speed (grid_minimizer 16) sample_vessel_data 8200 600 25000 12 24 = Ok r /\
    profile_row sample_vessel_data 8200 600 25000 (optimal_speed r) = Ok row /\
    row_total_cost row = total_cost r.
Proof.
  destruct (@optimize_speed_returns (grid_minimizer 16) sample_vessel_data
              8200 600 25000 12 24) as (r & Hr & _);
    [vm_compute; discriminate | discriminate |].
  destruct (@optimum_is_the_profile_row_at_its_speed (grid_minimizer 16)
              sample_vessel_data 8200 600 25000 12 24 r Hr)
    as (row & Hrow & _ & _ & _ & _ & _ & _ & Hcost & _).
  exists r, row. repeat split; assumption.
Defined.

Lemma baseline_matches_row {M : BoundedMinimizer} (vd : vessel_data)
    (route_distance fuel_price vessel_day_cost min_speed max_speed x : Q) :
  minimize (objective_function vd route_distance fuel_price vessel_day_cost)
    (get (vd_design_speed vd) 20 * 0.8) min_speed max_speed = Ok x ->
  ~ get (vd_design_speed vd) 20 == 0 ->
  exists r row,
    optimize_speed vd route_distance fuel_price vessel_day_cost min_speed max_speed
    = Ok r /\
    profile_row vd route_distance fuel_price vessel_day_cost
      (get (vd_design_speed vd) 20) = Ok row /\
    cmp_design_speed (comparison r) = row_speed row /\
    Fin (cmp_design_transit_time (comparison r)) = row_transit_time row /\
    Fin (cmp_design_fuel_consumption (comparison r)) = row_total_fuel row /\
    Fin (cmp_design_cost (comparison r)) = row_total_cost row /\
    map (fun item : string * Q => (fst item, Fin (snd item)))
        (cmp_design_emissions (comparison r))
    = [("CO2"%string, row_co2_emissions row);
       ("SOx"%string, row_sox_emissions row);
       ("NOx"%string, row_nox_emissions row)] /\
    fuel_savings r = xsub (row_total_fuel row) (total_fuel_consumption r) /\
    cost_savings r = xsub (row_total_cost row) (total_cost r) /\
    co2_reduction r
    = xsub (row_co2_emissions row)
        (match dict_get (emissions r) "CO2" with Some co2 => co2 | None => NaN end).
Proof.
  intros Hmin Hds. unfold optimize_speed, profile_row. rewrite Hmin.
  assert (H24 : ~ get (vd_design_speed vd) 20 * 24 == 0) by (intro E; apply Hds; lra).
  rewrite (py_div_ok route_distance _ H24).
  rewrite (fuel_consumption_py _ _ Hds).
  rewrite (np_transit_time _ _ Hds), (fuel_consumption_np _ _ Hds).
  eexists. eexists. split; [reflexivity|]. split; [reflexivity|].
  repeat split; reflexivity.
Qed.

(** X14. The design-speed baseline that [optimize_speed] reports is the
    profile row at the design speed: its transit time, total fuel, total
    cost and emissions are those of that row, although the baseline is
    computed by separate code; and the reported fuel savings, cost savings
    and CO2 reduction are that row's figures minus the optimum's. *)
Theorem baseline_is_the_profile_row_at_design_speed {M : BoundedMinimizer}
    (vd : vessel_data)
    (route_distance fuel_price vessel_day_cost min_speed max_speed : Q)
    (r : OptimizationResult) :
  optimize_speed vd route_distance fuel_price vessel_day_cost min_speed max_speed
  = Ok r ->
  exists row,
    profile_row vd route_distance fuel_price vessel_day_cost
      (get (vd_design_speed vd) 20) = Ok row /\
    row_speed row = cmp_design_speed (comparison r) /\
    row_transit_time row = Fin (cmp_design_transit_time (comparison r)) /\
    row_total_fuel row = Fin (cmp_design_fuel_consumption (comparison r)) /\
    row_total_cost row = Fin (cmp_design_cost (comparison r)) /\
    [("CO2"%string, row_co2_emissions row);
     ("SOx"%string, row_sox_emissions row);
     ("NOx"%string, row_nox_emissions row)]
    = map (fun item : string * Q => (fst item, Fin (snd item)))
          (cmp_design_emissions (comparison r)) /\
    fuel_savings r = xsub (row_total_fuel row) (total_fuel_consumption r) /\
    cost_savings r = xsub (row_total_cost row) (total_cost r) /\
    co2_reduction r
    = xsub (row_co2_emissions row)
        (match dict_get (emissions r) "CO2" with Some co2 => co2 | None => NaN end).
Proof.
  intro Hr.
  destruct (optimize_speed_inv vd _ _ _ _ _ r Hr) as (Hds & Hmin & _).
  destruct (baseline_matches_row vd _ _ _ _ _ _ Hmin Hds)
    as (r' & row & Hr' & Hrow & H1 & H2 & H3 & H4 & H5 & H6 & H7 & H8).
  rewrite Hr in Hr'. injection Hr' as <-.
  exists row. repeat split; try (symmetry; assumption); assumption.
Qed.

Lemma baseline_is_the_profile_row_at_design_speed_witness :
  exists r row,
    @optimize_speed (grid_minimizer 16) sample_vessel_data 8200 600 25000 12 24 = Ok r /\
    profile_row sample_vessel_data 8200 600 25000 20 = Ok row /\
    row_total_cost row = Fin (cmp_design_cost (comparison r)).
Proof.
  destruct (@optimize_speed_returns (grid_minimizer 16) sample_vessel_data
              8200 600 25000 12 24) as (r & Hr & _);
    [vm_compute; discriminate | discriminate |].
  destruct (@baseline_is_the_profile_row_at_design_speed (grid_minimizer 16)
              sample_vessel_data 8200 600 25000 12 24 r Hr)
    as (row & Hrow & _ & _ & _ & Hcost & _).
  exists r, row. repeat split; assumption.
Defined.

(** ** The shape of the voyage cost *)

(** X15. The voyage cost that the optimizer minimizes has a single valley
    in the speed.  For a vessel with a positive design speed and
    non-negative consumption, fuel price and distance, and for speeds
    [0 < slow <= fast]: while [2 * design_consumption * fuel_price * fast^3]
    does not exceed [day_cost * design_speed^3] the faster speed is no
    dearer, and once [2 * design_consumption * fuel_price * slow^3] reaches
    that value the slower speed is no dearer. *)
Theorem voyage_cost_has_one_valley (vd : vessel_data)
    (route_distance fuel_price vessel_day_cost slow fast : Q) :
  0 < get (vd_design_speed vd) 20 ->
  0 <= get (vd_design_consumption vd) 180 ->
  0 <= fuel_price -> 0 <= route_distance ->
  0 < slow -> slow <= fast ->
  exists c c',
    objective_function vd route_distance fuel_price vessel_day_cost slow = Ok (Fin c) /\
    objective_function vd route_distance fuel_price vessel_day_cost fast = Ok (Fin c') /\
    (2 * get (vd_design_consumption vd) 180 * fuel_price * fast ^ 3
     <= vessel_day_cost * (get (vd_design_speed vd) 20) ^ 3 -> c' <= c) /\
    (vessel_day_cost * (get (vd_design_speed vd) 20) ^ 3
     <= 2 * get (vd_design_consumption vd) 180 * fuel_price * slow ^ 3 -> c <= c').
Proof.
  intros Hds Hdc Hfp Hd Hslow Hle.
  assert (Hds0 : ~ get (vd_design_speed vd) 20 == 0) by (intro E; lra).
  assert (Hs0 : ~ slow == 0) by (intro E; lra).
  assert (Hf0 : ~ fast == 0) by (intro E; lra).
  exists (voyage_cost vd route_distance fuel_price vessel_day_cost slow),
         (voyage_cost vd route_distance fuel_price vessel_day_cost fast).
  split; [apply objective_finite; assumption|].
  split; [apply objective_finite; assumption|].
  rewrite !(voyage_cost_shape vd _ _ _ _ Hds0) by assumption.
  set (ds := get (vd_design_speed vd) 20) in *.
  set (dc := get (vd_design_consumption vd) 180) in *.
  assert (Hds3 : 0 < ds ^ 3).
  { simpl. repeat apply Qmult_lt_0_compat; assumption. }
  assert (HK : 0 <= route_distance / (24 * ds ^ 3)).
  { apply Qle_shift_div_l; [lra|]. lra. }
  set (K := route_distance / (24 * ds ^ 3)) in *.
  assert (Ha : 0 <= K * (dc * fuel_price)).
  { apply Qmult_le_0_compat; [exact HK|]. apply Qmult_le_0_compat; assumption. }
  split.
  - intro Hcond.
    assert (Hb : 2 * (K * (dc * fuel_price)) * (fast * fast * fast)
                 <= K * (vessel_day_cost * ds ^ 3)).
    { assert (E : 2 * (K * (dc * fuel_price)) * (fast * fast * fast)
                  == (2 * dc * fuel_price * fast ^ 3) * K) by (simpl; ring).
      rewrite E, (Qmult_comm K). apply Qmult_le_compat_r; assumption. }
    apply (cost_shape_decreasing _ _ slow fast Hslow Hle Ha Hb).
  - intro Hcond.
    assert (Hb : K * (vessel_day_cost * ds ^ 3)
                 <= 2 * (K * (dc * fuel_price)) * (slow * slow * slow)).
    { assert (E : 2 * (K * (dc * fuel_price)) * (slow * slow * slow)
                  == (2 * dc * fuel_price * slow ^ 3) * K) by (simpl; ring).
      rewrite E, (Qmult_comm K). apply Qmult_le_compat_r; assumption. }
    apply (cost_shape_increasing _ _ slow fast Hslow Hle Ha Hb).
Qed.

Lemma voyage_cost_has_one_valley_witness :
  exists c c',
    objective_function sample_vessel_data 8200 600 25000 12 = Ok (Fin c) /\
    objective_function sample_vessel_data 8200 600 25000 20 = Ok (Fin c') /\
    c <= c'.
Proof.
  destruct (voyage_cost_has_one_valley sample_vessel_data 8200 600 25000 12 20)
    as (c & c' & Hc & Hc' & _ & Hrise); try reflexivity; try discriminate.
  exists c, c'. split; [exact Hc|]. split; [exact Hc'|].
  apply Hrise. vm_compute. discriminate.
Defined.

(** ** Savings against the design speed *)

Lemma optimum_savings_finite {M : BoundedMinimizer} (vd : vessel_data)
    (route_distance fuel_price vessel_day_cost min_speed max_speed : Q)
    (r : OptimizationResult) :
  optimize_speed vd route_distance fuel_price vessel_day_cost min_speed max_speed
  = Ok r ->
  ~ optimal_speed r == 0 ->
  let ds := get (vd_design_speed vd) 20 in
  let x := optimal_speed r in
  fuel_savings r
  = Fin (annual_fuel_at vd ds route_distance + - annual_fuel_at vd x route_distance) /\
  cost_savings r
  = Fin (voyage_cost vd route_distance fuel_price vessel_day_cost ds
         + - voyage_cost vd route_distance fuel_price vessel_day_cost x) /\
  co2_reduction r
  = Fin (annual_fuel_at vd ds route_distance * 3114000 / 1000000
         + - (annual_fuel_at vd x route_distance * 3114000 / 1000000)).
Proof.
  intros Hr Hx ds x.
  destruct (optimize_speed_inv vd _ _ _ _ _ r Hr) as (Hds & Hmin & _).
  destruct (optimum_matches_row vd _ _ _ _ _ _ Hmin Hds)
    as (r1 & row & Hr1 & Hrow & _ & _ & _ & Hfuel & _ & _ & Hcost & Hemis & _).
  rewrite Hr in Hr1. injection Hr1 as <-.
  destruct (baseline_matches_row vd _ _ _ _ _ _ Hmin Hds)
    as (r2 & base & Hr2 & Hbase & _ & _ & _ & _ & _ & Hfs & Hcs & Hco2).
  rewrite Hr in Hr2. injection Hr2 as <-.
  destruct (profile_row_finite vd route_distance fuel_price vessel_day_cost
              (optimal_speed r) Hds Hx)
    as (row' & Hrow' & _ & _ & _ & Hrf & _ & _ & Hrc & Hre).
  rewrite Hrow in Hrow'. injection Hrow' as <-.
  destruct (profile_row_finite vd route_distance fuel_price vessel_day_cost
              (get (vd_design_speed vd) 20) Hds Hds)
    as (base' & Hbase' & _ & _ & _ & Hbf & _ & _ & Hbc & Hbe).
  rewrite Hbase in Hbase'. injection Hbase' as <-.
  rewrite Hfs, Hcs, Hco2, Hemis, Hfuel, Hcost, Hrf, Hrc, Hbf, Hbc, Hbe. simpl dict_get.
  rewrite Hre. repeat split; reflexivity.
Qed.

(** X16. Slow steaming saves fuel exactly when the optimum is below the
    design speed: for a vessel with positive design speed and consumption,
    a positive distance and a positive minimum speed, the fuel savings that
    [optimize_speed] reports are finite, positive if and only if the optimal
    speed is below the design speed and negative if and only if it is
    above, and the CO2 reduction is 3.114 times the fuel savings. *)
Theorem fuel_saved_iff_slower_than_design {M : BoundedMinimizer} (vd : vessel_data)
    (route_distance fuel_price vessel_day_cost min_speed max_speed : Q)
    (r : OptimizationResult) :
  0 < get (vd_design_speed vd) 20 ->
  0 < get (vd_design_consumption vd) 180 ->
  0 < route_distance -> 0 < min_speed ->
  optimize_speed vd route_distance fuel_price vessel_day_cost min_speed max_speed
  = Ok r ->
  exists saved co2_saved,
    fuel_savings r = Fin saved /\
    co2_reduction r = Fin co2_saved /\
    (0 < saved <-> optimal_speed r < get (vd_design_speed vd) 20) /\
    (saved < 0 <-> get (vd_design_speed vd) 20 < optimal_speed r) /\
    co2_saved == 3.114 * saved.
Proof.
  intros Hds Hdc Hd Hlo Hr.
  destruct (optimize_speed_inv vd _ _ _ _ _ r Hr) as (Hds0 & Hmin & _).
  apply minimize_feasible in Hmin. destruct Hmin as [Hx _].
  assert (Hx0 : ~ optimal_speed r == 0) by (intro E; lra).
  destruct (optimum_savings_finite vd _ _ _ _ _ r Hr Hx0) as (Hfs & _ & Hco2).
  eexists. eexists. split; [exact Hfs|]. split; [exact Hco2|].
  rewrite !(annual_fuel_closed_form vd _ route_distance Hds0) by assumption.
  set (ds := get (vd_design_speed vd) 20) in *.
  set (x := optimal_speed r) in *.
  assert (HK : 0 < get (vd_design_consumption vd) 180 * route_distance / (24 * ds ^ 3)).
  { apply Qlt_shift_div_l.
    - simpl. repeat apply Qmult_lt_0_compat; try assumption; reflexivity.
    - rewrite Qmult_0_l. apply Qmult_lt_0_compat; assumption. }
  set (K := get (vd_design_consumption vd) 180 * route_distance / (24 * ds ^ 3)) in *.
  assert (E : K * (ds * ds) + - (K * (x * x)) == K * ((ds - x) * (ds + x))) by ring.
  assert (Hsum : 0 < ds + x) by lra.
  assert (HKs : 0 < K * (ds + x)) by (apply Qmult_lt_0_compat; assumption).
  assert (E' : K * ((ds - x) * (ds + x)) == (ds - x) * (K * (ds + x))) by ring.
  split; [|split].
  - rewrite E, E'. split; intro H.
    + destruct (Qlt_le_dec x ds) as [Hlt|Hge]; [exact Hlt|].
      exfalso. assert (Hn : (ds - x) * (K * (ds + x)) <= 0 * (K * (ds + x)))
        by (apply Qmult_le_compat_r; lra).
      lra.
    + apply Qmult_lt_0_compat; lra.
  - rewrite E, E'. split; intro H.
    + destruct (Qlt_le_dec ds x) as [Hlt|Hge]; [exact Hlt|].
      exfalso. assert (Hn : 0 <= (ds - x) * (K * (ds + x)))
        by (apply Qmult_le_0_compat; lra).
      lra.
    + assert (Hn : 0 < (x - ds) * (K * (ds + x))) by (apply Qmult_lt_0_compat; lra).
      lra.
  - field.
Qed.

Lemma fuel_saved_iff_slower_than_design_witness :
  exists r saved,
    @optimize_speed (grid_minimizer 16) sample_vessel_data 8200 600 25000 12 24 = Ok r /\
    fuel_savings r = Fin saved /\
    (0 < saved <-> optimal_speed r < 20).
Proof.
  destruct (@optimize_speed_returns (grid_minimizer 16) sample_vessel_data
              8200 600 25000 12 24) as (r & Hr & _);
    [vm_compute; discriminate | discriminate |].
  destruct (@fuel_saved_iff_slower_than_design (grid_minimizer 16)
              sample_vessel_data 8200 600 25000 12 24 r)
    as (saved & co2 & Hs & _ & Hiff & _); try reflexivity; [exact Hr|].
  exists r, saved. split; [exact Hr|]. split; [exact Hs | exact Hiff].
Defined.

(** X17. The cost savings are never negative when the design speed is an
    admissible speed and the minimizer did at least as well as the design
    speed: for [0 < min_speed <= design_speed <= max_speed], if the
    objective at the returned speed does not exceed the objective at the
    design speed, the reported cost savings are finite and at least 0. *)
Theorem cost_savings_nonnegative {M : BoundedMinimizer} (vd : vessel_data)
    (route_distance fuel_price vessel_day_cost min_speed max_speed : Q)
    (r : OptimizationResult) :
  0 < min_speed ->
  min_speed <= get (vd_design_speed vd) 20 ->
  optimize_speed vd route_distance fuel_price vessel_day_cost min_speed max_speed
  = Ok r ->
  xle (value_at (objective_function vd route_distance fuel_price vessel_day_cost)
         (optimal_speed r))
      (value_at (objective_function vd route_distance fuel_price vessel_day_cost)
         (get (vd_design_speed vd) 20)) ->
  exists saved, cost_savings r = Fin saved /\ 0 <= saved.
Proof.
  intros Hlo Hds Hr Hbest.
  assert (Hds0 : ~ get (vd_design_speed vd) 20 == 0) by (intro E; lra).
  destruct (optimize_speed_inv vd _ _ _ _ _ r Hr) as (_ & Hmin & _).
  apply minimize_feasible in Hmin. destruct Hmin as [Hx _].
  assert (Hx0 : ~ optimal_speed r == 0) by (intro E; lra).
  destruct (optimum_savings_finite vd _ _ _ _ _ r Hr Hx0) as (_ & Hcs & _).
  eexists. split; [exact Hcs|].
  unfold value_at in Hbest.
  rewrite !objective_finite in Hbest by assumption.
  simpl in Hbest. lra.
Qed.

Lemma cost_savings_nonnegative_witness :
  exists r saved,
    @optimize_speed (grid_minimizer 16) sample_vessel_data 8200 600 25000 12 24 = Ok r /\
    cost_savings r = Fin saved /\ 0 <= saved.
Proof.
  assert (Hc : exists r,
             @optimize_speed (grid_minimizer 16) sample_vessel_data 8200 600 25000 12 24
             = Ok r /\
             xle (value_at (objective_function sample_vessel_data 8200 600 25000)
                    (optimal_speed r))
                 (value_at (objective_function sample_vessel_data 8200 600 25000)
                    (get (vd_design_speed sample_vessel_data) 20))).
  { eexists. split; [vm_compute; reflexivity|]. vm_compute. discriminate. }
  destruct Hc as (r & Hr & Hbest).
  destruct (@cost_savings_nonnegative (grid_minimizer 16) sample_vessel_data
              8200 600 25000 12 24 r) as (saved & Hs & Hpos);
    [reflexivity | vm_compute; discriminate | exact Hr | exact Hbest |].
  exists r, saved. split; [exact Hr|]. split; assumption.
Defined.

(** X18. The rows of a profile are ordered. For a vessel with positive
    design speed and consumption, a positive distance, a positive minimum
    speed and a positive step, a later row has a strictly higher speed, a
    strictly shorter transit time, a strictly higher daily fuel consumption
    and a strictly higher total fuel consumption than an earlier one, and
    the difference of their speeds is the difference of their indices times
    the step. *)
Theorem profile_rows_are_ordered (vd : vessel_data)
    (route_distance fuel_price vessel_day_cost lo hi step : Q)
    (rows : list SpeedProfilePoint) (i j : nat) (row row' : SpeedProfilePoint) :
  0 < get (vd_design_speed vd) 20 ->
  0 < get (vd_design_consumption vd) 180 ->
  0 < route_distance -> 0 < lo -> 0 < step ->
  generate_speed_profile vd route_distance fuel_price vessel_day_cost (lo, hi) step
  = Ok rows ->
  nth_error rows i = Some row -> nth_error rows j = Some row' -> (i < j)%nat ->
  row_speed row < row_speed row' /\
  row_speed row' - row_speed row == inject_Z (Z.of_nat (j - i)) * step /\
  exists t t' daily daily' total total',
    row_transit_time row = Fin t /\ row_transit_time row' = Fin t' /\
    row_daily_fuel row = Fin daily /\ row_daily_fuel row' = Fin daily' /\
    row_total_fuel row = Fin total /\ row_total_fuel row' = Fin total' /\
    t' < t /\ daily < daily' /\ total < total'.
Proof.
  intros Hds Hdc Hd Hlo Hstep Hrows Hi Hj Hij.
  assert (Hds0 : ~ get (vd_design_speed vd) 20 == 0) by (intro E; lra).
  assert (Hstep0 : ~ step == 0) by (intro E; lra).
  destruct (generate_speed_profile_indexed vd route_distance fuel_price vessel_day_cost
              lo hi step Hstep0) as (rows0 & Hrows0 & _ & Hnth).
  rewrite Hrows in Hrows0. injection Hrows0 as <-.
  destruct (Hnth i row Hi) as (_ & Hs & Hrow).
  destruct (Hnth j row' Hj) as (_ & Hs' & Hrow').
  assert (Hspeed : row_speed row < row_speed row').
  { rewrite Hs, Hs'.
    assert (Hz : inject_Z (Z.of_nat i) < inject_Z (Z.of_nat j))
      by (rewrite <- Zlt_Qlt; lia).
    apply (Qmult_lt_compat_r _ _ step Hstep) in Hz. lra. }
  assert (Hpos : 0 < row_speed row).
  { rewrite Hs. pose proof (sample_at_least_start lo step i). lra. }
  assert (Hnz : ~ row_speed row == 0) by (intro E; lra).
  assert (Hnz' : ~ row_speed row' == 0) by (intro E; lra).
  split; [exact Hspeed|]. split.
  { rewrite Hs, Hs'.
    replace (Z.of_nat (j - i)) with (Z.of_nat j - Z.of_nat i)%Z by lia.
    unfold Z.sub. rewrite inject_Z_plus, inject_Z_opp. ring. }
  destruct (profile_row_finite vd route_distance fuel_price vessel_day_cost
              (row_speed row) Hds0 Hnz)
    as (r1 & Hr1 & _ & Ht & Hdaily & Htotal & _).
  rewrite Hrow in Hr1. injection Hr1 as <-.
  destruct (profile_row_finite vd route_distance fuel_price vessel_day_cost
              (row_speed row') Hds0 Hnz')
    as (r2 & Hr2 & _ & Ht' & Hdaily' & Htotal' & _).
  rewrite Hrow' in Hr2. injection Hr2 as <-.
  do 6 eexists.
  split; [exact Ht|]. split; [exact Ht'|].
  split; [exact Hdaily|]. split; [exact Hdaily'|].
  split; [exact Htotal|]. split; [exact Htotal'|].
  set (s := row_speed row) in *. set (s' := row_speed row') in *.
  split; [|split].
  - apply Qlt_shift_div_r; [lra|].
    assert (E : route_distance / (s * 24) * (s' * 24) == route_distance * (s' / s))
      by (field; exact Hnz).
    rewrite E.
    assert (H1 : 1 < s' / s) by (apply Qlt_shift_div_l; lra).
    assert (H2 : route_distance * 1 < route_distance * (s' / s))
      by (apply Qmult_lt_l; assumption).
    lra.
  - apply Qmult_lt_l; [exact Hdc|].
    apply cube_lt. apply ratio_lt; assumption.
  - change (get (vd_design_consumption vd) 180
            * (s / get (vd_design_speed vd) 20) ^ 3 * (route_distance / (s * 24)))
      with (annual_fuel_at vd s route_distance).
    change (get (vd_design_consumption vd) 180
            * (s' / get (vd_design_speed vd) 20) ^ 3 * (route_distance / (s' * 24)))
      with (annual_fuel_at vd s' route_distance).
    rewrite !(annual_fuel_closed_form vd _ route_distance Hds0) by assumption.
    assert (HK : 0 < get (vd_design_consumption vd) 180 * route_distance
                     / (24 * (get (vd_design_speed vd) 20) ^ 3)).
    { apply Qlt_shift_div_l.
      - simpl. repeat apply Qmult_lt_0_compat; try assumption; reflexivity.
      - rewrite Qmult_0_l. apply Qmult_lt_0_compat; assumption. }
    apply Qmult_lt_l; [exact HK|].
    apply Qmult_lt_compat_nonneg; split; lra.
Qed.

Lemma profile_rows_are_ordered_witness :
  exists rows row row',
    generate_speed_profile sample_vessel_data 8200 600 25000 (8, 10) 0.5 = Ok rows /\
    nth_error rows 0 = Some row /\ nth_error rows 4 = Some row' /\
    row_speed row < row_speed row'.
Proof.
  assert (Hc : exists rows row row',
             generate_speed_profile sample_vessel_data 8200 600 25000 (8, 10) 0.5
             = Ok rows /\
             nth_error rows 0 = Some row /\ nth_error rows 4 = Some row').
  { do 3 eexists. split; [vm_compute; reflexivity|]. split; reflexivity. }
  destruct Hc as (rows & row & row' & Hrows & Hrow & Hrow').
  exists rows, row, row'. split; [exact Hrows|]. split; [exact Hrow|].
  split; [exact Hrow'|].
  apply (profile_rows_are_ordered sample_vessel_data 8200 600 25000 8 10 0.5
           rows 0 4 row row'); try reflexivity; try assumption. lia.
Defined.

(** ** Weather *)

Lemma sum_bounds (column : list Q) (lo hi : Q) :
  (forall x, In x column -> lo <= x <= hi) ->
  inject_Z (Z.of_nat (List.length column)) * lo <= fold_right Qplus 0 column /\
  fold_right Qplus 0 column <= inject_Z (Z.of_nat (List.length column)) * hi.
Proof.
  induction column as [|x column IH]; intro Hall.
  - cbn [List.length fold_right Z.of_nat]. change (inject_Z 0) with 0. split; lra.
  - destruct IH as [IHlo IHhi].
    { intros y Hy. apply Hall. right. exact Hy. }
    destruct (Hall x (or_introl eq_refl)) as [Hxlo Hxhi].
    change (List.length (x :: column)) with (S (List.length column)).
    rewrite Nat2Z.inj_succ. unfold Z.succ. rewrite inject_Z_plus.
    change (inject_Z 1) with 1. simpl fold_right. split; lra.
Qed.

Lemma mean_bounds (column : list Q) (lo hi : Q) :
  column <> [] ->
  (forall x, In x column -> lo <= x <= hi) ->
  lo <= Weather.mean column <= hi.
Proof.
  intros Hne Hall. destruct (sum_bounds column lo hi Hall) as [Hlo Hhi].
  unfold Weather.mean.
  assert (Hn : 0 < inject_Z (Z.of_nat (List.length column))).
  { change 0 with (inject_Z 0). rewrite <- Zlt_Qlt.
    destruct column; [contradiction | simpl; lia]. }
  split.
  - apply Qle_shift_div_l; [exact Hn|]. lra.
  - apply Qle_shift_div_r; [exact Hn|]. lra.
Qed.

Lemma mean_unless_empty_bounds {R : Type} (field : R -> Q) (frame : list R)
    (lo hi : Q) :
  (forall row, In row frame -> lo <= field row <= hi) ->
  match Weather.mean_unless_empty field frame with
  | Some m => frame <> [] /\ lo <= m <= hi
  | None => frame = []
  end.
Proof.
  intro Hall. destruct frame as [|row frame]; [reflexivity|].
  unfold Weather.mean_unless_empty. split; [discriminate|].
  apply mean_bounds; [discriminate|].
  intros x Hx. apply in_map_iff in Hx. destruct Hx as (row' & <- & Hin).
  apply Hall. exact Hin.
Qed.

Lemma max0_spec (x : Q) :
  0 <= Weather.max0 x /\ x <= Weather.max0 x /\
  (x <= 0 -> Weather.max0 x = 0) /\ (0 < x -> Weather.max0 x = x).
Proof.
  unfold Weather.max0. destruct (Qlt_bool 0 x) eqn:E.
  - apply Qlt_bool_iff in E.
    split; [lra|]. split; [lra|]. split; [|reflexivity].
    intro H. exfalso. lra.
  - apply Qlt_bool_false_iff in E.
    split; [lra|]. split; [lra|]. split; [reflexivity|].
    intro H. exfalso. lra.
Qed.

Lemma min30_spec (x : Q) :
  Weather.min30 x <= 30 /\ Weather.min30 x <= x /\
  (x < 30 -> Weather.min30 x = x).
Proof.
  unfold Weather.min30. destruct (Qlt_bool x 30) eqn:E.
  - apply Qlt_bool_iff in E.
    split; [lra|]. split; [lra|]. reflexivity.
  - apply Qlt_bool_false_iff in E.
    split; [lra|]. split; [lra|].
    intro H. exfalso. lra.
Qed.

(** The two reductions of [get_weather_impact], as functions of the
    averages. *)
Lemma reduction_bounds (avg offset rate : Q) :
  0 <= rate ->
  let reduction :=
    if Qeq_bool avg 0 then 0 else Weather.max0 ((avg - offset) * rate) in
  0 <= reduction /\
  (avg <= offset -> reduction == 0) /\
  (forall top, offset <= top -> avg <= top -> reduction <= (top - offset) * rate).
Proof.
  intros Hrate reduction. subst reduction.
  destruct (Qeq_bool avg 0) eqn:E.
  - split; [lra|]. split; [reflexivity|].
    intros top Htop _. apply Qmult_le_0_compat; lra.
  - destruct (max0_spec ((avg - offset) * rate)) as (H0 & _ & Hneg & Hpos).
    split; [exact H0|]. split.
    + intro Hle. rewrite Hneg; [reflexivity|].
      assert (Hp : 0 <= (offset - avg) * rate) by (apply Qmult_le_0_compat; lra).
      lra.
    + intros top Htop Havg.
      assert (Hp : (avg - offset) * rate <= (top - offset) * rate)
        by (apply Qmult_le_compat_r; lra).
      destruct (Qlt_le_dec 0 ((avg - offset) * rate)) as [Hgt|Hle].
      * rewrite (Hpos Hgt). exact Hp.
      * rewrite (Hneg Hle). apply Qmult_le_0_compat; lra.
Qed.

Lemma firstn_subset {R : Type} (n : nat) (l : list R) (x : R) :
  In x (firstn n l) -> In x l.
Proof.
  intro H. rewrite <- (firstn_skipn n l). apply in_or_app. left. exact H.
Qed.

(** X19. The weather impact is bounded for every data set: the speed
    reduction lies between 0 and 30 percent, the fuel increase is 1.5 times
    the speed reduction and so at most 45 percent, and at most five
    high-risk areas are reported, each of them a wave row of the data whose
    height exceeds 4 metres. *)
Theorem weather_impact_is_bounded (w : WeatherData) :
  let impact := Weather.get_weather_impact w in
  0 <= speed_reduction impact <= 30 /\
  fuel_increase impact == speed_reduction impact * 1.5 /\
  0 <= fuel_increase impact <= 45 /\
  (List.length (high_risk_areas impact) <= 5)%nat /\
  forall area, In area (high_risk_areas impact) ->
    4 < ra_wave_height area /\
    exists row, In row (waves w) /\
      ra_lat area = wv_lat row /\ ra_lon area = wv_lon row /\
      ra_wave_height area = wv_height row /\ ra_timestamp area = wv_timestamp row.
Proof.
  unfold Weather.get_weather_impact.
  destruct (negb (has_data w)).
  - simpl. split; [split; lra|]. split; [reflexivity|]. split; [split; lra|].
    split; [lia|]. intros area [].
  - cbv zeta. cbn [speed_reduction fuel_increase high_risk_areas].
    set (avg_wind := get (avg_wind_speed (Weather.get_average_conditions w)) 0).
    set (avg_wave := get (avg_wave_height (Weather.get_average_conditions w)) 0).
    destruct (reduction_bounds avg_wind 15 0.5) as (Hwind & _); [discriminate|].
    destruct (reduction_bounds avg_wave 2 3) as (Hwave & _); [discriminate|].
    set (wind := if Qeq_bool avg_wind 0 then 0
                 else Weather.max0 ((avg_wind - 15) * 0.5)) in *.
    set (wave := if Qeq_bool avg_wave 0 then 0
                 else Weather.max0 ((avg_wave - 2) * 3)) in *.
    destruct (min30_spec (wind + wave)) as (H30 & Hmin & Hsame).
    assert (Hnonneg : 0 <= Weather.min30 (wind + wave)).
    { unfold Weather.min30. destruct (Qlt_bool (wind + wave) 30); lra. }
    split; [split; assumption|]. split; [reflexivity|]. split; [split; lra|].
    split.
    + rewrite length_map. apply firstn_le_length.
    + intros area Hin. apply in_map_iff in Hin. destruct Hin as (row & <- & Hrow).
      apply firstn_subset in Hrow. apply filter_In in Hrow. destruct Hrow as [Hin Hhigh].
      apply Qlt_bool_iff in Hhigh. simpl. split; [exact Hhigh|].
      exists row. repeat split. exact Hin.
Qed.

Lemma firstn_filter_nil {R : Type} (p : R -> bool) (l : list R) :
  (forall x, In x l -> p x = false) -> firstn 5 (filter p l) = [].
Proof.
  intro Hall.
  assert (E : filter p l = []).
  { induction l as [|x l IH]; [reflexivity|]. simpl.
    rewrite (Hall x (or_introl eq_refl)). apply IH.
    intros y Hy. apply Hall. right. exact Hy. }
  rewrite E. reflexivity.
Qed.

Lemma mean_unless_empty_upper {R : Type} (field : R -> Q) (frame : list R)
    (hi m : Q) :
  (forall row, In row frame -> field row <= hi) ->
  Weather.mean_unless_empty field frame = Some m ->
  m <= hi.
Proof.
  intros Hall Hm. destruct frame as [|row frame]; [discriminate Hm|].
  unfold Weather.mean_unless_empty in Hm. injection Hm as <-.
  set (column := map field (row :: frame)).
  assert (Hn : 0 < inject_Z (Z.of_nat (List.length column))).
  { change 0 with (inject_Z 0). rewrite <- Zlt_Qlt. subst column. simpl. lia. }
  assert (Hsum : forall l : list Q, (forall x, In x l -> x <= hi) ->
            fold_right Qplus 0 l <= inject_Z (Z.of_nat (List.length l)) * hi).
  { induction l as [|x l IH]; intro Hl.
    - cbn [List.length fold_right Z.of_nat]. change (inject_Z 0) with 0. lra.
    - assert (IH' : fold_right Qplus 0 l <= inject_Z (Z.of_nat (List.length l)) * hi)
        by (apply IH; intros y Hy; apply Hl; right; exact Hy).
      pose proof (Hl x (or_introl eq_refl)) as Hx.
      change (List.length (x :: l)) with (S (List.length l)).
      rewrite Nat2Z.inj_succ. unfold Z.succ. rewrite inject_Z_plus.
      change (inject_Z 1) with 1. simpl fold_right. lra. }
  unfold Weather.mean. fold column.
  apply Qle_shift_div_r; [exact Hn|].
  rewrite Qmult_comm. apply Hsum.
  intros x Hx. subst column. change (In x (map field (row :: frame))) in Hx.
  apply in_map_iff in Hx.
  destruct Hx as (row' & <- & Hin). apply Hall. exact Hin.
Qed.

(** X20. Calm weather costs nothing, and rough weather is capped by what
    was observed.  For a data set in which every wind speed is at most 15
    knots and every wave height at most 2 metres, the speed reduction and
    the fuel increase are 0 and no high-risk area is reported.  For a data
    set with wind speeds within 5 to 25 knots and wave heights within 0 to
    5 metres, the ranges [generate_synthetic_data] draws from, the speed
    reduction is at most 14 percent, so the 30 percent cap is never
    reached, and the fuel increase is at most 21 percent. *)
Theorem weather_impact_follows_conditions (w : WeatherData) :
  ((forall row, In row (winds w) -> fl_speed row <= 15) ->
   (forall row, In row (waves w) -> wv_height row <= 2) ->
   speed_reduction (Weather.get_weather_impact w) == 0 /\
   fuel_increase (Weather.get_weather_impact w) == 0 /\
   high_risk_areas (Weather.get_weather_impact w) = []) /\
  ((forall row, In row (winds w) -> 5 <= fl_speed row <= 25) ->
   (forall row, In row (waves w) -> 0 <= wv_height row <= 5) ->
   speed_reduction (Weather.get_weather_impact w) <= 14 /\
   fuel_increase (Weather.get_weather_impact w) <= 21).
Proof.
  unfold Weather.get_weather_impact.
  destruct (negb (has_data w)) eqn:Hdata.
  - simpl. split; intros _ _; repeat split; try reflexivity; discriminate.
  - cbv zeta. cbn [speed_reduction fuel_increase high_risk_areas].
    unfold Weather.get_average_conditions. rewrite Hdata.
    cbn [avg_wind_speed avg_wave_height].
    set (avg_wind := get (Weather.mean_unless_empty fl_speed (winds w)) 0).
    set (avg_wave := get (Weather.mean_unless_empty wv_height (waves w)) 0).
    destruct (reduction_bounds avg_wind 15 0.5) as (Hwind0 & Hwind_calm & Hwind_top);
      [discriminate|].
    destruct (reduction_bounds avg_wave 2 3) as (Hwave0 & Hwave_calm & Hwave_top);
      [discriminate|].
    set (wind := if Qeq_bool avg_wind 0 then 0
                 else Weather.max0 ((avg_wind - 15) * 0.5)) in *.
    set (wave := if Qeq_bool avg_wave 0 then 0
                 else Weather.max0 ((avg_wave - 2) * 3)) in *.
    destruct (min30_spec (wind + wave)) as (H30 & Hmin & Hsame).
    split.
    + intros Hwinds Hwaves.
      assert (Haw : avg_wind <= 15).
      { subst avg_wind.
        destruct (Weather.mean_unless_empty fl_speed (winds w)) as [m|] eqn:Em;
          [|simpl; discriminate].
        simpl. apply (mean_unless_empty_upper fl_speed (winds w) 15 m Hwinds Em). }
      assert (Hav : avg_wave <= 2).
      { subst avg_wave.
        destruct (Weather.mean_unless_empty wv_height (waves w)) as [m|] eqn:Em;
          [|simpl; discriminate].
        simpl. apply (mean_unless_empty_upper wv_height (waves w) 2 m Hwaves Em). }
      specialize (Hwind_calm Haw). specialize (Hwave_calm Hav).
      assert (Hsum : wind + wave < 30) by (rewrite Hwind_calm, Hwave_calm; reflexivity).
      rewrite (Hsame Hsum).
      split; [rewrite Hwind_calm, Hwave_calm; reflexivity|].
      split; [rewrite Hwind_calm, Hwave_calm; reflexivity|].
      rewrite firstn_filter_nil; [reflexivity|].
      intros row Hin. apply Qlt_bool_false_iff.
      specialize (Hwaves row Hin). lra.
    + intros Hwinds Hwaves.
      assert (Haw : avg_wind <= 25).
      { subst avg_wind.
        destruct (Weather.mean_unless_empty fl_speed (winds w)) as [m|] eqn:Em;
          [|simpl; discriminate].
        simpl. apply (mean_unless_empty_upper fl_speed (winds w) 25 m); [|exact Em].
        intros row Hin. apply Hwinds. exact Hin. }
      assert (Hav : avg_wave <= 5).
      { subst avg_wave.
        destruct (Weather.mean_unless_empty wv_height (waves w)) as [m|] eqn:Em;
          [|simpl; discriminate].
        simpl. apply (mean_unless_empty_upper wv_height (waves w) 5 m); [|exact Em].
        intros row Hin. apply Hwaves. exact Hin. }
      assert (Hw1 : wind <= (25 - 15) * 0.5) by (apply Hwind_top; [discriminate | exact Haw]).
      assert (Hw2 : wave <= (5 - 2) * 3) by (apply Hwave_top; [discriminate | exact Hav]).
      split; lra.
Qed.

Lemma weather_impact_follows_conditions_witness :
  speed_reduction (Weather.get_weather_impact (Weather.init (Some calm_weather))) == 0.
Proof.
  apply (proj1 (weather_impact_follows_conditions (Weather.init (Some calm_weather)))).
  - intros row [H|[H|[]]]; subst row; vm_compute; discriminate.
  - intros row [H|[H|[]]]; subst row; vm_compute; discriminate.
Defined.

(** X21. An average reported by [get_average_conditions] is absent exactly
    when there is no data or the frame has no rows, and otherwise lies
    within any bounds that hold for every sample of the frame. *)
Theorem averages_lie_within_samples (w : WeatherData) (lo hi lo' hi' : Q) :
  (forall row, In row (winds w) -> lo <= fl_speed row <= hi) ->
  (forall row, In row (waves w) -> lo' <= wv_height row <= hi') ->
  match avg_wind_speed (Weather.get_average_conditions w) with
  | Some m => has_data w = true /\ winds w <> [] /\ lo <= m <= hi
  | None => has_data w = false \/ winds w = []
  end /\
  match avg_wave_height (Weather.get_average_conditions w) with
  | Some m => has_data w = true /\ waves w <> [] /\ lo' <= m <= hi'
  | None => has_data w = false \/ waves w = []
  end.
Proof.
  intros Hwinds Hwaves. unfold Weather.get_average_conditions.
  destruct (has_data w); simpl.
  - pose proof (mean_unless_empty_bounds fl_speed (winds w) lo hi Hwinds) as H1.
    pose proof (mean_unless_empty_bounds wv_height (waves w) lo' hi' Hwaves) as H2.
    split.
    + destruct (Weather.mean_unless_empty fl_speed (winds w)); [tauto | right; exact H1].
    + destruct (Weather.mean_unless_empty wv_height (waves w)); [tauto | right; exact H2].
  - split; left; reflexivity.
Qed.

Lemma averages_lie_within_samples_witness :
  match avg_wind_speed (Weather.get_average_conditions (Weather.init (Some calm_weather))) with
  | Some m => 10 <= m <= 14
  | None => False
  end.
Proof.
  pose proof (averages_lie_within_samples (Weather.init (Some calm_weather)) 10 14 1 2)
    as H.
  destruct H as [H _].
  - intros row [H|[H|[]]]; subst row; vm_compute; split; discriminate.
  - intros row [H|[H|[]]]; subst row; vm_compute; split; discriminate.
  - destruct (avg_wind_speed (Weather.get_average_conditions
                                (Weather.init (Some calm_weather)))) as [m|] eqn:E.
    + tauto.
    + vm_compute in E. discriminate E.
Defined.

(** ** Uploaded files *)

(** X22. [prepare_vessel_data] and [prepare_route_data] return [None] for
    no file, and every failure leaves them as a plain [Exception] whose
    message starts with the fixed prefix, never as the [ValueError] raised
    inside.  A file whose name ends in none of [.csv], [.xlsx] and [.json]
    is rejected without calling any parser, with the message
    "Error processing vessel data: Unsupported file format: " followed by
    the name; the test is case sensitive, so [FLEET.CSV] is rejected. *)
Theorem prepare_data_errors (records : Type)
    (read_csv read_excel json_loads : UploadedFile -> pyexc + records)
    (file : UploadedFile) :
  prepare_vessel_data records read_csv read_excel json_loads None = inr None /\
  prepare_route_data records read_csv read_excel json_loads None = inr None /\
  (forall e,
     prepare_vessel_data records read_csv read_excel json_loads (Some file) = inl e ->
     exc_class e = "Exception"%string /\
     exists cause, exc_message e = ("Error processing vessel data: " ++ cause)%string) /\
  (forall e,
     prepare_route_data records read_csv read_excel json_loads (Some file) = inl e ->
     exc_class e = "Exception"%string /\
     exists cause, exc_message e = ("Error processing route data: " ++ cause)%string) /\
  (endswith (file_name file) ".csv" = false ->
   endswith (file_name file) ".xlsx" = false ->
   endswith (file_name file) ".json" = false ->
   prepare_vessel_data records read_csv read_excel json_loads (Some file)
   = inl {| exc_class := "Exception";
            exc_message := "Error processing vessel data: Unsupported file format: "
                           ++ file_name file |}) /\
  (forall data,
     prepare_vessel_data records read_csv read_excel json_loads (Some file)
     = inr data ->
     exists parsed, data = Some ("vessels"%string, parsed) /\
       (read_csv file = inr parsed \/ read_excel file = inr parsed \/
        json_loads file = inr parsed)) /\
  endswith "FLEET.CSV" ".csv" = false /\
  endswith "fleet.csv" ".csv" = true.
Proof.
  split; [reflexivity|]. split; [reflexivity|].
  unfold prepare_vessel_data, prepare_route_data, prepare_data.
  split; [|split; [|split; [|split]]].
  - intros e H.
    destruct (if endswith (file_name file) ".csv" then read_csv file
              else if endswith (file_name file) ".xlsx" then read_excel file
              else if endswith (file_name file) ".json" then json_loads file
              else inl _) as [cause|data]; [|discriminate H].
    injection H as <-. split; [reflexivity|]. eexists. reflexivity.
  - intros e H.
    destruct (if endswith (file_name file) ".csv" then read_csv file
              else if endswith (file_name file) ".xlsx" then read_excel file
              else if endswith (file_name file) ".json" then json_loads file
              else inl _) as [cause|data]; [|discriminate H].
    injection H as <-. split; [reflexivity|]. eexists. reflexivity.
  - intros H1 H2 H3. rewrite H1, H2, H3. reflexivity.
  - intros data H.
    destruct (endswith (file_name file) ".csv");
      [|destruct (endswith (file_name file) ".xlsx");
        [|destruct (endswith (file_name file) ".json"); [|discriminate H]]].
    + destruct (read_csv file) as [e|parsed] eqn:E; [discriminate H|].
      injection H as <-. exists parsed. split; [reflexivity | left; reflexivity].
    + destruct (read_excel file) as [e|parsed] eqn:E; [discriminate H|].
      injection H as <-. exists parsed. split; [reflexivity | right; left; reflexivity].
    + destruct (json_loads file) as [e|parsed] eqn:E; [discriminate H|].
      injection H as <-. exists parsed. split; [reflexivity | right; right; reflexivity].
  - split; reflexivity.
Qed.

Lemma prepare_data_errors_witness :
  prepare_vessel_data nat (fun _ => inr 1%nat) (fun _ => inr 2%nat) (fun _ => inr 3%nat)
    (Some {| file_name := "vessel_data.txt"; file_value := "dummy content" |})
  = inl {| exc_class := "Exception";
           exc_message :=
             "Error processing vessel data: Unsupported file format: vessel_data.txt" |}.
Proof.
  apply (prepare_data_errors nat (fun _ => inr 1%nat) (fun _ => inr 2%nat)
           (fun _ => inr 3%nat)
           {| file_name := "vessel_data.txt"; file_value := "dummy content" |});
    reflexivity.
Defined.

(** ** Inverted bounds *)

(** X23. [generate_speed_profile] does not reject inverted bounds. With a
    positive step and [max_speed < min_speed] it returns a profile of at
    most one row; that row, if any, is sampled at [min_speed], above the
    maximum; and the profile is empty exactly when the bounds are apart by
    a step or more. *)
Theorem profile_of_inverted_bounds (vd : vessel_data)
    (route_distance fuel_price vessel_day_cost lo hi step : Q) :
  0 < step -> hi < lo ->
  exists rows,
    generate_speed_profile vd route_distance fuel_price vessel_day_cost (lo, hi) step
    = Ok rows /\
    (List.length rows <= 1)%nat /\
    (forall row, In row rows -> row_speed row == lo /\ hi < row_speed row) /\
    (rows = [] <-> step <= lo - hi).
Proof.
  intros Hstep Hinv.
  assert (Hstep0 : ~ step == 0) by (intro E; lra).
  destruct (generate_speed_profile_indexed vd route_distance fuel_price vessel_day_cost
              lo hi step Hstep0) as (rows & Hrows & Hlen & Hnth).
  exists rows. split; [exact Hrows|].
  set (x := (hi + step - lo) / step) in *.
  assert (Hx1 : x <= 1).
  { subst x. apply Qle_shift_div_r; [exact Hstep | lra]. }
  assert (Hceil1 : (Qceiling x <= 1)%Z).
  { apply Qceiling_resp_le in Hx1. exact Hx1. }
  assert (Hle1 : (List.length rows <= 1)%nat) by (rewrite Hlen; lia).
  split; [exact Hle1|]. split.
  - intros row Hin. apply In_nth_error in Hin. destruct Hin as [i Hi].
    destruct (Hnth i row Hi) as (Hlt & Hs & _).
    assert (Hi0 : i = 0%nat) by lia. subst i.
    assert (E : row_speed row == lo).
    { rewrite Hs. change (inject_Z (Z.of_nat 0)) with 0. ring. }
    split; [exact E | rewrite E; exact Hinv].
  - split.
    + intro Hnil. rewrite Hnil in Hlen. simpl in Hlen.
      destruct (Qlt_le_dec (lo - hi) step) as [Hlt|Hge]; [|exact Hge].
      exfalso.
      assert (Hpos : 0 < x).
      { subst x. apply Qlt_shift_div_l; [exact Hstep | lra]. }
      pose proof (Qle_ceiling x) as Hc.
      assert (Hz : (0 < Qceiling x)%Z).
      { rewrite Zlt_Qlt. change (inject_Z 0) with 0. lra. }
      lia.
    + intro Hge.
      assert (Hx0 : x <= 0).
      { subst x. apply Qle_shift_div_r; [exact Hstep | lra]. }
      apply Qceiling_resp_le in Hx0. change (Qceiling 0) with 0%Z in Hx0.
      destruct rows as [|row rows]; [reflexivity|].
      simpl in Hlen. lia.
Qed.

Lemma profile_of_inverted_bounds_witness :
  exists rows,
    generate_speed_profile sample_vessel_data 8200 600 25000 (10, 9.8) 0.5 = Ok rows /\
    (List.length rows <= 1)%nat.
Proof.
  destruct (profile_of_inverted_bounds sample_vessel_data 8200 600 25000 10 9.8 0.5)
    as (rows & Hrows & Hlen & _); try reflexivity.
  exists rows. split; assumption.
Defined.
